(** * The internal executor of tmt: tmt/steps/execute/internal.py

    A shallow embedding of [ExecuteInternal] (its [execute], [check],
    [_setup_reboot], [_handle_reboot] and [go] methods) and the properties
    of the reboot-aware test loop. The progress bar ([_show_progress]) and
    the choice of the method in tmt/options.py ([_check_method]) follow in
    modules of their own, [Progress] and [Options].

    Python values are modelled as follows.
    - [str] is [string], a text of characters with code points below 256;
      on these the pattern class [\d] is exactly the digits 0 to 9.
    - A [dict] is an object: the store [heap] maps its address to a
      [gmap string string], and [test.environment] holds an address, so
      aliasing and [dict.copy] are visible.
    - A [Test] object is identified by its position in the list returned by
      [prepare_tests]; its attributes are updated in place in that list.
    - The host file system is a [gmap] from paths to contents.
    - A guest is an external object: what its methods return or raise is
      given by [Behaviour], a function of the calls issued so far, and every
      call is recorded in [calls].
    - An exception is the [Exc] outcome of the monad [M]; the only handler
      of the source, [except tmt.utils.RunError] in [execute], is
      [try_except_RunError]. The [while] loop of [go] has no bound, so
      [test_loop] takes fuel and [NoFuel] stands for "still running".

    Messages of [info] and [debug] carry no state and are left out, and so
    is the progress bar here, which no other method reads; of the [verbose]
    calls the one line per attempt that carries the timeout annotation is
    kept in [verbose_log]. *)

From Stdlib Require Import Ascii String DecimalString DecimalN.
From stdpp Require Import gmap strings list fin_maps.

(** ** Strings *)

Definition dquote : string := String (ascii_of_nat 34) EmptyString.
Definition newline : string := String (ascii_of_nat 10) EmptyString.

(** [c in '0'..'9'] *)
Definition is_digit (c : ascii) : bool :=
  (48 <=? nat_of_ascii c) && (nat_of_ascii c <=? 57).

(** [s.lstrip('/')] *)
Fixpoint lstrip_slash (s : string) : string :=
  match s with
  | String "/"%char s' => lstrip_slash s'
  | _ => s
  end.

Fixpoint ends_with_slash (s : string) : bool :=
  match s with
  | EmptyString => false
  | String c EmptyString => Ascii.eqb c "/"%char
  | String _ s' => ends_with_slash s'
  end.

(** [os.path.join(a, b)] on POSIX, two arguments. *)
Definition path_join (a b : string) : string :=
  match b with
  | String "/"%char _ => b
  | _ => if bool_decide (a = EmptyString) || ends_with_slash a
         then a +:+ b else a +:+ "/" +:+ b
  end.

(** [str(n)] for a non-negative integer, and [int(s)] on the texts the
    pattern captures: [None] stands for [ValueError]. *)
Definition str (n : N) : string := NilZero.string_of_uint (N.to_uint n).
Definition int (s : string) : option N :=
  N.of_uint <$> NilZero.uint_of_string s.

(** ** The reboot marker: [re.search(r"Requesting reboot: (?P<count>\d+)", output)] *)

Definition REBOOT_MARKER : string := "Requesting reboot: ".

(** [strip_prefix p s = Some r] when [s = p ++ r]. *)
Fixpoint strip_prefix (p s : string) : option string :=
  match p, s with
  | EmptyString, _ => Some s
  | String a p', String b s' =>
      if Ascii.eqb a b then strip_prefix p' s' else None
  | String _ _, EmptyString => None
  end.

(** The longest prefix of digits: the greedy [\d*]. *)
Fixpoint digits_prefix (s : string) : string :=
  match s with
  | String c s' => if is_digit c then String c (digits_prefix s') else EmptyString
  | EmptyString => EmptyString
  end.

(** A match of the pattern at the start of [s]; the result is the group
    [count]. *)
Definition match_here (s : string) : option string :=
  match strip_prefix REBOOT_MARKER s with
  | Some rest =>
      match digits_prefix rest with
      | EmptyString => None
      | count => Some count
      end
  | None => None
  end.

(** [re.search]: the leftmost match. *)
Fixpoint re_search (s : string) : option string :=
  match match_here s with
  | Some count => Some count
  | None =>
      match s with
      | EmptyString => None
      | String _ s' => re_search s'
      end
  end.

(** ** Data model *)

(** Addresses of [dict] objects. *)
Abbreviation loc := positive.

(** The mutable and immutable attributes of [tmt.Test] that the executor
    reads or writes. *)
Record Test := mkTest {
  name : string;
  framework : string;
  test : string;
  path : string;
  duration : string;
  environment : loc;
  returncode : option Z;
  real_duration : option string;
}.

Definition set_returncode (rc : Z) (t : Test) : Test :=
  mkTest (name t) (framework t) (test t) (path t) (duration t)
         (environment t) (Some rc) (real_duration t).

Definition set_real_duration (d : string) (t : Test) : Test :=
  mkTest (name t) (framework t) (test t) (path t) (duration t)
         (environment t) (returncode t) (Some d).

(** The three cases of
    [isinstance(guest, GuestLocal) or guest.__class__ is Guest]. *)
Inductive GuestClass :=
| ClassGuestLocal    (* GuestLocal or a subclass of it *)
| ClassGuest         (* exactly the class Guest, used by connect *)
| ClassProvisioned.  (* any other subclass of Guest *)

Record Guest := mkGuest {
  guest_id : nat;
  guest_class : GuestClass;
}.

Inductive Exn :=
| RunError (stdout : option string) (rc : Z)   (* tmt.utils.RunError *)
| GuestError (message : string)                (* any other failure of a guest method *)
| FileError (file : string)                    (* self.read of a missing file *)
| SpecificationError (text : string)           (* duration_to_seconds *)
| ValueError (text : string)                   (* int() *)
| IndexError.                                  (* tests[index] *)

(** Keyword arguments of [guest.execute] as passed by [execute]; the [log]
    callback only prints. *)
Record ExecKwargs := mkKwargs {
  cwd : string;
  env : gmap string string;
  join : bool;
  interactive : bool;
  timeout : Z;
}.

(** Calls of guest methods, tagged with the guest. *)
Inductive Call :=
| CallPush (g : nat)
| CallPull (g : nat) (source : string)
| CallExecute (g : nat) (command : string) (kwargs : option ExecKwargs)
| CallReboot (g : nat).

(** What the guests do: each answer depends on the calls issued before
    (newest first). [None] and [inr] are normal returns, [Some] and [inl]
    are raised exceptions. [pull] answers with the files it brings to the
    host. *)
Record Behaviour := mkBehaviour {
  on_push : list Call -> nat -> option Exn;
  on_pull : list Call -> nat -> string -> Exn + gmap string string;
  on_execute : list Call -> nat -> string -> option ExecKwargs -> Exn + option string;
  on_reboot : list Call -> nat -> option Exn;
}.

(** ** Class constants of [ExecuteInternal] *)

Definition REBOOT_VARIABLE : string := "REBOOT_COUNT".

Definition REBOOT_SCRIPT_PATHS : list string :=
  ["/usr/bin/rstrnt-reboot"; "/usr/bin/rhts-reboot"].

(** The dedented f-string: [${REBOOT_VARIABLE}] is a dollar sign followed by
    the value of [REBOOT_VARIABLE]. *)
Definition REBOOT_SCRIPT : string :=
  "#!/bin/sh" +:+ newline +:+
  "if [ -z " +:+ dquote +:+ "$" +:+ REBOOT_VARIABLE +:+ dquote +:+ " ]; then" +:+ newline +:+
  "    export " +:+ REBOOT_VARIABLE +:+ "=0" +:+ newline +:+
  "fi" +:+ newline +:+
  "echo " +:+ dquote +:+ "Requesting reboot: $" +:+ REBOOT_VARIABLE +:+ dquote +:+ newline.

(** ** The executor *)

Section ExecuteInternal.

(** *** What the class takes from the rest of tmt

    These come from modules that are not part of the sources at hand
    ([tmt.utils], [tmt.steps.execute], [tmt.base], [click], [time]). *)

(** [tmt.Result] and the two checkers of [ExecutePlugin]; they read the
    test object and the files of its data directory. *)
Variable Result : Type.
Variable check_shell : Test -> gmap string string -> Result.
Variable check_beakerlib : Test -> gmap string string -> Result.

(** [self.step.plan.discover.workdir] *)
Variable discover_workdir : string.
(** [tmt.steps.execute.TEST_OUTPUT_FILENAME] *)
Variable TEST_OUTPUT_FILENAME : string.
(** [tmt.utils.PROCESS_TIMEOUT] *)
Variable PROCESS_TIMEOUT : Z.
(** [tmt.utils.duration_to_seconds]; [None] when it raises
    [SpecificationError]. *)
Variable duration_to_seconds : string -> option Z.
(** [self.get('interactive')] and [self.opt('verbose')] *)
Variable opt_interactive : bool.
Variable opt_verbose : nat.
(** [time.time()], [self.test_duration] and [click.style(_, fg='cyan')] *)
Variable timestamp : Type.
Variable clock : list Call -> timestamp.
Variable test_duration : timestamp -> timestamp -> string.
Variable style_cyan : string -> string.
(** The directory of a test under the step's [data] directory. *)
Variable data_directory : string -> string.

(** The guests of the plan. *)
Variable B : Behaviour.

(** Modelled from the spec: [ExecutePlugin.data_path(test, filename,
    full=True)], which is not among the sources. "a fixed per-test file
    inside a per-test data directory": the directory is determined by the
    test's name and a file name is joined to it. *)
Definition data_path (t : Test) (filename : option string) : string :=
  match filename with
  | None => data_directory (name t)
  | Some f => path_join (data_directory (name t)) f
  end.

(** *** State and the monad of the methods *)

Record World := mkWorld {
  tests : list Test;                 (* the test objects of the discover step *)
  heap : gmap loc (gmap string string);   (* dict objects *)
  files : gmap string string;        (* files on the host *)
  _results : list Result;            (* self._results *)
  calls : list Call;                 (* guest calls so far, newest first *)
  verbose_log : list (string * nat); (* self.verbose(message, shift=...) per attempt *)
}.

Inductive Res (A : Type) :=
| Ret (a : A) (w : World)     (* returned *)
| Exc (e : Exn) (w : World)   (* raised *)
| NoFuel.                     (* the loop has not finished *)
Arguments Ret {A} a w.
Arguments Exc {A} e w.
Arguments NoFuel {A}.

Definition M (A : Type) : Type := World -> Res A.

Definition ret {A} (a : A) : M A := fun w => Ret a w.
Definition raise {A} (e : Exn) : M A := fun w => Exc e w.
Definition bind {A C} (m : M A) (k : A -> M C) : M C :=
  fun w =>
    match m w with
    | Ret a w' => k a w'
    | Exc e w' => Exc e w'
    | NoFuel => NoFuel
    end.

Notation "'let*' x := m 'in' k" := (bind m (fun x => k))
  (at level 10, x name, m at level 100, k at level 200, only parsing).
Notation "m >> k" := (bind m (fun _ => k))
  (at level 100, k at level 200, only parsing, right associativity).

Definition set_tests (ts : list Test) (w : World) : World :=
  mkWorld ts (heap w) (files w) (_results w) (calls w) (verbose_log w).
Definition set_heap (h : gmap loc (gmap string string)) (w : World) : World :=
  mkWorld (tests w) h (files w) (_results w) (calls w) (verbose_log w).
Definition set_files (fs : gmap string string) (w : World) : World :=
  mkWorld (tests w) (heap w) fs (_results w) (calls w) (verbose_log w).
Definition set_results (rs : list Result) (w : World) : World :=
  mkWorld (tests w) (heap w) (files w) rs (calls w) (verbose_log w).
Definition set_calls (cs : list Call) (w : World) : World :=
  mkWorld (tests w) (heap w) (files w) (_results w) cs (verbose_log w).
Definition set_verbose_log (l : list (string * nat)) (w : World) : World :=
  mkWorld (tests w) (heap w) (files w) (_results w) (calls w) l.

(** *** Objects *)

(** [tests[index]], and reading the attributes of a test object. *)
Definition get_test (index : nat) : M Test :=
  fun w =>
    match tests w !! index with
    | Some t => Ret t w
    | None => Exc IndexError w
    end.

(** [test.attr = value] *)
Definition update_test (index : nat) (f : Test -> Test) : M unit :=
  fun w => Ret tt (set_tests (alter f index (tests w)) w).

(** The contents of the dict at [l]. *)
Definition dict_at (w : World) (l : loc) : gmap string string :=
  default ∅ (heap w !! l).

Definition dict_read (l : loc) : M (gmap string string) :=
  fun w => Ret (dict_at w l) w.

(** [d.copy()]: a new dict object with the same items. *)
Definition dict_copy (l : loc) : M loc :=
  fun w =>
    let l' := fresh (dom (heap w)) in
    Ret l' (set_heap (<[l' := dict_at w l]> (heap w)) w).

(** [d[key] = value] *)
Definition dict_setitem (l : loc) (key value : string) : M unit :=
  fun w => Ret tt (set_heap (<[l := <[key := value]> (dict_at w l)]> (heap w)) w).

(** *** Files on the host *)

(** Modelled from the spec: [self.write(path, data)] of [tmt.utils.Common],
    which is not among the sources. "overwritten on every execution
    attempt": the file holds exactly the data written last. *)
Definition write (file data : string) : M unit :=
  fun w => Ret tt (set_files (<[file := data]> (files w)) w).

(** Modelled from the spec: [self.read(path)] of [tmt.utils.Common], which
    is not among the sources: the text of the file, an error when there
    is none. *)
Definition read (file : string) : M string :=
  fun w =>
    match files w !! file with
    | Some data => Ret data w
    | None => Exc (FileError file) w
    end.

(** *** Guest methods *)

Definition record_call (c : Call) (w : World) : World :=
  set_calls (c :: calls w) w.

Definition guest_push (guest : Guest) : M unit :=
  fun w =>
    let w' := record_call (CallPush (guest_id guest)) w in
    match on_push B (calls w) (guest_id guest) with
    | Some e => Exc e w'
    | None => Ret tt w'
    end.

(** The files that [pull] brings replace the host's files of the same
    path. *)
Definition guest_pull (guest : Guest) (source : string) : M unit :=
  fun w =>
    let w' := record_call (CallPull (guest_id guest) source) w in
    match on_pull B (calls w) (guest_id guest) source with
    | inl e => Exc e w'
    | inr pulled => Ret tt (set_files (pulled ∪ files w) w')
    end.

Definition guest_execute (guest : Guest) (command : string)
    (kwargs : option ExecKwargs) : M (option string) :=
  fun w =>
    let w' := record_call (CallExecute (guest_id guest) command kwargs) w in
    match on_execute B (calls w) (guest_id guest) command kwargs with
    | inl e => Exc e w'
    | inr out => Ret out w'
    end.

Definition guest_reboot (guest : Guest) : M unit :=
  fun w =>
    let w' := record_call (CallReboot (guest_id guest)) w in
    match on_reboot B (calls w) (guest_id guest) with
    | Some e => Exc e w'
    | None => Ret tt w'
    end.

(** *** Control structures *)

(** [try: body except tmt.utils.RunError as error: handler] *)
Definition try_except_RunError {A} (body : M A)
    (handler : option string -> Z -> M A) : M A :=
  fun w =>
    match body w with
    | Exc (RunError out rc) w' => handler out rc w'
    | r => r
    end.

(** [for x in l: body] *)
Fixpoint for_each {A} (l : list A) (body : A -> M unit) : M unit :=
  match l with
  | [] => ret tt
  | x :: l' => body x >> for_each l' body
  end.

(** *** Methods *)

Definition now : M timestamp := fun w => Ret (clock (calls w)) w.

Definition verbose (message : string) (shift : nat) : M unit :=
  fun w => Ret tt (set_verbose_log (verbose_log w ++ [(message, shift)]) w).

Definition to_seconds (d : string) : M Z :=
  match duration_to_seconds d with
  | Some seconds => ret seconds
  | None => raise (SpecificationError d)
  end.

(** [execute(self, test, guest, progress)], with [test = tests[index]]. *)
Definition execute (index : nat) (guest : Guest) (progress : string) : M unit :=
  let* t := get_test index in
  (* Test will be executed in the workdir *)
  let workdir := path_join discover_workdir (lstrip_slash (path t)) in
  (* Create data directory, prepare environment *)
  let data_directory := data_path t None in
  let* environment :=
    (if bool_decide (framework t = "beakerlib")
     then let* e := dict_copy (environment t) in
          dict_setitem e "BEAKERLIB_DIR" data_directory >>
          ret e
     else ret (environment t)) in
  (* Execute the test, save the output and return code *)
  let* start := now in
  let* r := try_except_RunError
         (let* seconds := to_seconds (duration t) in
          let* items := dict_read environment in
          let* stdout := guest_execute guest (test t)
                      (Some (mkKwargs workdir items true opt_interactive seconds)) in
          update_test index (set_returncode 0) >>
          ret (stdout, ""))
         (fun stdout rc =>
            update_test index (set_returncode rc) >>
            ret (stdout,
                 if bool_decide (rc = PROCESS_TIMEOUT) then " (timeout)" else "")) in
  let '(stdout, timeout) := r in
  let* end_ := now in
  write (data_path t (Some TEST_OUTPUT_FILENAME)) (default "" stdout) >>
  let real := test_duration start end_ in
  update_test index (set_real_duration real) >>
  let shift := if opt_verbose <? 2 then 1 else 2 in
  verbose (style_cyan real +:+ " " +:+ name t +:+ " [" +:+ progress +:+ "]" +:+ timeout)
          shift.

(** [check(self, test)] *)
Definition check (index : nat) : M Result :=
  let* t := get_test index in
  fun w =>
    if bool_decide (framework t = "beakerlib")
    then Ret (check_beakerlib t (files w)) w
    else Ret (check_shell t (files w)) w.

(** [_setup_reboot(self, guest)] *)
Definition _setup_reboot (guest : Guest) : M unit :=
  match guest_class guest with
  | ClassGuestLocal | ClassGuest => ret tt
  | ClassProvisioned =>
      for_each REBOOT_SCRIPT_PATHS (fun reboot_file =>
        guest_execute guest
          ("echo '" +:+ REBOOT_SCRIPT +:+ "' > " +:+ reboot_file) None >>
        guest_execute guest ("chmod +x " +:+ reboot_file) None >>
        ret tt)
  end.

(** [_handle_reboot(self, test, guest)]; returns whether reboot was done. *)
Definition _handle_reboot (index : nat) (guest : Guest) : M bool :=
  let* t := get_test index in
  let* output := read (data_path t (Some TEST_OUTPUT_FILENAME)) in
  match re_search output with
  | Some count =>
      let* current_count :=
        match int count with
        | Some n => ret n
        | None => raise (ValueError count)
        end in
      guest_reboot guest >>
      dict_setitem (environment t) REBOOT_VARIABLE (str (current_count + 1)) >>
      ret true
  | None =>
      dict_setitem (environment t) REBOOT_VARIABLE "0" >>
      ret false
  end.

Definition append_result (r : Result) : M unit :=
  fun w => Ret tt (set_results (_results w ++ [r]) w).

(** [f"{index + 1}/{len(tests)}"] *)
Definition progress (index : nat) (w : World) : string :=
  str (N.of_nat (index + 1)) +:+ "/" +:+ str (N.of_nat (length (tests w))).

(** The body of the [while] loop of [go]; the value is the index of the
    next iteration, [index] itself after [continue]. *)
Definition iteration (guest : Guest) (index : nat) : M nat :=
  (fun w => execute index guest (progress index w) w) >>
  let* t := get_test index in
  guest_pull guest (data_path t None) >>
  let* rebooted := _handle_reboot index guest in
  if rebooted : bool then ret index
  else (let* r := check index in
        append_result r >>
        ret (S index)).

(** [while index < len(tests): ...] *)
Fixpoint test_loop (fuel : nat) (guest : Guest) (index : nat) : M unit :=
  fun w =>
    if index <? length (tests w) then
      match fuel with
      | O => NoFuel
      | S fuel' =>
          (let* index' := iteration guest index in test_loop fuel' guest index') w
      end
    else Ret tt w.

(** Modelled from the spec: [ExecutePlugin.prepare_tests], which is not
    among the sources. "Test Registry: ordered sequence of Test entities
    from discovery": the test objects of the discover step, in order. *)
Definition prepare_tests : M (list Test) := fun w => Ret (tests w) w.

(** The body of [for guest in self.step.plan.provision.guests()]. *)
Definition run_guest (fuel : nat) (guest : Guest) : M unit :=
  _setup_reboot guest >>
  (* Push workdir to guest and execute tests *)
  guest_push guest >>
  test_loop fuel guest 0.

(** [go(self)]; [dry] is [self.opt('dry')] and [guests] is
    [self.step.plan.provision.guests()]. *)
Definition go (dry : bool) (guests : list Guest) (fuel : nat) : M unit :=
  (fun w => Ret tt (set_results [] w)) >>
  (* Nothing to do in dry mode *)
  if dry then
    (fun w => Ret tt (set_results [] w))
  else
    (* For each guest execute all tests *)
    (let* _ := prepare_tests in
     for_each guests (run_guest fuel)).

(** *** Notions used in the statements *)

(** The output contains a match of [Requesting reboot: \d+]. *)
Definition contains_marker (s : string) : Prop :=
  exists pre c post,
    s = pre +:+ REBOOT_MARKER +:+ String c post /\ is_digit c = true.

Fixpoint all_digits (s : string) : bool :=
  match s with
  | EmptyString => true
  | String c s' => is_digit c && all_digits s'
  end.

Definition starts_with_digit (s : string) : bool :=
  match s with
  | String c _ => is_digit c
  | EmptyString => false
  end.


(** The lines of a text, split at line feeds. *)
Fixpoint lines (s : string) : list string :=
  match s with
  | EmptyString => [EmptyString]
  | String c s' =>
      if Ascii.eqb c (ascii_of_nat 10) then EmptyString :: lines s'
      else match lines s' with
           | l :: ls => String c l :: ls
           | [] => [String c EmptyString]
           end
  end.

Fixpoint no_newline (s : string) : bool :=
  match s with
  | EmptyString => true
  | String c s' => negb (Ascii.eqb c (ascii_of_nat 10)) && no_newline s'
  end.

(** Some line of the output contains a match of the marker. *)
Definition line_with_marker (output : string) : Prop :=
  exists line, line ∈ lines output /\ contains_marker line.

(** The file that holds the output of a test. *)
Definition output_file (t : Test) : string :=
  data_path t (Some TEST_OUTPUT_FILENAME).

(** What [check] returns for a test object and the host's files. *)
Definition checker (t : Test) (fs : gmap string string) : Result :=
  if bool_decide (framework t = "beakerlib")
  then check_beakerlib t fs else check_shell t fs.

(** The attributes of a test object that the executor never assigns. *)
Definition identity (t : Test) : string * string * string * string * string * loc :=
  (name t, framework t, test t, path t, duration t, environment t).

(** The mapping that [execute] passes as [env]. *)
Definition attempt_env (t : Test) (w : World) : gmap string string :=
  if bool_decide (framework t = "beakerlib")
  then <["BEAKERLIB_DIR" := data_path t None]> (dict_at w (environment t))
  else dict_at w (environment t).

Definition attempt_kwargs (t : Test) (w : World) (seconds : Z) : ExecKwargs :=
  mkKwargs (path_join discover_workdir (lstrip_slash (path t)))
           (attempt_env t w) true opt_interactive seconds.

Definition attempt_call (guest : Guest) (t : Test) (w : World) (seconds : Z) : Call :=
  CallExecute (guest_id guest) (test t) (Some (attempt_kwargs t w seconds)).

(** The store after the environment of an attempt is prepared. *)
Definition attempt_heap (t : Test) (w : World) : gmap loc (gmap string string) :=
  if bool_decide (framework t = "beakerlib")
  then <[fresh (dom (heap w)) := attempt_env t w]> (heap w)
  else heap w.

Definition annotation (rc : Z) : string :=
  if bool_decide (rc = PROCESS_TIMEOUT) then " (timeout)" else "".

(** The world after an attempt whose command ended with [stdout] and [rc]. *)
Definition attempted (guest : Guest) (index : nat) (t : Test) (progress : string)
    (seconds : Z) (stdout : option string) (rc : Z) (note : string) (w : World) : World :=
  let call := attempt_call guest t w seconds in
  let real := test_duration (clock (calls w)) (clock (call :: calls w)) in
  mkWorld
    (alter (set_real_duration real) index (alter (set_returncode rc) index (tests w)))
    (attempt_heap t w)
    (<[output_file t := default "" stdout]> (files w))
    (_results w)
    (call :: calls w)
    (verbose_log w ++
       [(style_cyan real +:+ " " +:+ name t +:+ " [" +:+ progress +:+ "]" +:+ note,
         if opt_verbose <? 2 then 1 else 2)]).

(** The answer of the guest to the [execute] call of an attempt, and what
    [execute] makes of it: the output, the return code and the annotation
    of the report line; [None] when the exception is not a [RunError]. *)
Definition attempt_answer (guest : Guest) (t : Test) (w : World) (seconds : Z)
    : Exn + option string :=
  on_execute B (calls w) (guest_id guest) (test t) (Some (attempt_kwargs t w seconds)).

Definition command_result (a : Exn + option string) : option (option string * Z * string) :=
  match a with
  | inr stdout => Some (stdout, 0%Z, "")
  | inl (RunError stdout rc) => Some (stdout, rc, annotation rc)
  | inl _ => None
  end.

(** The world after [guest.pull] brought [pulled]. *)
Definition pulled_into (guest : Guest) (source : string)
    (pulled : gmap string string) (w : World) : World :=
  set_files (pulled ∪ files w) (record_call (CallPull (guest_id guest) source) w).

(** The world after [self._results.append(self.check(test))]. *)
Definition finalized (index : nat) (w : World) : World :=
  match tests w !! index with
  | Some t => set_results (_results w ++ [checker t (files w)]) w
  | None => w
  end.

(** The world after [test.environment[REBOOT_VARIABLE] = value]. *)
Definition set_reboot_count (t : Test) (value : string) (w : World) : World :=
  set_heap (<[environment t := <[REBOOT_VARIABLE := value]> (dict_at w (environment t))]>
              (heap w)) w.

(** The value of [REBOOT_COUNT] in the environment of a test. *)
Definition reboot_count (t : Test) (w : World) : option string :=
  dict_at w (environment t) !! REBOOT_VARIABLE.

(** What a run may change. From [w] to [w']: the test objects keep their
    identity; dicts are only added; in a dict that existed, only the key
    [REBOOT_COUNT] may change, and only if the dict is the environment of a
    test whose index is in [I]; Results are only appended; guest calls are
    only added. *)
Record evolves_on (I : nat -> Prop) (w w' : World) : Prop := mkEvolves {
  ev_tests : identity <$> tests w' = identity <$> tests w;
  ev_dom : dom (heap w) ⊆ dom (heap w');
  ev_keys : forall l k, l ∈ dom (heap w) -> k <> REBOOT_VARIABLE ->
            dict_at w' l !! k = dict_at w l !! k;
  ev_others : forall l, l ∈ dom (heap w) ->
              (forall i t, I i -> tests w !! i = Some t -> environment t <> l) ->
              dict_at w' l = dict_at w l;
  ev_results : _results w `prefix_of` _results w';
  ev_calls : calls w `suffix_of` calls w';
}.

Definition any_index : nat -> Prop := fun _ => True.
Definition no_index : nat -> Prop := fun _ => False.

Definition evolves : World -> World -> Prop := evolves_on any_index.

(** The same, with no Result appended. *)
Definition quiet_on (I : nat -> Prop) (w w' : World) : Prop :=
  evolves_on I w w' /\ _results w' = _results w.

(** [R] relates the world before [m] to the world in which it returns or
    raises. *)
Definition always {A} (R : World -> World -> Prop) (m : M A) : Prop :=
  forall w,
    match m w with
    | Ret _ w' => R w w'
    | Exc _ w' => R w w'
    | NoFuel => True
    end.

(** [m] never runs out of fuel. *)
Definition total {A} (m : M A) : Prop := forall w, m w <> NoFuel.

(** The world in which a computation returned or raised. *)
Definition final {A} (r : Res A) : option World :=
  match r with
  | Ret _ w => Some w
  | Exc _ w => Some w
  | NoFuel => None
  end.

(** The environment of every test is a dict of the store. *)
Definition allocated (w : World) : Prop :=
  forall t, t ∈ tests w -> environment t ∈ dom (heap w).

(** The guest calls that install the reboot script, in order. *)
Definition install_calls (guest : Guest) : list Call :=
  flat_map (fun reboot_file =>
              [CallExecute (guest_id guest)
                 ("echo '" +:+ REBOOT_SCRIPT +:+ "' > " +:+ reboot_file) None;
               CallExecute (guest_id guest) ("chmod +x " +:+ reboot_file) None])
           REBOOT_SCRIPT_PATHS.

Definition is_absolute (file : string) : bool :=
  match file with
  | String "/"%char _ => true
  | _ => false
  end.

(** Modelled from the spec: the guest's [execute] capability
    ([Guest.execute] and the command runner of [tmt.utils], which are not
    among the sources). "fails with a run-error carrying partial output and
    return code (including a reserved timeout sentinel) on non-zero exit or
    deadline overrun": a command that needs [elapsed] seconds and would end
    with [exit_code] and output [stdout], run under [deadline] seconds. *)
Definition spec_guest_execute (exit_code elapsed : Z) (stdout : option string)
    (deadline : Z) : Exn + option string :=
  if (deadline <? elapsed)%Z then inl (RunError stdout PROCESS_TIMEOUT)
  else if (exit_code =? 0)%Z then inr stdout
  else inl (RunError stdout exit_code).

(** The report line of an attempt:
    [f"{duration} {test.name} [{progress}]{timeout}"]. *)
Definition report_line (real : string) (t : Test) (prog note : string) : string :=
  style_cyan real +:+ " " +:+ name t +:+ " [" +:+ prog +:+ "]" +:+ note.

(** [r] is a Result of the test with identity [i]: what [check] returns
    for that test object in some state of its mutable attributes and of
    the files. *)
Definition result_for (i : string * string * string * string * string * loc)
    (r : Result) : Prop :=
  exists t' fs, identity t' = i /\ r = checker t' fs.

Definition result_of (t : Test) (r : Result) : Prop := result_for (identity t) r.

(** No command run on the guest prints the reboot marker. *)
Definition never_requests_reboot (guest : Guest) : Prop :=
  forall h command kwargs stdout rc note,
    command_result (on_execute B h (guest_id guest) command kwargs)
      = Some (stdout, rc, note) ->
    ~ contains_marker (default "" stdout).

(** What [pull] brings from the guest never replaces the output file of a
    test. *)
Definition pull_keeps_outputs (guest : Guest) : Prop :=
  forall h source pulled n,
    on_pull B h (guest_id guest) source = inr pulled ->
    pulled !! path_join (data_directory n) TEST_OUTPUT_FILENAME = None.

(** The guest does what [go] asks of it: the commands that install the
    reboot script return (on a guest that gets the script), [push] and
    [pull] return, and the command of an attempt (the call with keyword
    arguments) returns or fails with a [RunError], which [execute]
    handles. *)
Record cooperative (guest : Guest) : Prop := mkCooperative {
  co_install : guest_class guest = ClassProvisioned ->
               forall h command,
                 exists out, on_execute B h (guest_id guest) command None = inr out;
  co_push : forall h, on_push B h (guest_id guest) = None;
  co_attempt : forall h command kwargs,
                 is_Some (command_result
                            (on_execute B h (guest_id guest) command (Some kwargs)));
  co_pull : forall h source,
              exists pulled, on_pull B h (guest_id guest) source = inr pulled;
}.

(** [duration_to_seconds] accepts the duration of every test. *)
Definition valid_durations (w : World) : Prop :=
  forall t, t ∈ tests w -> is_Some (duration_to_seconds (duration t)).

(** The exception with which the guest answered call [c] made after the
    calls [h], if it raised one. *)
Definition raised (h : list Call) (c : Call) : option Exn :=
  match c with
  | CallPush g => on_push B h g
  | CallPull g source =>
      match on_pull B h g source with inl e => Some e | inr _ => None end
  | CallExecute g command kwargs =>
      match on_execute B h g command kwargs with inl e => Some e | inr _ => None end
  | CallReboot g => on_reboot B h g
  end.

(** The one handler of the source: a [RunError] of the [execute] call of
    an attempt (the call with keyword arguments). *)
Definition handled (c : Call) (e : Exn) : bool :=
  match c, e with
  | CallExecute _ _ (Some _), RunError _ _ => true
  | _, _ => false
  end.

(** Exceptions that no guest call raised. *)
Definition internal (e : Exn) : Prop :=
  match e with
  | RunError _ _ | GuestError _ => False
  | FileError _ | SpecificationError _ | ValueError _ | IndexError => True
  end.

(** [h] extends [base] by calls that returned or whose exception was
    handled. *)
Inductive extended (base : list Call) : list Call -> Prop :=
| extended_base : extended base base
| extended_call c h :
    extended base h ->
    (forall e, raised h c = Some e -> handled c e = true) ->
    extended base (c :: h).

(** The calls [h'] of a run that raised [e]: the last call raised [e] and
    it was not handled, or [e] was not raised by a guest call. *)
Definition aborted (base : list Call) (e : Exn) (h' : list Call) : Prop :=
  (exists c h, h' = c :: h /\ extended base h
               /\ raised h c = Some e /\ handled c e = false)
  \/ (extended base h' /\ internal e).

Definition traced {A} (m : M A) : Prop :=
  forall w base,
    extended base (calls w) ->
    match m w with
    | Ret _ w' => extended base (calls w')
    | Exc e w' => aborted base e (calls w')
    | NoFuel => True
    end.

Definition is_infrastructure (c : Call) : bool :=
  match c with
  | CallPush _ | CallPull _ _ | CallReboot _ => true
  | CallExecute _ _ _ => false
  end.

(** *** The reboot marker *)

Lemma app_cons a (s t : string) : String a s +:+ t = String a (s +:+ t).
Proof. reflexivity. Qed.

Lemma app_nil_l (s : string) : EmptyString +:+ s = s.
Proof. reflexivity. Qed.

Lemma append_assoc (a b c : string) : (a +:+ b) +:+ c = a +:+ b +:+ c.
Proof. induction a as [|x a IH]; [done | by rewrite !app_cons, IH]. Qed.

Lemma strip_prefix_Some p s r : strip_prefix p s = Some r <-> s = p +:+ r.
Proof.
  revert s. induction p as [|a p IH]; intros s; simpl.
  - rewrite app_nil_l. split; congruence.
  - rewrite app_cons. destruct s as [|b s]; [split; discriminate|].
    destruct (Ascii.eqb_spec a b) as [->|Hne].
    + rewrite IH. split; [by intros -> | by intros [= ->]].
    + split; [discriminate | intros [= ? ?]; congruence].
Qed.

Lemma digits_prefix_split s :
  exists rest, s = digits_prefix s +:+ rest /\ starts_with_digit rest = false.
Proof.
  induction s as [|c s [rest [IH1 IH2]]]; simpl.
  - by exists EmptyString.
  - destruct (is_digit c) eqn:Hc.
    + exists rest. rewrite app_cons. by rewrite <- IH1.
    + exists (String c s). simpl. by rewrite Hc.
Qed.

Lemma digits_prefix_all_digits s : all_digits (digits_prefix s) = true.
Proof.
  induction s as [|c s IH]; simpl; [done|].
  destruct (is_digit c) eqn:Hc; simpl; [by rewrite Hc | done].
Qed.

Lemma match_here_Some s count :
  match_here s = Some count ->
  exists rest, s = REBOOT_MARKER +:+ count +:+ rest
    /\ count <> EmptyString /\ all_digits count = true
    /\ starts_with_digit rest = false.
Proof.
  unfold match_here. destruct (strip_prefix REBOOT_MARKER s) as [r|] eqn:Hs; [|done].
  apply strip_prefix_Some in Hs.
  destruct (digits_prefix_split r) as [rest [Hr Hrest]].
  pose proof (digits_prefix_all_digits r) as Hall.
  destruct (digits_prefix r) as [|c d] eqn:Hd; [done|].
  intros [= <-]. exists rest. by rewrite <- Hr.
Qed.

Lemma match_here_marker c post :
  is_digit c = true -> is_Some (match_here (REBOOT_MARKER +:+ String c post)).
Proof.
  intros Hc. unfold match_here.
  assert (strip_prefix REBOOT_MARKER (REBOOT_MARKER +:+ String c post) = Some (String c post)) as ->
    by by apply strip_prefix_Some.
  simpl. rewrite Hc. eauto.
Qed.

Lemma re_search_here s count :
  match_here s = Some count -> re_search s = Some count.
Proof. intros H. destruct s; cbn [re_search]; by rewrite H. Qed.

Lemma re_search_contains s : is_Some (re_search s) <-> contains_marker s.
Proof.
  split.
  - induction s as [|a s IH]; simpl.
    + intros [? ?]. discriminate.
    + destruct (match_here (String a s)) as [count|] eqn:Hm.
      * intros _. apply match_here_Some in Hm as (rest & Hs & Hne & Hall & _).
        destruct count as [|c count]; [done|]. simpl in Hall.
        apply andb_prop in Hall as [Hc _].
        exists EmptyString, c, (count +:+ rest). by rewrite Hs.
      * intros H. destruct (IH H) as (pre & c & post & -> & Hc).
        by exists (String a pre), c, post.
  - intros (pre & c & post & -> & Hc).
    induction pre as [|a pre IH].
    + destruct (match_here_marker c post Hc) as [count Hm].
      rewrite app_nil_l, (re_search_here _ _ Hm). eauto.
    + rewrite app_cons.
      cbn [re_search]. destruct (match_here _); eauto.
Qed.

Lemma is_digit_uint_of_char c d :
  is_digit c = true -> is_Some (uint_of_char c (Some d)).
Proof.
  destruct c as [[] [] [] [] [] [] [] []]; try discriminate; intros _; simpl; eauto.
Qed.

Lemma all_digits_uint s :
  all_digits s = true -> is_Some (NilEmpty.uint_of_string s).
Proof.
  induction s as [|c s IH]; simpl; [eauto|].
  intros [Hc Hs]%andb_prop. destruct (IH Hs) as [d ->].
  by apply is_digit_uint_of_char.
Qed.

Lemma int_digits s :
  s <> EmptyString -> all_digits s = true -> is_Some (int s).
Proof.
  intros Hne Hall. unfold int.
  destruct s as [|c s]; [done|].
  unfold NilZero.uint_of_string.
  destruct (all_digits_uint _ Hall) as [d ->]. simpl. eauto.
Qed.

Lemma int_str n : int (str n) = Some n.
Proof.
  unfold int, str.
  rewrite NilZero.usu.
  - simpl. f_equal. apply Unsigned.of_to.
  - destruct n as [|p]; [done|]. simpl.
    intros H. pose proof (DecimalPos.Unsigned.of_to p) as Hp.
    unfold Pos.of_uint in Hp. rewrite H in Hp. discriminate.
Qed.

Lemma re_search_int s count :
  re_search s = Some count -> is_Some (int count).
Proof.
  induction s as [|a s IH]; simpl.
  - discriminate.
  - destruct (match_here (String a s)) as [c|] eqn:Hm; [|done].
    intros [= ->]. apply match_here_Some in Hm as (rest & _ & Hne & Hall & _).
    by apply int_digits.
Qed.

(** A match of the marker lies within one line. *)

Lemma lines_String c (s : string) :
  lines (String c s) =
    if Ascii.eqb c (ascii_of_nat 10) then EmptyString :: lines s
    else match lines s with
         | l :: ls => String c l :: ls
         | [] => [String c EmptyString]
         end.
Proof. reflexivity. Qed.

Lemma lines_cons (s : string) : exists l ls, lines s = l :: ls.
Proof.
  induction s as [|c s (l & ls & IH)]; [simpl; eauto|]. rewrite lines_String.
  destruct (Ascii.eqb c _); [eauto|]. rewrite IH. eauto.
Qed.

Lemma lines_head (s l : string) ls : lines s = l :: ls -> exists b, s = l +:+ b.
Proof.
  revert l ls. induction s as [|c s IH]; intros l ls.
  - intros [= <- <-]. by exists EmptyString.
  - rewrite lines_String. destruct (Ascii.eqb c _).
    + intros [= <- <-]. by exists (String c s).
    + destruct (lines_cons s) as (l' & ls' & Hl). rewrite Hl.
      intros [= <- <-]. destruct (IH _ _ Hl) as [b Hb]. exists b.
      by rewrite app_cons, <- Hb.
Qed.

Lemma lines_inside (s line : string) :
  line ∈ lines s -> exists a b, s = a +:+ line +:+ b.
Proof.
  revert line. induction s as [|c s IH]; intros line Hin.
  - simpl in Hin. apply list_elem_of_singleton in Hin as ->.
    by exists EmptyString, EmptyString.
  - destruct (lines_cons (String c s)) as (l & ls & Hl).
    rewrite Hl in Hin. apply elem_of_cons in Hin as [->|Hin].
    + destruct (lines_head _ _ _ Hl) as [b Hb]. by exists EmptyString, b.
    + assert (line ∈ lines s) as Hs.
      { rewrite lines_String in Hl. destruct (Ascii.eqb c _).
        - by injection Hl as _ <-.
        - destruct (lines_cons s) as (l' & ls' & Hl'). rewrite Hl' in *.
          injection Hl as _ <-. by right. }
      destruct (IH _ Hs) as (a & b & ->). by exists (String c a), b.
Qed.

Lemma lines_prefix (p s : string) :
  no_newline p = true ->
  exists l ls, lines s = l :: ls /\ lines (p +:+ s) = (p +:+ l) :: ls.
Proof.
  intros Hp. induction p as [|c p IH].
  - destruct (lines_cons s) as (l & ls & Hl). exists l, ls. by rewrite !app_nil_l.
  - simpl in Hp. apply andb_prop in Hp as [Hc Hp].
    destruct (IH Hp) as (l & ls & Hl & Hpl). exists l, ls. split; [done|].
    rewrite !app_cons, lines_String. apply negb_true_iff in Hc. by rewrite Hc, Hpl.
Qed.

Lemma contains_marker_app (a s b : string) :
  contains_marker s -> contains_marker (a +:+ s +:+ b).
Proof.
  intros (pre & c & post & -> & Hc). exists (a +:+ pre), c, (post +:+ b).
  split; [|done]. by rewrite !append_assoc, !app_cons.
Qed.

Lemma is_digit_not_newline c : is_digit c = true -> Ascii.eqb c (ascii_of_nat 10) = false.
Proof. destruct c as [[] [] [] [] [] [] [] []]; done. Qed.

Lemma line_with_marker_iff (output : string) :
  line_with_marker output <-> contains_marker output.
Proof.
  split.
  - intros (line & Hin & Hc). destruct (lines_inside _ _ Hin) as (a & b & ->).
    by apply contains_marker_app.
  - intros (pre & c & post & -> & Hc). induction pre as [|a pre IH].
    + rewrite app_nil_l.
      destruct (lines_prefix (REBOOT_MARKER +:+ String c EmptyString) post)
        as (l & ls & _ & Hl).
      { simpl. by rewrite (is_digit_not_newline c Hc). }
      rewrite append_assoc, app_cons, app_nil_l in Hl.
      exists ((REBOOT_MARKER +:+ String c EmptyString) +:+ l). split.
      * rewrite Hl. by left.
      * exists EmptyString, c, l. split; [|done].
        by rewrite append_assoc, app_cons, !app_nil_l.
    + destruct IH as (line & Hin & Hline). unfold line_with_marker.
      rewrite app_cons, lines_String.
      destruct (Ascii.eqb a (ascii_of_nat 10)).
      * exists line. split; [by right|done].
      * destruct (lines_cons (pre +:+ REBOOT_MARKER +:+ String c post)) as (l & ls & Hl).
        rewrite Hl in *. apply elem_of_cons in Hin as [->|Hin].
        -- exists (String a l). split; [by left|].
           by apply (contains_marker_app (String a EmptyString) l EmptyString) in Hline;
             rewrite app_cons, app_nil_l in Hline;
             replace (l +:+ EmptyString) with l in Hline
               by (clear; induction l as [|x l IHl]; [done|by rewrite app_cons, <- IHl]).
        -- exists line. split; [by right|done].
Qed.

(** *** One attempt *)

Lemma execute_unfold index guest prog w t :
  tests w !! index = Some t ->
  execute index guest prog w =
    match duration_to_seconds (duration t) with
    | None => Exc (SpecificationError (duration t)) (set_heap (attempt_heap t w) w)
    | Some seconds =>
        match on_execute B (calls w) (guest_id guest) (test t)
                (Some (attempt_kwargs t w seconds)) with
        | inr stdout => Ret tt (attempted guest index t prog seconds stdout 0 "" w)
        | inl (RunError stdout rc) =>
            Ret tt (attempted guest index t prog seconds stdout rc (annotation rc) w)
        | inl e => Exc e (record_call (attempt_call guest t w seconds)
                            (set_heap (attempt_heap t w) w))
        end
    end.
Proof.
  intros Ht. destruct w as [ts hp fs rs cs vl]. simpl in Ht.
  unfold execute, bind, get_test. simpl. rewrite Ht.
  unfold attempted, attempt_call, attempt_kwargs, attempt_heap, attempt_env,
    annotation, output_file.
  unfold dict_copy, dict_setitem, dict_read, dict_at, to_seconds, guest_execute,
    try_except_RunError, update_test, now, write, verbose, record_call, bind, ret, raise.
  destruct (bool_decide (framework t = "beakerlib")) eqn:Hf; simpl.
  - rewrite lookup_insert_eq, insert_insert_eq. simpl.
    destruct (duration_to_seconds (duration t)) as [seconds|]; simpl; [|done].
    rewrite lookup_insert_eq. simpl.
    destruct (on_execute B cs _ _ _) as [[out rc| | | | |]|out]; reflexivity.
  - destruct (duration_to_seconds (duration t)) as [seconds|]; simpl; [|done].
    destruct (on_execute B cs _ _ _) as [[out rc| | | | |]|out]; reflexivity.
Qed.

Lemma attempted_test guest index t prog seconds stdout rc note w :
  tests w !! index = Some t ->
  exists real,
    tests (attempted guest index t prog seconds stdout rc note w) !! index
    = Some (set_real_duration real (set_returncode rc t)).
Proof.
  intros Ht. eexists. unfold attempted. simpl.
  rewrite !list_lookup_alter_eq, Ht. reflexivity.
Qed.

Lemma handle_reboot_unfold index guest w t output :
  tests w !! index = Some t ->
  files w !! output_file t = Some output ->
  _handle_reboot index guest w =
    match re_search output with
    | Some count =>
        match int count with
        | Some n =>
            match on_reboot B (calls w) (guest_id guest) with
            | None =>
                Ret true (set_reboot_count t (str (n + 1))
                            (record_call (CallReboot (guest_id guest)) w))
            | Some e => Exc e (record_call (CallReboot (guest_id guest)) w)
            end
        | None => Exc (ValueError count) w
        end
    | None => Ret false (set_reboot_count t "0" w)
    end.
Proof.
  intros Ht Hf. unfold _handle_reboot, bind, get_test, read. rewrite Ht.
  fold (output_file t). rewrite Hf.
  destruct (re_search output) as [count|]; [|done].
  destruct (int count) as [n|]; [|done].
  unfold guest_reboot, ret. simpl.
  destruct (on_reboot B (calls w) (guest_id guest)); done.
Qed.

Lemma handle_reboot_no_file index guest w t :
  tests w !! index = Some t ->
  files w !! output_file t = None ->
  _handle_reboot index guest w = Exc (FileError (output_file t)) w.
Proof.
  intros Ht Hf. unfold _handle_reboot, bind, get_test, read. rewrite Ht.
  fold (output_file t). by rewrite Hf.
Qed.

Lemma check_unfold index w t :
  tests w !! index = Some t -> check index w = Ret (checker t (files w)) w.
Proof.
  intros Ht. unfold check, bind, get_test, checker. rewrite Ht.
  by destruct (bool_decide _).
Qed.

Lemma execute_result index guest prog w t seconds stdout rc note :
  tests w !! index = Some t ->
  duration_to_seconds (duration t) = Some seconds ->
  command_result (attempt_answer guest t w seconds) = Some (stdout, rc, note) ->
  execute index guest prog w
  = Ret tt (attempted guest index t prog seconds stdout rc note w).
Proof.
  intros Ht Hd Ha. rewrite (execute_unfold _ _ _ _ _ Ht), Hd.
  unfold attempt_answer in Ha.
  destruct (on_execute B _ _ _ _) as [[] |]; simpl in Ha; congruence.
Qed.

(** One pass through the body of the loop when the command ran and [pull]
    returned. *)
Lemma iteration_run guest index w t seconds stdout rc note pulled :
  tests w !! index = Some t ->
  duration_to_seconds (duration t) = Some seconds ->
  command_result (attempt_answer guest t w seconds) = Some (stdout, rc, note) ->
  let w1 := attempted guest index t (progress index w) seconds stdout rc note w in
  on_pull B (calls w1) (guest_id guest) (data_path t None) = inr pulled ->
  pulled !! output_file t = None ->
  let w2 := pulled_into guest (data_path t None) pulled w1 in
  iteration guest index w =
    match re_search (default "" stdout) with
    | Some count =>
        match int count with
        | Some n =>
            match on_reboot B (calls w2) (guest_id guest) with
            | None =>
                Ret index (set_reboot_count t (str (n + 1))
                             (record_call (CallReboot (guest_id guest)) w2))
            | Some e => Exc e (record_call (CallReboot (guest_id guest)) w2)
            end
        | None => Exc (ValueError count) w2
        end
    | None => Ret (S index) (finalized index (set_reboot_count t "0" w2))
    end.
Proof.
  intros Ht Hd Ha w1 Hp Hfile w2.
  unfold iteration, bind.
  rewrite (execute_result _ _ _ _ _ _ _ _ _ Ht Hd Ha). fold w1.
  destruct (attempted_test guest index t (progress index w) seconds stdout rc note w Ht)
    as [real Ht1]. fold w1 in Ht1.
  unfold get_test. rewrite Ht1.
  unfold guest_pull. change (data_path _ None) with (data_path t None). rewrite Hp.
  fold (pulled_into guest (data_path t None) pulled w1). fold w2.
  assert (tests w2 !! index = Some (set_real_duration real (set_returncode rc t))) as Ht2
    by exact Ht1.
  assert (files w2 !! output_file t = Some (default "" stdout)) as Hf2.
  { unfold w2, pulled_into, w1, attempted. simpl.
    rewrite lookup_union_r by done. apply lookup_insert_eq. }
  rewrite (handle_reboot_unfold _ _ _ _ _ Ht2 Hf2).
  destruct (re_search (default "" stdout)) as [count|].
  - destruct (int count) as [n|]; [|done].
    destruct (on_reboot B (calls w2) (guest_id guest)); done.
  - change (set_reboot_count (set_real_duration real (set_returncode rc t)))
      with (set_reboot_count t).
    set (w3 := set_reboot_count t "0" w2).
    assert (tests w3 !! index = Some (set_real_duration real (set_returncode rc t))) as Ht3
      by exact Ht2.
    rewrite (check_unfold _ _ _ Ht3). unfold append_result, ret, finalized.
    by rewrite Ht3.
Qed.

Lemma calls_pulled_attempted guest index t prog seconds stdout rc note pulled w :
  calls (pulled_into guest (data_path t None) pulled
           (attempted guest index t prog seconds stdout rc note w))
  = CallPull (guest_id guest) (data_path t None)
      :: attempt_call guest t w seconds :: calls w.
Proof. reflexivity. Qed.

(** *** The loop retries exactly on a reboot request *)

(** C1. Take an attempt of the test at [index] whose command ran (it
    returned, or failed with a [RunError], with captured output [stdout])
    and whose data directory was pulled without touching the output file.
    The iteration then goes on at the same index with [_results] unchanged
    if and only if some line of the captured output contains a match of
    [Requesting reboot: <digits>]. When there is no such line the
    iteration returns, appends exactly one Result and moves to
    [index + 1]; when there is one and the reboot succeeds it returns at
    the same index with no Result appended. *)
Theorem retry_iff_reboot_marker guest index w t seconds stdout rc note pulled :
  tests w !! index = Some t ->
  duration_to_seconds (duration t) = Some seconds ->
  command_result (attempt_answer guest t w seconds) = Some (stdout, rc, note) ->
  on_pull B (attempt_call guest t w seconds :: calls w) (guest_id guest)
    (data_path t None) = inr pulled ->
  pulled !! output_file t = None ->
  let output := default "" stdout in
  (forall index' w',
      iteration guest index w = Ret index' w' ->
      (index' = index /\ _results w' = _results w) <-> line_with_marker output)
  /\ (~ line_with_marker output ->
      exists w' r, iteration guest index w = Ret (S index) w'
                   /\ _results w' = _results w ++ [r])
  /\ (line_with_marker output ->
      on_reboot B (CallPull (guest_id guest) (data_path t None)
                     :: attempt_call guest t w seconds :: calls w)
        (guest_id guest) = None ->
      exists w', iteration guest index w = Ret index w'
                 /\ _results w' = _results w).
Proof.
  intros Ht Hd Ha Hp Hfile output.
  pose proof (iteration_run guest index w t seconds stdout rc note pulled Ht Hd Ha Hp Hfile)
    as Hrun. cbv zeta in Hrun. fold output in Hrun.
  pose proof (re_search_contains output) as Hmark.
  rewrite <- line_with_marker_iff in Hmark.
  pose proof (re_search_int output) as Hint.
  destruct (re_search output) as [count|].
  - assert (line_with_marker output) as Hyes by (apply Hmark; eauto).
    destruct (Hint count eq_refl) as [n Hn]. rewrite Hn in Hrun.
    split; [|split].
    + intros index' w' Hit. rewrite Hit in Hrun.
      destruct (on_reboot B _ _); [done|]. injection Hrun as -> ->.
      split; [done|]. intros _. split; reflexivity.
    + intros Hno. by destruct Hno.
    + intros _ Hr. rewrite calls_pulled_attempted, Hr in Hrun. eauto.
  - assert (~ line_with_marker output) as Hno.
    { intros Hc. apply Hmark in Hc as [? ?]. discriminate. }
    split; [|split].
    + intros index' w' Hit. rewrite Hit in Hrun. injection Hrun as -> ->.
      split; [|done]. intros [Hi _]. lia.
    + intros _.
      destruct (attempted_test guest index t (progress index w) seconds stdout rc note w Ht)
        as [real Ht1].
      eexists _, _. split; [exact Hrun|].
      unfold finalized. simpl. simpl in Ht1. rewrite Ht1. reflexivity.
    + intros Hc. by destruct Hno.
Qed.

(** *** What a run may change *)

Lemma lookup_identity (ts ts' : list Test) i t :
  identity <$> ts' = identity <$> ts ->
  ts !! i = Some t ->
  exists t', ts' !! i = Some t' /\ identity t' = identity t.
Proof.
  intros H Ht.
  assert ((identity <$> ts') !! i = Some (identity t)) as Hi
    by (by rewrite H, list_lookup_fmap, Ht).
  rewrite list_lookup_fmap in Hi.
  destruct (ts' !! i) as [t'|]; simpl in Hi; [|done].
  exists t'. split; [done|congruence].
Qed.

#[local] Instance evolves_on_refl I : Reflexive (evolves_on I).
Proof. intros w. by split. Qed.

#[local] Instance evolves_on_trans I : Transitive (evolves_on I).
Proof.
  intros w1 w2 w3 [Ht1 Hd1 Hk1 Ho1 Hr1 Hc1] [Ht2 Hd2 Hk2 Ho2 Hr2 Hc2].
  split.
  - by rewrite Ht2.
  - set_solver.
  - intros l k Hl Hk. rewrite Hk2 by set_solver. by apply Hk1.
  - intros l Hl Hn. rewrite Ho2; [by apply Ho1 | set_solver |].
    intros i t2 Hi Hlook.
    destruct (lookup_identity (tests w2) (tests w1) i t2) as (t1 & Hlook1 & Hid);
      [done..|].
    assert (environment t2 = environment t1) as -> by (by injection Hid).
    by eapply Hn.
  - by etrans.
  - by etrans.
Qed.

#[local] Instance evolves_refl : Reflexive evolves.
Proof. apply evolves_on_refl. Qed.

#[local] Instance evolves_trans : Transitive evolves.
Proof. apply evolves_on_trans. Qed.

#[local] Instance quiet_on_refl I : Reflexive (quiet_on I).
Proof. intros w. by split. Qed.

#[local] Instance quiet_on_trans I : Transitive (quiet_on I).
Proof.
  intros w1 w2 w3 [He1 Hr1] [He2 Hr2]. split; [by etrans | congruence].
Qed.

Lemma evolves_on_mono (I J : nat -> Prop) w w' :
  (forall i, I i -> J i) -> evolves_on I w w' -> evolves_on J w w'.
Proof.
  intros HIJ [Ht Hd Hk Ho Hr Hc]. split; try done.
  intros l Hl Hn. apply Ho; [done|]. intros i t Hi. apply Hn. by apply HIJ.
Qed.

Lemma quiet_on_mono (I J : nat -> Prop) w w' :
  (forall i, I i -> J i) -> quiet_on I w w' -> quiet_on J w w'.
Proof. intros HIJ [He Hr]. split; [by eapply evolves_on_mono|done]. Qed.

Lemma quiet_evolves I w w' : quiet_on I w w' -> evolves w w'.
Proof. intros [He _]. by eapply evolves_on_mono; [|exact He]. Qed.

Lemma always_ret {A} (R : World -> World -> Prop) `{!Reflexive R} (a : A) :
  always R (ret a).
Proof. intros w. simpl. reflexivity. Qed.

Lemma always_bind {A C} (R : World -> World -> Prop) `{!Transitive R}
    (m : M A) (k : A -> M C) :
  always R m -> (forall a, always R (k a)) -> always R (bind m k).
Proof.
  intros Hm Hk w. unfold bind. specialize (Hm w).
  destruct (m w) as [a w1|e w1|]; [|done..].
  specialize (Hk a w1). destruct (k a w1); [by etrans..|done].
Qed.

Lemma always_weaken {A} (R R' : World -> World -> Prop) (m : M A) :
  (forall w w', R w w' -> R' w w') -> always R m -> always R' m.
Proof. intros HR Hm w. specialize (Hm w). destruct (m w); auto. Qed.

Lemma always_for_each {A} (R : World -> World -> Prop)
    `{!Reflexive R} `{!Transitive R} (l : list A) (body : A -> M unit) :
  (forall x, always R (body x)) -> always R (for_each l body).
Proof.
  intros Hb. induction l as [|x l IH]; simpl.
  - by apply always_ret.
  - apply always_bind; auto.
Qed.

Lemma final_always {A} (R : World -> World -> Prop) (m : M A) w w' :
  always R m -> final (m w) = Some w' -> R w w'.
Proof.
  intros Hm Hf. specialize (Hm w). destruct (m w); simpl in Hf; congruence.
Qed.

Lemma identity_alter (f : Test -> Test) index (ts : list Test) :
  (forall t, identity (f t) = identity t) ->
  identity <$> alter f index ts = identity <$> ts.
Proof.
  intros Hf. rewrite (list_fmap_alter identity f id).
  - by apply list_alter_id.
  - apply Forall_forall. intros t _. apply Hf.
Qed.

(** A step that leaves every existing dict as it is. *)
Lemma quiet_same_dicts w w' :
  identity <$> tests w' = identity <$> tests w ->
  (forall l, l ∈ dom (heap w) -> heap w' !! l = heap w !! l) ->
  _results w' = _results w ->
  calls w `suffix_of` calls w' ->
  quiet_on no_index w w'.
Proof.
  intros Ht Hh Hr Hc. split; [|done]. split; [done| | | |by rewrite Hr|done].
  - intros l Hl. apply elem_of_dom. rewrite Hh by done. by apply elem_of_dom.
  - intros l k Hl _. unfold dict_at. by rewrite Hh.
  - intros l Hl _. unfold dict_at. by rewrite Hh.
Qed.

Lemma attempt_heap_lookup t w l :
  l ∈ dom (heap w) -> attempt_heap t w !! l = heap w !! l.
Proof.
  intros Hl. unfold attempt_heap. destruct (bool_decide _); [|done].
  apply lookup_insert_ne. intros <-. by apply (is_fresh (dom (heap w))).
Qed.

Lemma quiet_attempt_heap t w : quiet_on no_index w (set_heap (attempt_heap t w) w).
Proof.
  apply quiet_same_dicts; simpl; [done| |done..].
  intros l. apply attempt_heap_lookup.
Qed.

Lemma quiet_record_call c w : quiet_on no_index w (record_call c w).
Proof. apply quiet_same_dicts; simpl; [done..|]. by apply suffix_cons_r. Qed.

Lemma quiet_attempted guest index t prog seconds stdout rc note w :
  quiet_on no_index w (attempted guest index t prog seconds stdout rc note w).
Proof.
  apply quiet_same_dicts; simpl.
  - by rewrite !identity_alter.
  - intros l. apply attempt_heap_lookup.
  - done.
  - by apply suffix_cons_r.
Qed.

Lemma quiet_pulled_into guest source pulled w :
  quiet_on no_index w (pulled_into guest source pulled w).
Proof. apply quiet_same_dicts; simpl; [done..|]. by apply suffix_cons_r. Qed.

Lemma quiet_set_reboot_count index t value w :
  tests w !! index = Some t ->
  quiet_on (eq index) w (set_reboot_count t value w).
Proof.
  intros Ht. split; [|done]. split; simpl; [done| | | |done..].
  - rewrite dom_insert_L. set_solver.
  - intros l k _ Hk. unfold dict_at. simpl.
    destruct (decide (l = environment t)) as [->|Hne].
    + rewrite lookup_insert_eq. simpl. by rewrite lookup_insert_ne.
    + by rewrite lookup_insert_ne.
  - intros l _ Hl. unfold dict_at. simpl.
    rewrite lookup_insert_ne; [done|]. by eapply Hl.
Qed.

Lemma execute_quiet index guest prog :
  always (quiet_on no_index) (execute index guest prog).
Proof.
  intros w. destruct (tests w !! index) as [t|] eqn:Ht.
  - rewrite (execute_unfold _ _ _ _ _ Ht).
    destruct (duration_to_seconds (duration t)) as [seconds|];
      [|apply quiet_attempt_heap].
    destruct (on_execute B _ _ _ _) as [[]|]; try apply quiet_attempted;
      (etrans; [apply quiet_attempt_heap | apply quiet_record_call]).
  - unfold execute, bind, get_test. by rewrite Ht.
Qed.

Lemma guest_pull_quiet guest source :
  always (quiet_on no_index) (guest_pull guest source).
Proof.
  intros w. unfold guest_pull.
  destruct (on_pull B _ _ _); [apply quiet_record_call | apply quiet_pulled_into].
Qed.

Lemma guest_push_quiet guest : always (quiet_on no_index) (guest_push guest).
Proof.
  intros w. unfold guest_push. destruct (on_push B _ _); apply quiet_record_call.
Qed.

Lemma guest_execute_quiet guest command kwargs :
  always (quiet_on no_index) (guest_execute guest command kwargs).
Proof.
  intros w. unfold guest_execute.
  destruct (on_execute B _ _ _ _); apply quiet_record_call.
Qed.

Lemma handle_reboot_quiet index guest :
  always (quiet_on (eq index)) (_handle_reboot index guest).
Proof.
  intros w. destruct (tests w !! index) as [t|] eqn:Ht.
  - destruct (files w !! output_file t) as [output|] eqn:Hf.
    + rewrite (handle_reboot_unfold _ _ _ _ _ Ht Hf).
      destruct (re_search output); [|by apply quiet_set_reboot_count].
      destruct (int _); [|done].
      destruct (on_reboot B _ _).
      * eapply quiet_on_mono; [|apply quiet_record_call]. done.
      * etrans; [eapply quiet_on_mono; [|apply quiet_record_call]; done|].
        by apply quiet_set_reboot_count.
    + by rewrite (handle_reboot_no_file _ _ _ _ Ht Hf).
  - unfold _handle_reboot, bind, get_test. by rewrite Ht.
Qed.

Lemma check_quiet index : always (quiet_on no_index) (check index).
Proof.
  intros w. destruct (tests w !! index) as [t|] eqn:Ht.
  - by rewrite (check_unfold _ _ _ Ht).
  - unfold check, bind, get_test. by rewrite Ht.
Qed.

Lemma get_test_quiet index : always (quiet_on no_index) (get_test index).
Proof. intros w. unfold get_test. by destruct (tests w !! index). Qed.

Lemma append_result_evolves r : always (evolves_on no_index) (append_result r).
Proof.
  intros w. simpl. split; simpl; try done. by apply prefix_app_r.
Qed.

Lemma setup_reboot_quiet guest : always (quiet_on no_index) (_setup_reboot guest).
Proof.
  unfold _setup_reboot. destruct (guest_class guest); try apply always_ret; try apply _.
  apply always_for_each; try apply _. intros reboot_file.
  repeat (apply always_bind; [apply _ | apply guest_execute_quiet | intros _]).
  apply always_ret, _.
Qed.

(** An iteration at [index] changes no dict but the environment of the
    test at [index]. *)
Lemma iteration_evolves guest index :
  always (evolves_on (eq index)) (iteration guest index).
Proof.
  assert (forall A (m : M A), always (quiet_on no_index) m ->
            always (evolves_on (eq index)) m) as Hq.
  { intros A m. apply always_weaken. intros w w' [He _].
    by eapply evolves_on_mono; [|exact He]. }
  unfold iteration.
  apply always_bind; [apply _| |intros _].
  { intros w. pose proof (Hq _ _ (execute_quiet index guest (progress index w)) w) as H.
    by destruct (execute _ _ _ w). }
  apply always_bind; [apply _|apply Hq, get_test_quiet|intros t].
  apply always_bind; [apply _|apply Hq, guest_pull_quiet|intros _].
  apply always_bind; [apply _| |intros rebooted].
  { eapply always_weaken; [|apply handle_reboot_quiet]. by intros w w' [He _]. }
  destruct rebooted; [apply always_ret, _|].
  apply always_bind; [apply _|apply Hq, check_quiet|intros r].
  apply always_bind; [apply _| |intros _].
  { eapply always_weaken; [|apply append_result_evolves].
    intros w w'. by apply evolves_on_mono. }
  apply always_ret, _.
Qed.

Lemma test_loop_evolves fuel guest index : always evolves (test_loop fuel guest index).
Proof.
  revert index. induction fuel as [|fuel IH]; intros index w; simpl.
  - by destruct (index <? length (tests w)).
  - destruct (index <? length (tests w)); [|done].
    apply (always_bind evolves (iteration guest index)
             (fun index' => test_loop fuel guest index')); [|intros index'; apply IH].
    eapply always_weaken; [|apply iteration_evolves].
    intros w1 w2. by apply evolves_on_mono.
Qed.

Lemma run_guest_evolves fuel guest : always evolves (run_guest fuel guest).
Proof.
  unfold run_guest.
  apply always_bind; [apply _| |intros _].
  { eapply always_weaken; [apply quiet_evolves | apply setup_reboot_quiet]. }
  apply always_bind; [apply _| |intros _].
  { eapply always_weaken; [apply quiet_evolves | apply guest_push_quiet]. }
  apply test_loop_evolves.
Qed.

Lemma guests_evolves fuel guests : always evolves (for_each guests (run_guest fuel)).
Proof. apply always_for_each; try apply _. apply run_guest_evolves. Qed.

Lemma go_dry guests fuel w : go true guests fuel w = Ret tt (set_results [] w).
Proof. reflexivity. Qed.

Lemma go_wet guests fuel w :
  go false guests fuel w = for_each guests (run_guest fuel) (set_results [] w).
Proof. reflexivity. Qed.

(** *** Dry mode *)

(** C4. In dry mode [go] returns at once: [_results] is the empty list, no
    guest call is recorded, and the test objects, the dicts, the files and
    the report lines are as before. *)
Theorem dry_run_is_empty guests fuel w :
  exists w',
    go true guests fuel w = Ret tt w'
    /\ _results w' = []
    /\ calls w' = calls w
    /\ tests w' = tests w
    /\ heap w' = heap w
    /\ files w' = files w
    /\ verbose_log w' = verbose_log w.
Proof. exists (set_results [] w). by rewrite go_dry. Qed.

(** *** Installing the reboot script *)

(** C7. [_setup_reboot] returns without any effect for a local guest and
    for a guest of the plain class [Guest]. For any other guest it issues
    the calls of [install_calls] in order, two for each of the two paths of
    [REBOOT_SCRIPT_PATHS] (write the script, make it executable), stops at
    the first call that raises, and changes nothing else. *)
Theorem setup_reboot_installs_on_provisioned guest w :
  REBOOT_SCRIPT_PATHS = ["/usr/bin/rstrnt-reboot"; "/usr/bin/rhts-reboot"]
  /\ match guest_class guest with
     | ClassGuestLocal | ClassGuest => _setup_reboot guest w = Ret tt w
     | ClassProvisioned =>
         match _setup_reboot guest w with
         | Ret _ w' =>
             w' = set_calls (rev (install_calls guest) ++ calls w) w
         | Exc e w' =>
             exists k, 1 <= k <= 4
               /\ w' = set_calls (rev (take k (install_calls guest)) ++ calls w) w
         | NoFuel => False
         end
     end.
Proof.
  split; [reflexivity|].
  unfold _setup_reboot. destruct (guest_class guest); [reflexivity..|].
  destruct w as [ts hp fs rs cs vl].
  unfold install_calls, REBOOT_SCRIPT_PATHS, for_each, bind, guest_execute, ret,
    record_call, set_calls. simpl.
  repeat match goal with
         | |- context [on_execute B ?h ?g ?c ?k] =>
             destruct (on_execute B h g c k)
         end; simpl.
  all: try reflexivity.
  all: [> exists 1 | exists 2 | exists 3 | exists 4]; (split; [lia | reflexivity]).
Qed.

(** *** The output file *)

Lemma path_join_relative a b :
  is_absolute b = false -> exists rest, path_join a b = a +:+ rest.
Proof.
  intros Hb. unfold path_join.
  assert ((if bool_decide (a = EmptyString) || ends_with_slash a
           then a +:+ b else a +:+ "/" +:+ b) = a +:+ b
          \/ (if bool_decide (a = EmptyString) || ends_with_slash a
              then a +:+ b else a +:+ "/" +:+ b) = a +:+ "/" +:+ b) as [E|E]
    by (destruct (_ || _); auto).
  - exists b. destruct b as [|c b]; [done|].
    destruct (Ascii.eqb_spec c "/"%char) as [->|Hc]; [done|].
    destruct c as [[] [] [] [] [] [] [] []]; done.
  - exists ("/" +:+ b). destruct b as [|c b]; [done|].
    destruct (Ascii.eqb_spec c "/"%char) as [->|Hc]; [done|].
    destruct c as [[] [] [] [] [] [] [] []]; done.
Qed.

(** C9. An attempt whose command ran (it returned, or failed with a
    [RunError]) writes the command's output, or the empty string when there
    is none, to the test's output file: afterwards the file holds exactly
    that text, whatever it held before, and no other file changes. The
    file is [TEST_OUTPUT_FILENAME] joined to the data directory of the
    test: it lies under that directory when the file name is relative, and
    it is the same for the test object that the next attempt at this index
    will use. *)
Theorem execute_overwrites_output_file index guest prog w t seconds stdout rc note :
  tests w !! index = Some t ->
  duration_to_seconds (duration t) = Some seconds ->
  command_result (attempt_answer guest t w seconds) = Some (stdout, rc, note) ->
  exists w',
    execute index guest prog w = Ret tt w'
    /\ files w' = <[output_file t := default "" stdout]> (files w)
    /\ files w' !! output_file t = Some (default "" stdout)
    /\ output_file t = path_join (data_path t None) TEST_OUTPUT_FILENAME
    /\ (is_absolute TEST_OUTPUT_FILENAME = false ->
        exists rest, output_file t = data_path t None +:+ rest)
    /\ (exists t', tests w' !! index = Some t' /\ output_file t' = output_file t).
Proof.
  intros Ht Hd Ha. eexists. split; [by apply execute_result|].
  split; [reflexivity|]. split; [apply lookup_insert_eq|].
  split; [reflexivity|]. split.
  - intros Hrel. by apply path_join_relative.
  - destruct (attempted_test guest index t prog seconds stdout rc note w Ht) as [real Ht'].
    eexists. split; [exact Ht'|reflexivity].
Qed.

(** *** Timeouts *)

(** C6. When the [execute] call of an attempt fails with [RunError] and
    return code [rc], the attempt still returns, [test.returncode] is [rc],
    and the report line of the attempt ends with [" (timeout)"] exactly
    when [rc] is [PROCESS_TIMEOUT]: any other return code leaves the line
    without annotation. With a guest that behaves as the spec says, an
    attempt whose deadline elapses fails with [PROCESS_TIMEOUT], so its
    return code is the sentinel and its line is annotated. *)
Theorem timeout_sets_sentinel_and_annotation index guest prog w t seconds :
  tests w !! index = Some t ->
  duration_to_seconds (duration t) = Some seconds ->
  (forall stdout rc,
      attempt_answer guest t w seconds = inl (RunError stdout rc) ->
      exists w' t' real,
        execute index guest prog w = Ret tt w'
        /\ tests w' !! index = Some t'
        /\ returncode t' = Some rc
        /\ real_duration t' = Some real
        /\ verbose_log w' =
             verbose_log w ++
               [(report_line real t prog
                   (if bool_decide (rc = PROCESS_TIMEOUT) then " (timeout)" else ""),
                 if opt_verbose <? 2 then 1 else 2)])
  /\ (forall exit_code elapsed stdout,
      attempt_answer guest t w seconds
        = spec_guest_execute exit_code elapsed stdout seconds ->
      (seconds < elapsed)%Z ->
      exists w' t' real,
        execute index guest prog w = Ret tt w'
        /\ tests w' !! index = Some t'
        /\ returncode t' = Some PROCESS_TIMEOUT
        /\ real_duration t' = Some real
        /\ verbose_log w' =
             verbose_log w ++
               [(report_line real t prog " (timeout)",
                 if opt_verbose <? 2 then 1 else 2)]).
Proof.
  intros Ht Hd.
  assert (forall stdout rc,
      attempt_answer guest t w seconds = inl (RunError stdout rc) ->
      exists w' t' real,
        execute index guest prog w = Ret tt w'
        /\ tests w' !! index = Some t'
        /\ returncode t' = Some rc
        /\ real_duration t' = Some real
        /\ verbose_log w' =
             verbose_log w ++
               [(report_line real t prog
                   (if bool_decide (rc = PROCESS_TIMEOUT) then " (timeout)" else ""),
                 if opt_verbose <? 2 then 1 else 2)]) as Herr.
  { intros stdout rc Ha.
    assert (command_result (attempt_answer guest t w seconds)
            = Some (stdout, rc, annotation rc)) as Hc by (by rewrite Ha).
    eexists _, (set_real_duration _ (set_returncode rc t)), _.
    split; [by apply execute_result|].
    split; [unfold attempted; simpl; by rewrite !list_lookup_alter_eq, Ht|].
    split; [reflexivity|]. split; reflexivity. }
  split; [exact Herr|].
  intros exit_code elapsed stdout Ha Hlate.
  unfold spec_guest_execute in Ha.
  destruct (Z.ltb_spec seconds elapsed) as [_|]; [|lia].
  destruct (Herr stdout PROCESS_TIMEOUT Ha) as (w' & t' & real & He & Ht' & Hrc & Hreal & Hlog).
  exists w', t', real. rewrite bool_decide_eq_true_2 in Hlog by done. eauto 10.
Qed.

(** *** The environment passed to the guest *)

Lemma go_evolves dry guests fuel w w' :
  final (go dry guests fuel w) = Some w' -> evolves (set_results [] w) w'.
Proof.
  destruct dry.
  - rewrite go_dry. by intros [= <-].
  - rewrite go_wet. apply final_always, guests_evolves.
Qed.

(** C10. Every attempt passes to [guest.execute], as [env], the items of
    the test's environment, extended with [BEAKERLIB_DIR] set to the data
    directory of the test when the framework is beakerlib and as they are
    for any other framework. The attempt leaves the test's own environment
    as it was, and after a whole run of [go], however many attempts it
    made, the key [BEAKERLIB_DIR] of the environment of every test is what
    it was before: a key that was absent stays absent. *)
Theorem beakerlib_dir_only_in_copy w :
  allocated w ->
  (forall index guest prog t seconds,
      tests w !! index = Some t ->
      duration_to_seconds (duration t) = Some seconds ->
      exists w',
        final (execute index guest prog w) = Some w'
        /\ calls w' =
             CallExecute (guest_id guest) (test t)
               (Some (mkKwargs
                        (path_join discover_workdir (lstrip_slash (path t)))
                        (if bool_decide (framework t = "beakerlib")
                         then <["BEAKERLIB_DIR" := data_path t None]>
                                (dict_at w (environment t))
                         else dict_at w (environment t))
                        true opt_interactive seconds))
             :: calls w
        /\ dict_at w' (environment t) = dict_at w (environment t))
  /\ (forall dry guests fuel w',
      final (go dry guests fuel w) = Some w' ->
      forall t, t ∈ tests w ->
        dict_at w' (environment t) !! "BEAKERLIB_DIR"
        = dict_at w (environment t) !! "BEAKERLIB_DIR").
Proof.
  intros Halloc. split.
  - intros index guest prog t seconds Ht Hd.
    assert (environment t ∈ dom (heap w)) as Hl.
    { apply Halloc. by eapply list_elem_of_lookup_2. }
    assert (forall w0 : World, heap w0 = attempt_heap t w ->
              dict_at w0 (environment t) = dict_at w (environment t)) as Hsame.
    { intros w0 E. unfold dict_at. by rewrite E, attempt_heap_lookup. }
    rewrite (execute_unfold _ _ _ _ _ Ht), Hd.
    destruct (on_execute B _ _ _ _) as [[]|]; simpl;
      eexists; (split; [reflexivity|]); (split; [reflexivity|]); by apply Hsame.
  - intros dry guests fuel w' Hfin t Ht.
    apply go_evolves in Hfin.
    apply (ev_keys _ _ _ Hfin (environment t) "BEAKERLIB_DIR"); [|done].
    by apply Halloc.
Qed.

(** *** The reboot counter *)

(** C3 (amended). [_handle_reboot] reads the output file of the test. When
    it holds a match of the marker, with [n] the number of the first match,
    the guest is rebooted and, once the reboot returns, [REBOOT_COUNT] in
    the test's environment is the string of [n + 1], which is what the next
    attempt passes to the guest. When it holds no match, no guest call is
    made and [REBOOT_COUNT] is set to ["0"]. The new count exceeds the
    count [m] that was set before whenever [m <= n], which is the case when
    the marker reports the count the attempt ran with. *)
Theorem reboot_count_follows_marker index guest w t output :
  tests w !! index = Some t ->
  files w !! output_file t = Some output ->
  match re_search output with
  | Some count =>
      exists n,
        int count = Some n
        /\ (on_reboot B (calls w) (guest_id guest) = None ->
            exists w',
              _handle_reboot index guest w = Ret true w'
              /\ calls w' = CallReboot (guest_id guest) :: calls w
              /\ reboot_count t w' = Some (str (n + 1))
              /\ (forall seconds,
                    env (attempt_kwargs t w' seconds) !! REBOOT_VARIABLE
                    = Some (str (n + 1)))
              /\ (forall old m,
                    reboot_count t w = Some old -> int old = Some m ->
                    (m <= n)%N ->
                    exists m', reboot_count t w' ≫= int = Some m' /\ (m < m')%N))
  | None =>
      exists w',
        _handle_reboot index guest w = Ret false w'
        /\ calls w' = calls w
        /\ reboot_count t w' = Some "0"
  end.
Proof.
  intros Ht Hf. rewrite (handle_reboot_unfold _ guest _ _ _ Ht Hf).
  pose proof (re_search_int output) as Hint.
  assert (forall value w0, reboot_count t (set_reboot_count t value w0) = Some value) as Hset.
  { intros value w0. unfold reboot_count, set_reboot_count, dict_at. simpl.
    rewrite lookup_insert_eq. simpl. apply lookup_insert_eq. }
  destruct (re_search output) as [count|].
  - destruct (Hint count eq_refl) as [n Hn]. exists n. split; [done|].
    intros Hr. rewrite Hn, Hr. eexists. split; [reflexivity|].
    split; [reflexivity|]. split; [apply Hset|]. split.
    + intros seconds. unfold attempt_kwargs, attempt_env. simpl.
      destruct (bool_decide _).
      * rewrite lookup_insert_ne by done. apply Hset.
      * apply Hset.
    + intros old m _ _ Hle. exists (n + 1)%N. rewrite Hset. simpl.
      split; [apply int_str | lia].
  - eexists. split; [reflexivity|]. split; [reflexivity|]. apply Hset.
Qed.

(** *** The shape of [_results] *)

Lemma execute_returns index guest prog w : execute index guest prog w <> NoFuel.
Proof.
  destruct (tests w !! index) as [t|] eqn:Ht.
  - rewrite (execute_unfold _ _ _ _ _ Ht).
    destruct (duration_to_seconds _); [|done].
    by destruct (on_execute B _ _ _ _) as [[]|].
  - unfold execute, bind, get_test. by rewrite Ht.
Qed.

Lemma handle_reboot_returns index guest w : _handle_reboot index guest w <> NoFuel.
Proof.
  destruct (tests w !! index) as [t|] eqn:Ht.
  - destruct (files w !! output_file t) as [output|] eqn:Hf.
    + rewrite (handle_reboot_unfold _ _ _ _ _ Ht Hf).
      destruct (re_search output); [|done]. destruct (int _); [|done].
      by destruct (on_reboot B _ _).
    + by rewrite (handle_reboot_no_file _ _ _ _ Ht Hf).
  - unfold _handle_reboot, bind, get_test. by rewrite Ht.
Qed.

(** The three ways an iteration ends: it goes on at the same index with
    [_results] as it was, or it appends one Result of the test and moves
    on, or it raises with [_results] as it was. *)
Lemma iteration_cases guest index w t :
  tests w !! index = Some t ->
  match iteration guest index w with
  | Ret index' w' =>
      (index' = index /\ _results w' = _results w)
      \/ (index' = S index /\ exists r, result_of t r /\ _results w' = _results w ++ [r])
  | Exc e w' => _results w' = _results w
  | NoFuel => False
  end.
Proof.
  intros Ht. unfold iteration, bind.
  pose proof (execute_quiet index guest (progress index w) w) as Hq1.
  pose proof (execute_returns index guest (progress index w) w) as Hr1.
  destruct (execute index guest (progress index w) w) as [[] w1|e w1|];
    [|by destruct Hq1|done].
  destruct Hq1 as [He1 Hres1].
  destruct (lookup_identity _ _ _ _ (ev_tests _ _ _ He1) Ht) as (t1 & Ht1 & Hid1).
  unfold get_test. rewrite Ht1.
  pose proof (guest_pull_quiet guest (data_path t1 None) w1) as Hq2.
  unfold guest_pull in *.
  destruct (on_pull B (calls w1) (guest_id guest) (data_path t1 None)) as [e|pulled];
    [destruct Hq2; congruence|].
  destruct Hq2 as [He2 Hres2].
  set (w2 := set_files _ _) in *.
  destruct (lookup_identity _ _ _ _ (ev_tests _ _ _ He2) Ht1) as (t2 & Ht2 & Hid2).
  pose proof (handle_reboot_quiet index guest w2) as Hq3.
  pose proof (handle_reboot_returns index guest w2) as Hr3.
  destruct (_handle_reboot index guest w2) as [rebooted w3|e w3|];
    [|destruct Hq3; congruence|done].
  destruct Hq3 as [He3 Hres3].
  destruct rebooted; [left; split; [done|congruence]|].
  destruct (lookup_identity _ _ _ _ (ev_tests _ _ _ He3) Ht2) as (t3 & Ht3 & Hid3).
  rewrite (check_unfold _ _ _ Ht3). right. split; [done|].
  exists (checker t3 (files w3)). split.
  - exists t3, (files w3). split; [congruence|done].
  - simpl. congruence.
Qed.

Lemma not_lt_drop_nil {A} (l : list A) index :
  (index <? length l) = false -> drop index l = [].
Proof. intros H%Nat.ltb_ge. by apply drop_ge. Qed.

(** Whatever a loop does from [index] on, it appends to [_results] one
    Result for each of the tests from [index] on, in their order, as far as
    it gets: for all of them when it returns, for fewer when it raises. *)
Lemma test_loop_results fuel guest index w :
  let ids := drop index (identity <$> tests w) in
  match test_loop fuel guest index w with
  | Ret _ w' =>
      exists rs, _results w' = _results w ++ rs /\ Forall2 result_for ids rs
  | Exc e w' =>
      exists rs, _results w' = _results w ++ rs
        /\ length rs < length ids
        /\ Forall2 result_for (take (length rs) ids) rs
  | NoFuel => True
  end.
Proof.
  revert index w. induction fuel as [|fuel IH]; intros index w ids; simpl.
  - destruct (index <? length (tests w)) eqn:Hlt; [done|].
    exists []. rewrite app_nil_r. split; [done|].
    unfold ids. rewrite <- fmap_drop, not_lt_drop_nil by done. constructor.
  - destruct (index <? length (tests w)) eqn:Hlt.
    2:{ exists []. rewrite app_nil_r. split; [done|].
        unfold ids. rewrite <- fmap_drop, not_lt_drop_nil by done. constructor. }
    apply Nat.ltb_lt in Hlt.
    destruct (lookup_lt_is_Some_2 _ _ Hlt) as [t Ht].
    assert (ids = identity t :: drop (S index) (identity <$> tests w)) as Hids.
    { unfold ids. erewrite drop_S; [done|]. by rewrite list_lookup_fmap, Ht. }
    pose proof (iteration_cases guest index w t Ht) as Hcase.
    pose proof (iteration_evolves guest index w) as Hev.
    unfold bind. destruct (iteration guest index w) as [index' w1|e w1|]; [| |done].
    + specialize (IH index' w1). cbv zeta in IH.
      rewrite (ev_tests _ _ _ Hev) in IH.
      destruct Hcase as [[-> Hres]|(-> & r & Hr & Hres)].
      * rewrite Hres in IH. exact IH.
      * rewrite Hres in IH. rewrite Hids.
        destruct (test_loop fuel guest (S index) w1) as [[] w2|e w2|]; [| |done].
        -- destruct IH as (rs & Hrs & Hall). exists (r :: rs).
           split; [by rewrite Hrs, <- app_assoc|]. by constructor.
        -- destruct IH as (rs & Hrs & Hlen & Hall). exists (r :: rs).
           split; [by rewrite Hrs, <- app_assoc|]. simpl.
           split; [lia|]. by constructor.
    + exists []. rewrite app_nil_r. split; [done|]. rewrite Hids. simpl.
      split; [lia|constructor].
Qed.

Lemma total_bind {A C} (m : M A) (k : A -> M C) :
  total m -> (forall a, total (k a)) -> total (bind m k).
Proof.
  intros Hm Hk w. unfold bind. specialize (Hm w).
  destruct (m w) as [a w1| |]; [apply Hk|done..].
Qed.

Lemma total_for_each {A} (l : list A) (body : A -> M unit) :
  (forall x, total (body x)) -> total (for_each l body).
Proof.
  intros Hb. induction l as [|x l IH]; simpl; [done|].
  apply total_bind; auto.
Qed.

Lemma guest_execute_total guest command kwargs :
  total (guest_execute guest command kwargs).
Proof. intros w. unfold guest_execute. by destruct (on_execute B _ _ _ _). Qed.

Lemma guest_push_total guest : total (guest_push guest).
Proof. intros w. unfold guest_push. by destruct (on_push B _ _). Qed.

Lemma setup_reboot_total guest : total (_setup_reboot guest).
Proof.
  unfold _setup_reboot. destruct (guest_class guest); try done.
  apply total_for_each. intros reboot_file.
  repeat (apply total_bind; [apply guest_execute_total | intros _]). done.
Qed.

Lemma run_guest_results fuel guest w :
  let ids := identity <$> tests w in
  match run_guest fuel guest w with
  | Ret _ w' =>
      exists rs, _results w' = _results w ++ rs /\ Forall2 result_for ids rs
  | Exc e w' =>
      exists rs, _results w' = _results w ++ rs
        /\ length rs <= length ids
        /\ Forall2 result_for (take (length rs) ids) rs
  | NoFuel => True
  end.
Proof.
  intros ids. unfold run_guest, bind.
  pose proof (setup_reboot_quiet guest w) as Hq1.
  destruct (_setup_reboot guest w) as [[] w1|e w1|]; [| |done].
  2:{ destruct Hq1 as [_ Hr]. exists []. rewrite app_nil_r. simpl.
      split; [done|]. split; [lia|constructor]. }
  destruct Hq1 as [He1 Hr1].
  pose proof (guest_push_quiet guest w1) as Hq2.
  destruct (guest_push guest w1) as [[] w2|e w2|]; [| |done].
  2:{ destruct Hq2 as [_ Hr]. exists []. rewrite app_nil_r. simpl.
      split; [congruence|]. split; [lia|constructor]. }
  destruct Hq2 as [He2 Hr2].
  pose proof (test_loop_results fuel guest 0 w2) as Hloop. cbv zeta in Hloop.
  rewrite drop_0, (ev_tests _ _ _ He2), (ev_tests _ _ _ He1), Hr2, Hr1 in Hloop.
  fold ids in Hloop.
  destruct (test_loop fuel guest 0 w2) as [[] w3|e w3|]; [done| |done].
  destruct Hloop as (rs & Hrs & Hlen & Hall). exists rs.
  split; [done|]. split; [lia|done].
Qed.

(** The Results of a run over several guests: one block per guest that
    was completed, each with one Result per test in order, then the
    Results of the guest at which the run raised. *)
Lemma guests_results fuel guests w :
  let ids := identity <$> tests w in
  match for_each guests (run_guest fuel) w with
  | Ret _ w' =>
      exists blocks, _results w' = _results w ++ concat blocks
        /\ length blocks = length guests
        /\ Forall (Forall2 result_for ids) blocks
  | Exc e w' =>
      exists blocks rest, _results w' = _results w ++ concat blocks ++ rest
        /\ length blocks < length guests
        /\ Forall (Forall2 result_for ids) blocks
        /\ length rest <= length ids
        /\ Forall2 result_for (take (length rest) ids) rest
  | NoFuel => True
  end.
Proof.
  revert w. induction guests as [|guest guests IH]; intros w ids; simpl.
  - exists []. simpl. by rewrite app_nil_r.
  - unfold bind.
    pose proof (run_guest_results fuel guest w) as Hone. cbv zeta in Hone.
    pose proof (run_guest_evolves fuel guest w) as Hev.
    fold ids in Hone.
    destruct (run_guest fuel guest w) as [[] w1|e w1|]; [| |done].
    + destruct Hone as (rs & Hrs & Hall).
      specialize (IH w1). cbv zeta in IH.
      rewrite (ev_tests _ _ _ Hev), Hrs in IH. fold ids in IH.
      destruct (for_each guests (run_guest fuel) w1) as [[] w2|e w2|]; [| |done].
      * destruct IH as (blocks & Hb & Hlen & Hblocks).
        exists (rs :: blocks). simpl.
        split; [by rewrite Hb, <- !app_assoc|]. split; [lia|]. by constructor.
      * destruct IH as (blocks & rest & Hb & Hlen & Hblocks & Hle & Hrest).
        exists (rs :: blocks), rest. simpl.
        split; [by rewrite Hb, <- !app_assoc|]. split; [lia|].
        split; [by constructor|]. done.
    + destruct Hone as (rs & Hrs & Hlen & Hall).
      exists [], rs. simpl. split; [done|]. split; [lia|]. split; [constructor|]. done.
Qed.

(** *** Guests that never ask for a reboot *)

Lemma output_file_as_path t :
  output_file t = path_join (data_directory (name t)) TEST_OUTPUT_FILENAME.
Proof. reflexivity. Qed.

Lemma iteration_advances guest index w t index' w' :
  never_requests_reboot guest ->
  pull_keeps_outputs guest ->
  tests w !! index = Some t ->
  iteration guest index w = Ret index' w' ->
  index' = S index.
Proof.
  intros Hno Hkeep Ht Hit.
  destruct (duration_to_seconds (duration t)) as [seconds|] eqn:Hd.
  2:{ unfold iteration, bind in Hit.
      by rewrite (execute_unfold _ _ _ _ _ Ht), Hd in Hit. }
  destruct (command_result (attempt_answer guest t w seconds))
    as [[[stdout rc] note]|] eqn:Ha.
  2:{ unfold iteration, bind in Hit.
      rewrite (execute_unfold _ _ _ _ _ Ht), Hd in Hit.
      unfold attempt_answer in Ha.
      by destruct (on_execute B _ _ _ _) as [[]|]. }
  set (w1 := attempted guest index t (progress index w) seconds stdout rc note w).
  destruct (on_pull B (calls w1) (guest_id guest) (data_path t None))
    as [e|pulled] eqn:Hp.
  { unfold iteration, bind in Hit.
    rewrite (execute_result _ _ _ _ _ _ _ _ _ Ht Hd Ha) in Hit. fold w1 in Hit.
    destruct (attempted_test guest index t (progress index w) seconds stdout rc note w Ht)
      as [real Ht1]. fold w1 in Ht1.
    unfold get_test in Hit. rewrite Ht1 in Hit.
    unfold guest_pull in Hit.
    change (data_path _ None) with (data_path t None) in Hit.
    by rewrite Hp in Hit. }
  assert (pulled !! output_file t = None) as Hfile.
  { rewrite output_file_as_path. by eapply Hkeep. }
  rewrite (iteration_run _ _ _ _ _ _ _ _ _ Ht Hd Ha Hp Hfile) in Hit.
  destruct (re_search (default "" stdout)) as [count|] eqn:Hs.
  - exfalso. eapply Hno; [exact Ha|]. apply re_search_contains. by rewrite Hs.
  - by injection Hit as <- _.
Qed.

Lemma test_loop_terminates fuel guest index w :
  never_requests_reboot guest ->
  pull_keeps_outputs guest ->
  length (tests w) <= fuel + index ->
  test_loop fuel guest index w <> NoFuel.
Proof.
  intros Hno Hkeep. revert index w.
  induction fuel as [|fuel IH]; intros index w Hlen; simpl.
  - destruct (Nat.ltb_spec index (length (tests w))); [lia|done].
  - destruct (Nat.ltb_spec index (length (tests w))) as [Hlt|]; [|done].
    destruct (lookup_lt_is_Some_2 _ _ Hlt) as [t Ht].
    pose proof (iteration_cases guest index w t Ht) as Hcase.
    pose proof (iteration_evolves guest index w) as Hev.
    pose proof (iteration_advances guest index w t) as Hadv.
    unfold bind. destruct (iteration guest index w) as [index' w1|e w1|]; [|done|done].
    rewrite (Hadv index' w1) by done.
    apply IH.
    assert (length (tests w1) = length (tests w)) as ->; [|lia].
    rewrite <- (length_fmap identity (tests w1)), (ev_tests _ _ _ Hev).
    apply length_fmap.
Qed.

Lemma guests_terminate fuel guests w :
  Forall never_requests_reboot guests ->
  Forall pull_keeps_outputs guests ->
  length (tests w) <= fuel ->
  for_each guests (run_guest fuel) w <> NoFuel.
Proof.
  intros Hno Hkeep. revert w.
  induction guests as [|guest guests IH]; intros w Hlen; simpl; [done|].
  apply Forall_cons in Hno as [Hno1 Hno], Hkeep as [Hkeep1 Hkeep].
  unfold bind.
  pose proof (run_guest_evolves fuel guest w) as Hev.
  assert (run_guest fuel guest w <> NoFuel) as Hrun.
  { unfold run_guest, bind.
    pose proof (setup_reboot_total guest w) as H1.
    pose proof (setup_reboot_quiet guest w) as Hq1.
    destruct (_setup_reboot guest w) as [[] w1|e w1|]; [|done|done].
    pose proof (guest_push_total guest w1) as H2.
    pose proof (guest_push_quiet guest w1) as Hq2.
    destruct (guest_push guest w1) as [[] w2|e w2|]; [|done|done].
    apply test_loop_terminates; [done..|].
    destruct Hq1 as [He1 _], Hq2 as [He2 _].
    assert (length (tests w2) = length (tests w)) as ->; [|lia].
    rewrite <- (length_fmap identity (tests w2)),
      (ev_tests _ _ _ He2), (ev_tests _ _ _ He1).
    apply length_fmap. }
  destruct (run_guest fuel guest w) as [[] w1|e w1|]; [|done|done].
  apply IH; [done..|].
  assert (length (tests w1) = length (tests w)) as ->; [|lia].
  rewrite <- (length_fmap identity (tests w1)), (ev_tests _ _ _ Hev).
  apply length_fmap.
Qed.

Lemma Forall2_result_of ts rs :
  Forall2 result_for (identity <$> ts) rs <-> Forall2 result_of ts rs.
Proof. apply Forall2_fmap_l. Qed.

(** *** Guests that do what they are asked *)

Lemma valid_durations_identity w w' :
  identity <$> tests w' = identity <$> tests w ->
  valid_durations w -> valid_durations w'.
Proof.
  intros Hid Hvalid t' [i Hi]%list_elem_of_lookup.
  destruct (lookup_identity (tests w') (tests w) i t' (eq_sym Hid) Hi)
    as (t & Ht & Heq).
  assert (duration t' = duration t) as ->
    by (unfold identity in Heq; congruence).
  apply Hvalid. by eapply list_elem_of_lookup_2.
Qed.

Lemma evolves_length I w w' :
  evolves_on I w w' -> length (tests w') = length (tests w).
Proof.
  intros Hev.
  rewrite <- (length_fmap identity (tests w')), (ev_tests _ _ _ Hev).
  apply length_fmap.
Qed.

Lemma setup_reboot_completes guest w :
  cooperative guest -> exists w', _setup_reboot guest w = Ret tt w'.
Proof.
  intros Hco. unfold _setup_reboot.
  destruct (guest_class guest) eqn:Hclass; [by eexists..|].
  pose proof (co_install _ Hco Hclass) as Hrun.
  simpl. unfold bind, guest_execute.
  repeat match goal with
         | |- context [on_execute B ?h (guest_id guest) ?c None] =>
             destruct (Hrun h c) as [? ->]; simpl
         end.
  by eexists.
Qed.

Lemma guest_push_completes guest w :
  cooperative guest -> exists w', guest_push guest w = Ret tt w'.
Proof. intros Hco. unfold guest_push. rewrite (co_push _ Hco). by eexists. Qed.

(** On such a guest, when no command prints the marker, one pass through
    the body of the loop returns and moves to the next test. *)
Lemma iteration_completes guest index w t :
  never_requests_reboot guest ->
  pull_keeps_outputs guest ->
  cooperative guest ->
  tests w !! index = Some t ->
  is_Some (duration_to_seconds (duration t)) ->
  exists w', iteration guest index w = Ret (S index) w'.
Proof.
  intros Hno Hkeep Hco Ht [seconds Hd].
  destruct (co_attempt _ Hco (calls w) (test t) (attempt_kwargs t w seconds))
    as [[[stdout rc] note] Ha].
  fold (attempt_answer guest t w seconds) in Ha.
  set (w1 := attempted guest index t (progress index w) seconds stdout rc note w).
  destruct (co_pull _ Hco (calls w1) (data_path t None)) as [pulled Hp].
  assert (pulled !! output_file t = None) as Hfile.
  { rewrite output_file_as_path. by eapply Hkeep. }
  rewrite (iteration_run _ _ _ _ _ _ _ _ _ Ht Hd Ha Hp Hfile).
  destruct (re_search (default "" stdout)) as [count|] eqn:Hs.
  - exfalso. eapply Hno; [exact Ha|]. apply re_search_contains. by rewrite Hs.
  - by eexists.
Qed.

Lemma test_loop_completes fuel guest index w :
  never_requests_reboot guest ->
  pull_keeps_outputs guest ->
  cooperative guest ->
  valid_durations w ->
  length (tests w) <= fuel + index ->
  exists w', test_loop fuel guest index w = Ret tt w'.
Proof.
  intros Hno Hkeep Hco. revert index w.
  induction fuel as [|fuel IH]; intros index w Hvalid Hlen; simpl.
  - destruct (Nat.ltb_spec index (length (tests w))); [lia|by eexists].
  - destruct (Nat.ltb_spec index (length (tests w))) as [Hlt|]; [|by eexists].
    destruct (lookup_lt_is_Some_2 _ _ Hlt) as [t Ht].
    pose proof (iteration_evolves guest index w) as Hev.
    destruct (iteration_completes guest index w t Hno Hkeep Hco Ht) as [w1 Hit].
    { apply Hvalid. by eapply list_elem_of_lookup_2. }
    unfold bind. rewrite Hit in Hev |- *.
    apply IH.
    + eapply valid_durations_identity; [apply (ev_tests _ _ _ Hev)|done].
    + rewrite (evolves_length _ _ _ Hev). lia.
Qed.

Lemma run_guest_completes fuel guest w :
  never_requests_reboot guest ->
  pull_keeps_outputs guest ->
  cooperative guest ->
  valid_durations w ->
  length (tests w) <= fuel ->
  exists w', run_guest fuel guest w = Ret tt w'.
Proof.
  intros Hno Hkeep Hco Hvalid Hlen. unfold run_guest, bind.
  pose proof (setup_reboot_quiet guest w) as Hq1.
  destruct (setup_reboot_completes guest w Hco) as [w1 H1].
  rewrite H1 in Hq1 |- *. destruct Hq1 as [He1 _].
  pose proof (guest_push_quiet guest w1) as Hq2.
  destruct (guest_push_completes guest w1 Hco) as [w2 H2].
  rewrite H2 in Hq2 |- *. destruct Hq2 as [He2 _].
  apply test_loop_completes; [done..| |].
  - eapply valid_durations_identity; [apply (ev_tests _ _ _ He2)|].
    eapply valid_durations_identity; [apply (ev_tests _ _ _ He1)|done].
  - rewrite (evolves_length _ _ _ He2), (evolves_length _ _ _ He1). lia.
Qed.

Lemma guests_complete fuel guests w :
  Forall never_requests_reboot guests ->
  Forall pull_keeps_outputs guests ->
  Forall cooperative guests ->
  valid_durations w ->
  length (tests w) <= fuel ->
  exists w', for_each guests (run_guest fuel) w = Ret tt w'.
Proof.
  intros Hno Hkeep Hco. revert w.
  induction guests as [|guest guests IH]; intros w Hvalid Hlen; simpl;
    [by eexists|].
  apply Forall_cons in Hno as [Hno1 Hno], Hkeep as [Hkeep1 Hkeep], Hco as [Hco1 Hco].
  unfold bind.
  pose proof (run_guest_evolves fuel guest w) as Hev.
  destruct (run_guest_completes fuel guest w Hno1 Hkeep1 Hco1 Hvalid Hlen) as [w1 H1].
  rewrite H1 in Hev |- *.
  apply IH; [done..| |].
  - eapply valid_durations_identity; [apply (ev_tests _ _ _ Hev)|done].
  - rewrite (evolves_length _ _ _ Hev). lia.
Qed.

Lemma length_blocks {A C} (l : list A) (blocks : list (list C)) n :
  Forall2 (fun _ block => length block = n) l blocks ->
  length (concat blocks) = length l * n.
Proof.
  induction 1 as [|x block l blocks Hn _ IH]; [done|].
  simpl. rewrite length_app, IH, Hn. lia.
Qed.

(** C2. Take guests whose commands never print the reboot marker (and whose
    [pull] leaves the output files alone), and fuel for one iteration per
    test. If the guests do what they are asked and every test has a valid
    duration, [go] returns, and [_results] is then made of one block per
    guest, in the order of the guests, each block holding exactly one
    Result per test, in the order of the tests: as many Results as there
    are guests times tests. Whatever else the guests do, the run does not
    get stuck, and what it leaves in [_results] has that shape: when it
    returns, one such block per guest; when it raises, such blocks for the
    guests done before, followed by one Result for each of the first tests
    of the guest at which it raised, in order. *)
Theorem one_result_per_test_in_order guests fuel w :
  Forall never_requests_reboot guests ->
  Forall pull_keeps_outputs guests ->
  length (tests w) <= fuel ->
  (Forall cooperative guests ->
   valid_durations w ->
   exists w' blocks,
     go false guests fuel w = Ret tt w'
     /\ _results w' = concat blocks
     /\ Forall2 (fun _ block => Forall2 result_of (tests w) block) guests blocks
     /\ length (_results w') = length guests * length (tests w))
  /\ match go false guests fuel w with
     | Ret _ w' =>
         exists blocks,
           _results w' = concat blocks
           /\ Forall2 (fun _ block => Forall2 result_of (tests w) block) guests blocks
     | Exc e w' =>
         exists blocks rest,
           _results w' = concat blocks ++ rest
           /\ length blocks < length guests
           /\ Forall (Forall2 result_of (tests w)) blocks
           /\ Forall2 result_of (take (length rest) (tests w)) rest
     | NoFuel => False
     end.
Proof.
  intros Hno Hkeep Hfuel.
  assert (match go false guests fuel w with
          | Ret _ w' =>
              exists blocks,
                _results w' = concat blocks
                /\ Forall2 (fun _ block => Forall2 result_of (tests w) block)
                           guests blocks
          | Exc e w' =>
              exists blocks rest,
                _results w' = concat blocks ++ rest
                /\ length blocks < length guests
                /\ Forall (Forall2 result_of (tests w)) blocks
                /\ Forall2 result_of (take (length rest) (tests w)) rest
          | NoFuel => False
          end) as Hshape.
  { rewrite go_wet.
    pose proof (guests_results fuel guests (set_results [] w)) as Hres.
    pose proof (guests_terminate fuel guests (set_results [] w) Hno Hkeep Hfuel) as Hterm.
    cbv zeta in Hres. simpl in Hres.
    destruct (for_each guests (run_guest fuel) (set_results [] w)) as [[] w'|e w'|];
      [| |done].
    - destruct Hres as (blocks & Hb & Hlen & Hall). exists blocks. split; [done|].
      apply Forall2_same_length_lookup. split; [done|].
      intros i guest block _ Hblock. apply Forall2_result_of.
      eapply Forall_lookup_1 in Hall; [exact Hall|exact Hblock].
    - destruct Hres as (blocks & rest & Hb & Hlen & Hall & _ & Hrest).
      exists blocks, rest. split; [done|]. split; [done|]. split.
      + eapply Forall_impl; [exact Hall|]. intros block. apply Forall2_result_of.
      + apply Forall2_result_of. by rewrite fmap_take. }
  split; [|exact Hshape].
  intros Hco Hvalid.
  destruct (guests_complete fuel guests (set_results [] w) Hno Hkeep Hco Hvalid Hfuel)
    as [w' Hrun].
  rewrite <- go_wet in Hrun. rewrite Hrun in Hshape.
  destruct Hshape as (blocks & Hb & Hall).
  exists w', blocks. split; [done|]. split; [done|]. split; [done|].
  rewrite Hb. apply length_blocks.
  eapply Forall2_impl; [exact Hall|].
  intros guest block Hblock. simpl in *. symmetry. exact (Forall2_length _ _ _ Hblock).
Qed.

(** *** Failures of guest calls *)

Lemma traced_ret {A} (a : A) : traced (ret a).
Proof. by intros w base H. Qed.

Lemma traced_bind {A C} (m : M A) (k : A -> M C) :
  traced m -> (forall a, traced (k a)) -> traced (bind m k).
Proof.
  intros Hm Hk w base Hb. unfold bind. specialize (Hm w base Hb).
  destruct (m w) as [a w1|e w1|]; [|done..].
  apply (Hk a w1 base Hm).
Qed.

Lemma traced_for_each {A} (l : list A) (body : A -> M unit) :
  (forall x, traced (body x)) -> traced (for_each l body).
Proof.
  intros Hb. induction l as [|x l IH]; simpl; [apply traced_ret|].
  apply traced_bind; auto.
Qed.

Lemma traced_call_returned base c (h : list Call) :
  extended base h -> raised h c = None -> extended base (c :: h).
Proof. intros Hh Hc. constructor; [done|]. intros e. by rewrite Hc. Qed.

Lemma traced_call_raised base c (h : list Call) e :
  extended base h -> raised h c = Some e -> handled c e = false ->
  aborted base e (c :: h).
Proof. intros Hh Hc Hn. left. by exists c, h. Qed.

Lemma guest_push_traced guest : traced (guest_push guest).
Proof.
  intros w base Hb. unfold guest_push.
  destruct (on_push B (calls w) (guest_id guest)) as [e|] eqn:Ha; simpl.
  - by apply traced_call_raised.
  - by apply traced_call_returned.
Qed.

Lemma guest_pull_traced guest source : traced (guest_pull guest source).
Proof.
  intros w base Hb. unfold guest_pull.
  destruct (on_pull B (calls w) (guest_id guest) source) as [e|pulled] eqn:Ha; simpl.
  - apply traced_call_raised; [done| |done]. simpl. by rewrite Ha.
  - apply traced_call_returned; [done|]. simpl. by rewrite Ha.
Qed.

Lemma guest_execute_traced guest command :
  traced (guest_execute guest command None).
Proof.
  intros w base Hb. unfold guest_execute.
  destruct (on_execute B (calls w) (guest_id guest) command None) as [e|out] eqn:Ha; simpl.
  - apply traced_call_raised; [done|simpl; by rewrite Ha|by destruct e].
  - apply traced_call_returned; [done|]. simpl. by rewrite Ha.
Qed.

Lemma setup_reboot_traced guest : traced (_setup_reboot guest).
Proof.
  unfold _setup_reboot. destruct (guest_class guest); try apply traced_ret.
  apply traced_for_each. intros reboot_file.
  repeat (apply traced_bind; [apply guest_execute_traced | intros _]).
  apply traced_ret.
Qed.

Lemma execute_traced index guest prog : traced (execute index guest prog).
Proof.
  intros w base Hb. destruct (tests w !! index) as [t|] eqn:Ht.
  - rewrite (execute_unfold _ _ _ _ _ Ht).
    destruct (duration_to_seconds (duration t)) as [seconds|]; [|by right].
    destruct (on_execute B (calls w) (guest_id guest) (test t)
                (Some (attempt_kwargs t w seconds))) as [e|out] eqn:Ha.
    + destruct e; simpl;
        first [ constructor; [done|]; simpl; rewrite Ha; by intros ? [= <-]
              | apply traced_call_raised; [done|simpl; by rewrite Ha|done] ].
    + simpl. apply traced_call_returned; [done|]. simpl. by rewrite Ha.
  - unfold execute, bind, get_test. rewrite Ht. by right.
Qed.

Lemma handle_reboot_traced index guest : traced (_handle_reboot index guest).
Proof.
  intros w base Hb. destruct (tests w !! index) as [t|] eqn:Ht.
  - destruct (files w !! output_file t) as [output|] eqn:Hf.
    + rewrite (handle_reboot_unfold _ _ _ _ _ Ht Hf).
      destruct (re_search output); [|done].
      destruct (int _); [|by right].
      destruct (on_reboot B (calls w) (guest_id guest)) as [e|] eqn:Ha; simpl.
      * by apply traced_call_raised.
      * by apply traced_call_returned.
    + rewrite (handle_reboot_no_file _ _ _ _ Ht Hf). by right.
  - unfold _handle_reboot, bind, get_test. rewrite Ht. by right.
Qed.

Lemma get_test_traced index : traced (get_test index).
Proof.
  intros w base Hb. unfold get_test. destruct (tests w !! index); [done|by right].
Qed.

Lemma check_traced index : traced (check index).
Proof.
  intros w base Hb. destruct (tests w !! index) as [t|] eqn:Ht.
  - by rewrite (check_unfold _ _ _ Ht).
  - unfold check, bind, get_test. rewrite Ht. by right.
Qed.

Lemma iteration_traced guest index : traced (iteration guest index).
Proof.
  unfold iteration.
  apply traced_bind; [|intros _].
  { intros w. apply execute_traced. }
  apply traced_bind; [apply get_test_traced|intros t].
  apply traced_bind; [apply guest_pull_traced|intros _].
  apply traced_bind; [apply handle_reboot_traced|intros rebooted].
  destruct rebooted; [apply traced_ret|].
  apply traced_bind; [apply check_traced|intros r].
  apply traced_bind; [by intros w base Hb|intros _].
  apply traced_ret.
Qed.

Lemma test_loop_traced fuel guest index : traced (test_loop fuel guest index).
Proof.
  revert index. induction fuel as [|fuel IH]; intros index w base Hb; simpl.
  - by destruct (index <? length (tests w)).
  - destruct (index <? length (tests w)); [|done].
    apply (traced_bind (iteration guest index)
             (fun index' => test_loop fuel guest index'));
      [apply iteration_traced|intros index'; apply IH|done].
Qed.

Lemma guests_traced fuel guests : traced (for_each guests (run_guest fuel)).
Proof.
  apply traced_for_each. intros guest. unfold run_guest.
  apply traced_bind; [apply setup_reboot_traced|intros _].
  apply traced_bind; [apply guest_push_traced|intros _].
  apply test_loop_traced.
Qed.

(** A call inside an extension returned or was handled. *)
Lemma extended_inside base h' :
  extended base h' ->
  forall newer c h e,
    h' = newer ++ c :: h -> length base <= length h ->
    raised h c = Some e -> handled c e = true.
Proof.
  induction 1 as [|c0 h0 Hext IH Hc0]; intros newer c h e Heq Hlen Hr.
  - apply (f_equal length) in Heq. rewrite length_app in Heq. simpl in Heq. lia.
  - destruct newer as [|c1 newer]; simpl in Heq.
    + injection Heq as -> ->. by apply Hc0.
    + injection Heq as -> ->. by eapply IH.
Qed.

(** C5. (1) When a [push], [pull] or [reboot] call made during a run of
    [go] raises, the run raises that exception and the call is the last
    one of the run. (2) Whatever a loop over the tests or over the guests
    does from a world on, also when it raises, the Results of that world
    stay at the front of [_results]. (3) When the [execute] call of an
    attempt fails with [RunError], [execute] returns and the test's return
    code is the one of the error; if then [pull] returns and the output has
    no reboot marker, the iteration appends the Result that [check] gives
    for the test with that return code, and the loop goes on with the next
    index. *)
Theorem guest_failures_abort_test_failures_do_not guests fuel w :
  (forall w' newer c h e,
      final (go false guests fuel w) = Some w' ->
      calls w' = newer ++ c :: h ->
      length (calls w) <= length h ->
      is_infrastructure c = true ->
      raised h c = Some e ->
      go false guests fuel w = Exc e w' /\ newer = [])
  /\ (forall guest index w',
      final (test_loop fuel guest index w) = Some w' ->
      _results w `prefix_of` _results w')
  /\ (forall w',
      final (for_each guests (run_guest fuel) w) = Some w' ->
      _results w `prefix_of` _results w')
  /\ (forall guest index t seconds stdout rc,
      tests w !! index = Some t ->
      duration_to_seconds (duration t) = Some seconds ->
      attempt_answer guest t w seconds = inl (RunError stdout rc) ->
      exists w1 t1,
        execute index guest (progress index w) w = Ret tt w1
        /\ tests w1 !! index = Some t1
        /\ identity t1 = identity t
        /\ returncode t1 = Some rc
        /\ (forall pulled,
              on_pull B (calls w1) (guest_id guest) (data_path t None) = inr pulled ->
              pulled !! output_file t = None ->
              ~ contains_marker (default "" stdout) ->
              exists w',
                iteration guest index w = Ret (S index) w'
                /\ _results w' = _results w ++ [checker t1 (files w')]
                /\ test_loop (S fuel) guest index w = test_loop fuel guest (S index) w')).
Proof.
  split; [|split; [|split]].
  - intros w' newer c h e Hfin Hcalls Hlen Hinfra Hraised.
    rewrite go_wet in *.
    pose proof (guests_traced fuel guests (set_results [] w) (calls w)
                  (extended_base _)) as Htr.
    assert (handled c e = false) as Hnot by (by destruct c).
    destruct (for_each guests (run_guest fuel) (set_results [] w)) as [[] w2|e2 w2|];
      simpl in Hfin; [| |done]; injection Hfin as ->.
    + pose proof (extended_inside _ _ Htr newer c h e Hcalls Hlen Hraised). congruence.
    + destruct Htr as [(c0 & h0 & Hc0 & Hext & Hr0 & Hn0)|[Hext _]].
      * rewrite Hcalls in Hc0. destruct newer as [|c1 newer]; simpl in Hc0.
        -- injection Hc0 as Hc1 Hh0. subst c0 h0. split; [|done]. congruence.
        -- injection Hc0 as Hc1 Hh0. subst c0 h0.
           pose proof (extended_inside _ _ Hext newer c h e eq_refl Hlen Hraised).
           congruence.
      * pose proof (extended_inside _ _ Hext newer c h e Hcalls Hlen Hraised).
        congruence.
  - intros guest index w' Hfin.
    apply (ev_results any_index). by eapply final_always; [apply test_loop_evolves|].
  - intros w' Hfin.
    apply (ev_results any_index). by eapply final_always; [apply guests_evolves|].
  - intros guest index t seconds stdout rc Ht Hd Ha.
    assert (command_result (attempt_answer guest t w seconds)
            = Some (stdout, rc, annotation rc)) as Hc by (by rewrite Ha).
    destruct (attempted_test guest index t (progress index w) seconds stdout rc
                (annotation rc) w Ht) as [real Ht1].
    eexists _, _. split; [by apply execute_result|].
    split; [exact Ht1|]. split; [done|]. split; [done|].
    intros pulled Hp Hfile Hno.
    pose proof (iteration_run _ _ _ _ _ _ _ _ _ Ht Hd Hc Hp Hfile) as Hrun.
    cbv zeta in Hrun.
    destruct (re_search (default "" stdout)) as [count|] eqn:Hs.
    { exfalso. apply Hno, re_search_contains. by rewrite Hs. }
    eexists. split; [exact Hrun|]. split.
    + unfold finalized. simpl. simpl in Ht1. rewrite Ht1. reflexivity.
    + simpl.
      assert ((index <? length (tests w)) = true) as ->.
      { apply Nat.ltb_lt. by eapply lookup_lt_Some. }
      unfold bind. by rewrite Hrun.
Qed.

(** *** Who changes an environment *)

(** C8 (amended). An attempt itself ([execute]) changes no dict that
    existed. An iteration of the loop at [index] changes, among the dicts
    that existed, only the environment of the test at [index], and there
    only the key [REBOOT_COUNT]: a test whose environment is another dict
    is not affected. Runs over any guests change, in a dict that existed,
    nothing but the key [REBOOT_COUNT], and nothing at all in a dict that
    is not the environment of a test; so the run on a later guest finds
    every other key of a test's environment as the run on an earlier guest
    found it. *)
Theorem environment_changes_only_reboot_count w :
  (forall index guest prog w',
      final (execute index guest prog w) = Some w' ->
      forall l, l ∈ dom (heap w) -> dict_at w' l = dict_at w l)
  /\ (forall guest index t w',
      tests w !! index = Some t ->
      final (iteration guest index w) = Some w' ->
      (forall l, l ∈ dom (heap w) -> l <> environment t ->
         dict_at w' l = dict_at w l)
      /\ (forall k, environment t ∈ dom (heap w) -> k <> REBOOT_VARIABLE ->
            dict_at w' (environment t) !! k = dict_at w (environment t) !! k))
  /\ (forall guests fuel w',
      final (for_each guests (run_guest fuel) w) = Some w' ->
      (forall l k, l ∈ dom (heap w) -> k <> REBOOT_VARIABLE ->
         dict_at w' l !! k = dict_at w l !! k)
      /\ (forall l, l ∈ dom (heap w) -> l ∉ environment <$> tests w ->
            dict_at w' l = dict_at w l)).
Proof.
  split; [|split].
  - intros index guest prog w' Hfin l Hl.
    pose proof (final_always _ _ _ _ (execute_quiet index guest prog) Hfin) as [He _].
    by apply (ev_others _ _ _ He).
  - intros guest index t w' Ht Hfin.
    pose proof (final_always _ _ _ _ (iteration_evolves guest index) Hfin) as He.
    split.
    + intros l Hl Hne. apply (ev_others _ _ _ He); [done|].
      intros i t0 <- Hi. congruence.
    + intros k Hl Hk. by apply (ev_keys _ _ _ He).
  - intros guests fuel w' Hfin.
    pose proof (final_always _ _ _ _ (guests_evolves fuel guests) Hfin) as He.
    split; [apply (ev_keys _ _ _ He)|].
    intros l Hl Hn. apply (ev_others _ _ _ He); [done|].
    intros i t _ Hi Heq. apply Hn. rewrite <- Heq. apply list_elem_of_fmap_2.
    by eapply list_elem_of_lookup_2.
Qed.

(** ** Further properties of the executor *)

(** *** Notions *)

(** [k] slashes. *)
Fixpoint slashes (k : nat) : string :=
  match k with
  | O => EmptyString
  | S k' => String "/"%char (slashes k')
  end.

(** The kinds of guest calls: the [execute] call of an attempt (the one
    with keyword arguments), [pull], [reboot], [push]. *)
Definition is_attempt (c : Call) : bool :=
  match c with CallExecute _ _ (Some _) => true | _ => false end.
Definition is_pull (c : Call) : bool :=
  match c with CallPull _ _ => true | _ => false end.
Definition is_reboot (c : Call) : bool :=
  match c with CallReboot _ => true | _ => false end.

(** How many of the calls are of a kind. *)
Definition count (kind : Call -> bool) (cs : list Call) : nat :=
  length (List.filter kind cs).

(** The guests pushed to, oldest first. *)
Definition pushed (cs : list Call) : list nat :=
  omap (fun c => match c with CallPush g => Some g | _ => None end) (rev cs).

(** Every command run on the guest ends with the reboot marker in its
    output. *)
Definition always_requests_reboot (guest : Guest) : Prop :=
  forall h command kwargs,
    exists stdout rc note,
      command_result (on_execute B h (guest_id guest) command kwargs)
        = Some (stdout, rc, note)
      /\ contains_marker (default "" stdout).

(** [pull] and [reboot] never fail on the guest. *)
Definition pull_returns (guest : Guest) : Prop :=
  forall h source, exists pulled, on_pull B h (guest_id guest) source = inr pulled.

Definition reboot_returns (guest : Guest) : Prop :=
  forall h, on_reboot B h (guest_id guest) = None.

(** From [w] to [w'] every attempt was followed by its [pull], and then
    either by a reboot or by a Result, up to [slack] attempts. *)
Definition tally (slack : nat) (w w' : World) : Prop :=
  count is_attempt (calls w') + length (_results w) + count is_reboot (calls w)
    = count is_attempt (calls w) + length (_results w') + count is_reboot (calls w') + slack
  /\ exists unpulled,
       unpulled <= slack
       /\ count is_pull (calls w') + count is_attempt (calls w) + unpulled
          = count is_pull (calls w) + count is_attempt (calls w').

(** From [w] to [w'] nothing happened but guest calls that are neither
    attempts nor pulls nor reboots. *)
Definition idle (w w' : World) : Prop :=
  tests w' = tests w /\ heap w' = heap w /\ files w' = files w
  /\ _results w' = _results w /\ verbose_log w' = verbose_log w
  /\ count is_attempt (calls w') = count is_attempt (calls w)
  /\ count is_pull (calls w') = count is_pull (calls w)
  /\ count is_reboot (calls w') = count is_reboot (calls w).

(** The test object has been through an attempt: [returncode] and
    [real_duration] are assigned. *)
Definition ran (t : Test) : Prop :=
  is_Some (returncode t) /\ is_Some (real_duration t).

Fixpoint ends_with_newline (s : string) : bool :=
  match s with
  | EmptyString => false
  | String c EmptyString => Ascii.eqb c (ascii_of_nat 10)
  | String _ s' => ends_with_newline s'
  end.

(** *** Where an attempt runs *)

Lemma lstrip_slash_relative p : is_absolute (lstrip_slash p) = false.
Proof.
  induction p as [|c p IH]; [done|].
  destruct (Ascii.eqb_spec c "/"%char) as [->|Hc]; [exact IH|].
  destruct c as [[] [] [] [] [] [] [] []]; done.
Qed.

Lemma lstrip_slash_slashes k p : lstrip_slash (slashes k +:+ p) = lstrip_slash p.
Proof. induction k as [|k IH]; [done|]. cbn [slashes]. rewrite app_cons. exact IH. Qed.

(** X1. The command of an attempt runs in a directory under the workdir
    of the discover step, also when [test.path] is absolute: the [cwd]
    passed to [guest.execute] is the workdir followed by the path without
    its leading slashes (with a slash between them unless the workdir ends
    with one), so any number of leading slashes in [test.path] gives the
    same directory. *)
Theorem attempt_runs_under_workdir index guest prog w t seconds :
  tests w !! index = Some t ->
  duration_to_seconds (duration t) = Some seconds ->
  exists w' kwargs,
    final (execute index guest prog w) = Some w'
    /\ calls w' = CallExecute (guest_id guest) (test t) (Some kwargs) :: calls w
    /\ (exists rest, cwd kwargs = discover_workdir +:+ rest)
    /\ (forall k p, path t = slashes k +:+ p ->
          cwd kwargs = path_join discover_workdir (lstrip_slash p)).
Proof.
  intros Ht Hd.
  assert (exists rest,
            path_join discover_workdir (lstrip_slash (path t)) = discover_workdir +:+ rest)
    as Hunder by apply path_join_relative, lstrip_slash_relative.
  assert (forall k p, path t = slashes k +:+ p ->
            path_join discover_workdir (lstrip_slash (path t))
            = path_join discover_workdir (lstrip_slash p)) as Hsame.
  { intros k p ->. by rewrite lstrip_slash_slashes. }
  rewrite (execute_unfold _ _ _ _ _ Ht), Hd.
  destruct (on_execute B _ _ _ _) as [[]|]; simpl;
    eexists _, (attempt_kwargs t w seconds); (split; [reflexivity|]);
    (split; [reflexivity|]); (split; [exact Hunder|exact Hsame]).
Qed.

(** *** Failures that [execute] does not handle *)

(** X2. [execute] handles [RunError] only. A duration that
    [duration_to_seconds] rejects raises before the guest is called, and any
    other exception of [guest.execute] is raised on: in both cases
    [returncode] and [real_duration] of the test are not assigned, no output
    file is written and no report line is printed. *)
Theorem execute_raises_what_it_does_not_handle index guest prog w t :
  tests w !! index = Some t ->
  (duration_to_seconds (duration t) = None ->
   exists w',
     execute index guest prog w = Exc (SpecificationError (duration t)) w'
     /\ calls w' = calls w /\ tests w' = tests w /\ files w' = files w
     /\ verbose_log w' = verbose_log w)
  /\ (forall seconds e,
        duration_to_seconds (duration t) = Some seconds ->
        attempt_answer guest t w seconds = inl e ->
        (forall stdout rc, e <> RunError stdout rc) ->
        exists w',
          execute index guest prog w = Exc e w'
          /\ calls w' = attempt_call guest t w seconds :: calls w
          /\ tests w' = tests w /\ files w' = files w
          /\ verbose_log w' = verbose_log w).
Proof.
  intros Ht. split.
  - intros Hd. rewrite (execute_unfold _ _ _ _ _ Ht), Hd. by eexists.
  - intros seconds e Hd Ha Hne. rewrite (execute_unfold _ _ _ _ _ Ht), Hd.
    unfold attempt_answer in Ha. rewrite Ha.
    destruct e as [stdout rc| | | | |]; [by destruct (Hne stdout rc)|by eexists..].
Qed.

(** *** A reboot that fails *)

(** X3. When the output asks for a reboot and [guest.reboot] raises,
    [_handle_reboot] raises that exception with [REBOOT_COUNT] not yet
    assigned: every dict is as before, and so is [_results]. *)
Theorem failed_reboot_leaves_reboot_count index guest w t output e :
  tests w !! index = Some t ->
  files w !! output_file t = Some output ->
  contains_marker output ->
  on_reboot B (calls w) (guest_id guest) = Some e ->
  exists w',
    _handle_reboot index guest w = Exc e w'
    /\ calls w' = CallReboot (guest_id guest) :: calls w
    /\ heap w' = heap w
    /\ reboot_count t w' = reboot_count t w
    /\ _results w' = _results w.
Proof.
  intros Ht Hf Hm Hr. rewrite (handle_reboot_unfold _ _ _ _ _ Ht Hf).
  apply re_search_contains in Hm as [count Hc]. rewrite Hc.
  destruct (re_search_int _ _ Hc) as [n ->]. rewrite Hr. by eexists.
Qed.

(** *** What a run assigns in a test object *)

(** X4. Whatever a run of [go] does, the list of test objects keeps its
    length and order, and of each test object only [returncode] and
    [real_duration] are ever assigned: name, framework, command, path,
    duration and the environment object stay what they were. *)
Theorem run_assigns_returncode_and_real_duration_only dry guests fuel w w' :
  final (go dry guests fuel w) = Some w' ->
  length (tests w') = length (tests w)
  /\ forall index t,
       tests w !! index = Some t ->
       exists rc real,
         tests w' !! index
         = Some (mkTest (name t) (framework t) (test t) (path t) (duration t)
                        (environment t) rc real).
Proof.
  intros Hfin. apply go_evolves in Hfin. pose proof (ev_tests _ _ _ Hfin) as Hid.
  simpl in Hid. split.
  - by rewrite <- (length_fmap identity (tests w')), Hid, length_fmap.
  - intros index t Ht.
    destruct (lookup_identity _ _ _ _ Hid Ht) as (t' & Ht' & Hi).
    exists (returncode t'), (real_duration t'). rewrite Ht'. f_equal.
    destruct t, t'. unfold identity in Hi. simpl in *. congruence.
Qed.

(** *** The guest calls of an iteration *)

Lemma count_cons kind c cs :
  count kind (c :: cs) = (if kind c then 1 else 0) + count kind cs.
Proof. unfold count. simpl. by destruct (kind c). Qed.

Lemma pushed_cons c cs :
  pushed (c :: cs) = pushed cs ++ match c with CallPush g => [g] | _ => [] end.
Proof. unfold pushed. simpl. rewrite omap_app. by destruct c. Qed.

(** The calls of one pass through the body of the loop: the attempt, then
    the pull of the data directory, then the reboot if one was asked for;
    a pass that raises stops somewhere on the way. *)
Lemma iteration_calls guest index w t :
  tests w !! index = Some t ->
  exists a,
    is_attempt a = true
    /\ let p := CallPull (guest_id guest) (data_path t None) in
       let r := CallReboot (guest_id guest) in
       match iteration guest index w with
       | Ret index' w' =>
           (exists rc real,
              tests w' = alter (set_real_duration real) index
                           (alter (set_returncode rc) index (tests w)))
           /\ ((index' = index /\ _results w' = _results w
                /\ calls w' = r :: p :: a :: calls w)
               \/ (index' = S index /\ length (_results w') = S (length (_results w))
                   /\ calls w' = p :: a :: calls w
                   /\ reboot_count t w' = Some "0"))
       | Exc e w' =>
           _results w' = _results w
           /\ (calls w' = calls w \/ calls w' = a :: calls w
               \/ calls w' = p :: a :: calls w \/ calls w' = r :: p :: a :: calls w)
       | NoFuel => False
       end.
Proof.
  intros Ht.
  destruct (duration_to_seconds (duration t)) as [seconds|] eqn:Hd.
  2:{ exists (attempt_call guest t w 0). split; [done|]. cbv zeta.
      unfold iteration, bind. rewrite (execute_unfold _ _ _ _ _ Ht), Hd.
      split; [done|]. by left. }
  exists (attempt_call guest t w seconds). split; [done|]. cbv zeta.
  assert (forall stdout rc note,
    let w1 := attempted guest index t (progress index w) seconds stdout rc note w in
    match (let* t1 := get_test index in
           guest_pull guest (data_path t1 None) >>
           let* rebooted := _handle_reboot index guest in
           if rebooted : bool then ret index
           else (let* r := check index in append_result r >> ret (S index))) w1 with
    | Ret index' w' =>
        (exists rc real,
           tests w' = alter (set_real_duration real) index
                        (alter (set_returncode rc) index (tests w)))
        /\ ((index' = index /\ _results w' = _results w
             /\ calls w' = CallReboot (guest_id guest)
                             :: CallPull (guest_id guest) (data_path t None)
                             :: attempt_call guest t w seconds :: calls w)
            \/ (index' = S index /\ length (_results w') = S (length (_results w))
                /\ calls w' = CallPull (guest_id guest) (data_path t None)
                                :: attempt_call guest t w seconds :: calls w
                /\ reboot_count t w' = Some "0"))
    | Exc e w' =>
        _results w' = _results w
        /\ (calls w' = calls w \/ calls w' = attempt_call guest t w seconds :: calls w
            \/ calls w' = CallPull (guest_id guest) (data_path t None)
                            :: attempt_call guest t w seconds :: calls w
            \/ calls w' = CallReboot (guest_id guest)
                            :: CallPull (guest_id guest) (data_path t None)
                            :: attempt_call guest t w seconds :: calls w)
    | NoFuel => False
    end) as Hrest.
  { intros stdout rc note w1. unfold bind.
    destruct (attempted_test guest index t (progress index w) seconds stdout rc note w Ht)
      as [real Ht1]. fold w1 in Ht1.
    unfold get_test. rewrite Ht1. unfold guest_pull.
    change (data_path (set_real_duration real (set_returncode rc t)) None)
      with (data_path t None).
    destruct (on_pull B (calls w1) (guest_id guest) (data_path t None)) as [e|pulled].
    { split; [done|]. right. right. by left. }
    fold (pulled_into guest (data_path t None) pulled w1).
    set (w2 := pulled_into guest (data_path t None) pulled w1).
    assert (tests w2 !! index = Some (set_real_duration real (set_returncode rc t))) as Ht2
      by exact Ht1.
    destruct (files w2 !! output_file t) as [output|] eqn:Hf.
    2:{ rewrite (handle_reboot_no_file _ _ _ _ Ht2 Hf). split; [done|].
        right. right. by left. }
    rewrite (handle_reboot_unfold _ _ _ _ _ Ht2 Hf).
    destruct (re_search output) as [count0|].
    - destruct (int count0) as [n|].
      + destruct (on_reboot B (calls w2) (guest_id guest)).
        * split; [done|]. by do 3 right.
        * split; [by eexists _, _|]. left. done.
      + split; [done|]. right. right. by left.
    - set (w3 := set_reboot_count _ "0" w2).
      assert (tests w3 !! index = Some (set_real_duration real (set_returncode rc t))) as Ht3
        by exact Ht2.
      rewrite (check_unfold _ _ _ Ht3). split; [by eexists _, _|]. right. simpl.
      split; [done|]. split; [rewrite length_app; simpl; lia|]. split; [done|].
      unfold reboot_count, dict_at. simpl. rewrite lookup_insert_eq. simpl.
      apply lookup_insert_eq. }
  unfold iteration. unfold bind at 1.
  rewrite (execute_unfold _ _ _ _ _ Ht), Hd.
  destruct (on_execute B (calls w) (guest_id guest) (test t)
              (Some (attempt_kwargs t w seconds))) as [e|stdout].
  - destruct e as [stdout rc| | | | |];
      [apply (Hrest stdout rc (annotation rc))
      |split; [done|]; right; by left..].
  - apply (Hrest stdout 0%Z "").
Qed.

#[local] Instance idle_refl : Reflexive idle.
Proof. by intros w. Qed.

#[local] Instance idle_trans : Transitive idle.
Proof.
  intros w1 w2 w3 (? & ? & ? & ? & ? & ? & ? & ?) (? & ? & ? & ? & ? & ? & ? & ?).
  repeat split; congruence.
Qed.

Lemma tally_refl w : tally 0 w w.
Proof. split; [lia|]. exists 0. lia. Qed.

Lemma tally_trans s1 s2 w1 w2 w3 :
  tally s1 w1 w2 -> tally s2 w2 w3 -> tally (s1 + s2) w1 w3.
Proof.
  intros [H1 (u1 & Hu1 & Hp1)] [H2 (u2 & Hu2 & Hp2)]. split; [lia|].
  exists (u1 + u2). lia.
Qed.

Lemma idle_tally w w' : idle w w' -> tally 0 w w'.
Proof.
  intros (_ & _ & _ & Hr & _ & Ha & Hp & Hb). split; [rewrite Hr, Ha, Hb; lia|].
  exists 0. rewrite Hp, Ha. lia.
Qed.

(** One pass settles its attempt when it returns, and leaves at most its
    own attempt open when it raises. *)
Lemma iteration_tally guest index w t :
  tests w !! index = Some t ->
  match iteration guest index w with
  | Ret _ w' => tally 0 w w' /\ pushed (calls w') = pushed (calls w)
  | Exc _ w' => (exists slack, slack <= 1 /\ tally slack w w')
                /\ pushed (calls w') = pushed (calls w)
  | NoFuel => False
  end.
Proof.
  intros Ht. destruct (iteration_calls guest index w t Ht) as (a & Ha & Hcase).
  cbv zeta in Hcase. unfold tally.
  destruct (iteration guest index w) as [index' w'|e w'|]; [| |done].
  - destruct Hcase as [_ [(_ & Hr & ->)|(_ & Hr & -> & _)]];
      rewrite !count_cons, !pushed_cons, Ha, ?Hr; destruct a; try done; simpl;
      rewrite ?app_nil_r; (split; [|done]); (split; [lia|exists 0; lia]).
  - destruct Hcase as (Hr & [->| [->| [->| ->]]]);
      rewrite ?count_cons, ?pushed_cons, ?Ha, Hr; destruct a; try done; simpl;
      rewrite ?app_nil_r; (split; [|done]).
    + exists 0. split; [lia|]. split; [lia|exists 0; lia].
    + exists 1. split; [lia|]. split; [lia|exists 1; lia].
    + exists 1. split; [lia|]. split; [lia|exists 0; lia].
    + exists 0. split; [lia|]. split; [lia|exists 0; lia].
Qed.

Lemma test_loop_tally fuel guest index w :
  match test_loop fuel guest index w with
  | Ret _ w' => tally 0 w w' /\ pushed (calls w') = pushed (calls w)
  | Exc _ w' => (exists slack, slack <= 1 /\ tally slack w w')
                /\ pushed (calls w') = pushed (calls w)
  | NoFuel => True
  end.
Proof.
  revert index w. induction fuel as [|fuel IH]; intros index w; simpl.
  - destruct (index <? length (tests w)); [done|]. split; [apply tally_refl|done].
  - destruct (Nat.ltb_spec index (length (tests w))) as [Hlt|];
      [|split; [apply tally_refl|done]].
    destruct (lookup_lt_is_Some_2 _ _ Hlt) as [t Ht].
    pose proof (iteration_tally guest index w t Ht) as Hit.
    unfold bind. destruct (iteration guest index w) as [index' w1|e w1|]; [|done|done].
    destruct Hit as [Ht1 Hp1]. specialize (IH index' w1).
    destruct (test_loop fuel guest index' w1) as [[] w2|e w2|]; [| |done].
    + destruct IH as [Ht2 Hp2]. split; [|congruence].
      apply (tally_trans 0 0 w w1 w2); done.
    + destruct IH as [(slack & Hs & Ht2) Hp2]. split; [|congruence].
      exists slack. split; [done|]. apply (tally_trans 0 slack w w1 w2); done.
Qed.

(** What [_setup_reboot] leaves behind, however it ends: some of the calls
    of [install_calls], nothing else. *)
Lemma setup_reboot_world guest w :
  exists k,
    k <= 4
    /\ match _setup_reboot guest w with
       | Ret _ w' | Exc _ w' =>
           w' = set_calls (rev (take k (install_calls guest)) ++ calls w) w
       | NoFuel => False
       end.
Proof.
  destruct w as [ts hp fs rs cs vl]. unfold _setup_reboot.
  destruct (guest_class guest); [exists 0; split; [lia|done]..|].
  unfold install_calls, REBOOT_SCRIPT_PATHS, for_each, bind, guest_execute, ret,
    record_call, set_calls. simpl.
  repeat match goal with
         | |- context [on_execute B ?h ?g ?c ?k] =>
             destruct (on_execute B h g c k)
         end; simpl.
  all: first [ exists 1; split; [lia|reflexivity]
             | exists 2; split; [lia|reflexivity]
             | exists 3; split; [lia|reflexivity]
             | exists 4; split; [lia|reflexivity] ].
Qed.

Lemma setup_reboot_idle guest : always idle (_setup_reboot guest).
Proof.
  intros w. destruct (setup_reboot_world guest w) as (k & Hle & Hk).
  assert (idle w (set_calls (rev (take k (install_calls guest)) ++ calls w) w)) as Hidle.
  { repeat split; simpl;
      destruct k as [|[|[|[|[|k]]]]]; first [reflexivity | lia]. }
  destruct (_setup_reboot guest w); [by subst..|done].
Qed.

Lemma setup_reboot_pushed guest w w' :
  final (_setup_reboot guest w) = Some w' -> pushed (calls w') = pushed (calls w).
Proof.
  intros Hfin. destruct (setup_reboot_world guest w) as (k & Hle & Hk).
  assert (w' = set_calls (rev (take k (install_calls guest)) ++ calls w) w) as ->.
  { destruct (_setup_reboot guest w); simpl in Hfin; congruence. }
  simpl. unfold pushed. rewrite rev_app_distr, omap_app, rev_involutive.
  assert (omap (fun c => match c with CallPush g => Some g | _ => None end)
               (take k (install_calls guest)) = []) as ->;
    [|by rewrite app_nil_r].
  destruct k as [|[|[|[|[|k]]]]]; first [reflexivity | lia].
Qed.

Lemma guest_push_idle guest : always idle (guest_push guest).
Proof. intros w. unfold guest_push. by destruct (on_push B _ _). Qed.

(** The calls of the run on one guest. *)
Lemma run_guest_tally fuel guest w :
  match run_guest fuel guest w with
  | Ret _ w' => tally 0 w w' /\ pushed (calls w') = pushed (calls w) ++ [guest_id guest]
  | Exc _ w' =>
      (exists slack, slack <= 1 /\ tally slack w w')
      /\ (pushed (calls w') = pushed (calls w)
          \/ pushed (calls w') = pushed (calls w) ++ [guest_id guest])
  | NoFuel => True
  end.
Proof.
  unfold run_guest, bind.
  pose proof (setup_reboot_idle guest w) as Hs.
  pose proof (setup_reboot_pushed guest w) as Hsp.
  destruct (_setup_reboot guest w) as [[] w1|e w1|]; [| |done].
  2:{ split; [exists 0; split; [lia|by apply idle_tally]|]. left. by apply Hsp. }
  specialize (Hsp w1 eq_refl).
  pose proof (guest_push_idle guest w1) as Hp.
  assert (pushed (calls (record_call (CallPush (guest_id guest)) w1))
          = pushed (calls w) ++ [guest_id guest]) as Hpp.
  { simpl. by rewrite pushed_cons, Hsp. }
  unfold guest_push in *.
  destruct (on_push B (calls w1) (guest_id guest)) as [e|].
  { split; [|by right]. exists 0. split; [lia|]. apply idle_tally. by etrans. }
  pose proof (test_loop_tally fuel guest 0 (record_call (CallPush (guest_id guest)) w1))
    as Hl.
  assert (tally 0 w (record_call (CallPush (guest_id guest)) w1)) as H0
    by (apply idle_tally; by etrans).
  destruct (test_loop fuel guest 0 _) as [[] w3|e w3|]; [| |done].
  - destruct Hl as [Ht3 Hp3]. split; [|congruence].
    by apply (tally_trans 0 0 _ _ _ H0).
  - destruct Hl as [(slack & Hle & Ht3) Hp3]. split; [|right; congruence].
    exists slack. split; [done|]. by apply (tally_trans 0 slack _ _ _ H0).
Qed.

Lemma guests_tally fuel guests w :
  match for_each guests (run_guest fuel) w with
  | Ret _ w' =>
      tally 0 w w' /\ pushed (calls w') = pushed (calls w) ++ (guest_id <$> guests)
  | Exc _ w' =>
      (exists slack, slack <= 1 /\ tally slack w w')
      /\ exists k, 0 < k <= length guests
           /\ (pushed (calls w') = pushed (calls w) ++ (guest_id <$> take (k - 1) guests)
               \/ pushed (calls w') = pushed (calls w) ++ (guest_id <$> take k guests))
  | NoFuel => True
  end.
Proof.
  revert w. induction guests as [|guest guests IH]; intros w; simpl.
  - split; [apply tally_refl|by rewrite app_nil_r].
  - unfold bind. pose proof (run_guest_tally fuel guest w) as H1.
    destruct (run_guest fuel guest w) as [[] w1|e w1|]; [| |done].
    + destruct H1 as [Ht1 Hp1]. specialize (IH w1).
      destruct (for_each guests (run_guest fuel) w1) as [[] w2|e w2|]; [| |done].
      * destruct IH as [Ht2 Hp2]. split; [by apply (tally_trans 0 0 _ _ _ Ht1)|].
        by rewrite Hp2, Hp1, <- app_assoc.
      * destruct IH as [(slack & Hle & Ht2) (k & Hk & Hp2)]. split.
        { exists slack. split; [done|]. by apply (tally_trans 0 slack _ _ _ Ht1). }
        exists (S k). split; [lia|].
        destruct k as [|k]; [lia|]. simpl in *. rewrite Nat.sub_0_r in *.
        rewrite Hp1, <- !app_assoc in Hp2. exact Hp2.
    + destruct H1 as [Hs Hp1]. split; [done|]. exists 1. split; [simpl; lia|]. simpl.
      rewrite app_nil_r. exact Hp1.
Qed.

(** *** Attempts, Results and reboots *)

(** X5. In a run of [go] that returns, every attempt was followed by a
    [pull] of the test's data directory and then either by a reboot or by a
    Result: the attempts are as many as the Results and the reboots
    together, and as many as the pulls. In a run that raises this holds up
    to the one attempt at which it raised. *)
Theorem attempts_are_results_and_reboots guests fuel w :
  match go false guests fuel w with
  | Ret _ w' =>
      count is_attempt (calls w') + count is_reboot (calls w)
      = count is_attempt (calls w) + length (_results w') + count is_reboot (calls w')
      /\ count is_pull (calls w') + count is_attempt (calls w)
         = count is_pull (calls w) + count is_attempt (calls w')
  | Exc _ w' =>
      exists open unpulled,
        unpulled <= open <= 1
        /\ count is_attempt (calls w') + count is_reboot (calls w)
           = count is_attempt (calls w) + length (_results w')
             + count is_reboot (calls w') + open
        /\ count is_pull (calls w') + count is_attempt (calls w) + unpulled
           = count is_pull (calls w) + count is_attempt (calls w')
  | NoFuel => True
  end.
Proof.
  rewrite go_wet. pose proof (guests_tally fuel guests (set_results [] w)) as H.
  destruct (for_each guests (run_guest fuel) (set_results [] w)) as [[] w'|e w'|];
    [| |done].
  - destruct H as [[Ha (u & Hu & Hp)] _]. simpl in *. split; lia.
  - destruct H as [(slack & Hle & Ha & u & Hu & Hp) _]. simpl in *.
    exists slack, u. repeat split; lia.
Qed.

(** X6. A run of [go] pushes the workdir to each guest exactly once, in the
    order of the guests; the loop over the tests never pushes, so nothing
    is pushed again after a reboot. A run that raises has pushed to the
    first guests only. *)
Theorem each_guest_is_pushed_once guests fuel w :
  match go false guests fuel w with
  | Ret _ w' => pushed (calls w') = pushed (calls w) ++ (guest_id <$> guests)
  | Exc _ w' =>
      exists k, k <= length guests
        /\ pushed (calls w') = pushed (calls w) ++ (guest_id <$> take k guests)
  | NoFuel => True
  end.
Proof.
  rewrite go_wet. pose proof (guests_tally fuel guests (set_results [] w)) as H.
  destruct (for_each guests (run_guest fuel) (set_results [] w)) as [[] w'|e w'|];
    [| |done].
  - by destruct H as [_ H].
  - destruct H as [_ (k & Hk & [H|H])]; [exists (k - 1)|exists k]; (split; [lia|done]).
Qed.

(** *** Nothing to run *)




(** *** Reboot requests without end *)

Lemma reboot_request_goes_round guest index w t :
  always_requests_reboot guest -> pull_returns guest ->
  pull_keeps_outputs guest -> reboot_returns guest ->
  tests w !! index = Some t ->
  is_Some (duration_to_seconds (duration t)) ->
  exists w' t',
    iteration guest index w = Ret index w'
    /\ tests w' !! index = Some t' /\ duration t' = duration t.
Proof.
  intros Hreq Hpull Hkeep Hreb Ht [seconds Hd].
  destruct (Hreq (calls w) (test t) (Some (attempt_kwargs t w seconds)))
    as (stdout & rc & note & Ha & Hm).
  fold (attempt_answer guest t w seconds) in Ha.
  set (w1 := attempted guest index t (progress index w) seconds stdout rc note w).
  destruct (Hpull (calls w1) (data_path t None)) as [pulled Hp].
  assert (pulled !! output_file t = None) as Hfile.
  { rewrite output_file_as_path. by eapply Hkeep. }
  pose proof (iteration_run _ _ _ _ _ _ _ _ _ Ht Hd Ha Hp Hfile) as Hrun.
  cbv zeta in Hrun. apply re_search_contains in Hm as [count0 Hc].
  rewrite Hc in Hrun. destruct (re_search_int _ _ Hc) as [n Hn].
  rewrite Hn, Hreb in Hrun.
  destruct (attempted_test guest index t (progress index w) seconds stdout rc note w Ht)
    as [real Ht1].
  eexists _, _. split; [exact Hrun|]. split; [exact Ht1|done].
Qed.

(** X8. The loop has no bound on the retries. On a guest where the
    commands always print the reboot marker, and [pull] and [reboot] always
    succeed, the loop over the tests never gets past the test it is at,
    however many passes it is given; so a run of [go] whose first guest is
    such a guest (and takes the push, and needs no reboot script) does not
    end. *)
Theorem reboot_requests_are_retried_without_bound guest guests index w :
  always_requests_reboot guest -> pull_returns guest ->
  pull_keeps_outputs guest -> reboot_returns guest ->
  (forall t, t ∈ tests w -> is_Some (duration_to_seconds (duration t))) ->
  (index < length (tests w) -> forall fuel, test_loop fuel guest index w = NoFuel)
  /\ (tests w <> [] -> guest_class guest <> ClassProvisioned ->
      on_push B (calls w) (guest_id guest) = None ->
      forall fuel, go false (guest :: guests) fuel w = NoFuel).
Proof.
  intros Hreq Hpull Hkeep Hreb Hdur.
  assert (forall fuel i w0 t,
            tests w0 !! i = Some t ->
            is_Some (duration_to_seconds (duration t)) ->
            test_loop fuel guest i w0 = NoFuel) as Hloop.
  { induction fuel as [|fuel IH]; intros i w0 t Ht Hd; simpl;
      (assert ((i <? length (tests w0)) = true) as ->
         by (apply Nat.ltb_lt; by eapply lookup_lt_Some)); [done|].
    destruct (reboot_request_goes_round guest i w0 t Hreq Hpull Hkeep Hreb Ht Hd)
      as (w1 & t1 & Hit & Ht1 & Hd1).
    unfold bind. rewrite Hit. apply (IH i w1 t1 Ht1). by rewrite Hd1. }
  split.
  - intros Hlt fuel. destruct (lookup_lt_is_Some_2 _ _ Hlt) as [t Ht].
    apply (Hloop fuel index w t Ht), Hdur. by eapply list_elem_of_lookup_2.
  - intros Hne Hclass Hpush fuel. rewrite go_wet. simpl. unfold bind, run_guest, bind.
    assert (_setup_reboot guest (set_results [] w) = Ret tt (set_results [] w)) as ->.
    { unfold _setup_reboot. by destruct (guest_class guest). }
    unfold guest_push. simpl. rewrite Hpush.
    destruct (tests w) as [|t ts] eqn:Hts; [done|].
    rewrite (Hloop fuel 0 _ t); [done|by simpl; rewrite Hts|].
    apply Hdur. by left.
Qed.

(** *** The count that was printed *)

Lemma strip_prefix_app m p s r :
  strip_prefix m (p +:+ s) = Some r ->
  (exists r', strip_prefix m p = Some r' /\ r = r' +:+ s)
  \/ (exists m', m = p +:+ m').
Proof.
  revert p. induction m as [|a m IH]; intros p.
  - intros [= <-]. left. by exists p.
  - destruct p as [|b p].
    + intros _. right. by exists (String a m).
    + rewrite app_cons. simpl. destruct (Ascii.eqb_spec a b) as [->|]; [|done].
      intros H. destruct (IH _ H) as [(r' & Hr' & ->)|[m' ->]].
      * left. by exists r'.
      * right. by exists m'.
Qed.

Lemma no_newline_app p q : no_newline (p +:+ q) = no_newline p && no_newline q.
Proof.
  induction p as [|c p IH]; [done|]. rewrite app_cons. simpl.
  by rewrite IH, andb_assoc.
Qed.

Lemma ends_with_newline_no_newline p :
  ends_with_newline p = true -> no_newline p = false.
Proof.
  induction p as [|c p IH]; [done|].
  destruct p as [|d p].
  - simpl. by intros ->.
  - intros H. change (no_newline (String c (String d p)))
      with (negb (Ascii.eqb c (ascii_of_nat 10)) && no_newline (String d p)).
    rewrite IH by exact H. apply andb_false_r.
Qed.

Lemma match_here_after_lines p s :
  ends_with_newline p = true -> match_here p = None -> match_here (p +:+ s) = None.
Proof.
  intros Hnl Hp. destruct (match_here (p +:+ s)) as [c|] eqn:Hm; [|done]. exfalso.
  unfold match_here in Hm, Hp.
  destruct (strip_prefix REBOOT_MARKER (p +:+ s)) as [r|] eqn:Hs; [|done].
  destruct (strip_prefix_app _ _ _ _ Hs) as [(r' & Hr' & ->)|[m' Hm']].
  - rewrite Hr' in Hp. destruct r' as [|d r'].
    + apply strip_prefix_Some in Hr'. subst p. by vm_compute in Hnl.
    + rewrite app_cons in Hm. simpl in Hm, Hp. by destruct (is_digit d).
  - apply ends_with_newline_no_newline in Hnl.
    assert (no_newline (p +:+ m') = true) as Hall by (by rewrite <- Hm').
    rewrite no_newline_app, Hnl in Hall. done.
Qed.

Lemma re_search_after_lines p s :
  p = EmptyString \/ ends_with_newline p = true ->
  re_search p = None ->
  re_search (p +:+ s) = re_search s.
Proof.
  induction p as [|a p IH]; intros Hnl Hp; [by rewrite app_nil_l|].
  destruct Hnl as [|Hnl]; [done|].
  simpl in Hp. destruct (match_here (String a p)) eqn:Hm; [done|].
  rewrite app_cons. cbn [re_search]. rewrite <- app_cons.
  rewrite (match_here_after_lines _ _ Hnl Hm).
  apply IH; [|by destruct p]. destruct p; [by left|by right].
Qed.

Lemma string_of_uint_digits d : all_digits (NilEmpty.string_of_uint d) = true.
Proof. induction d; simpl; done. Qed.

Lemma str_digits n : str n <> EmptyString /\ all_digits (str n) = true.
Proof.
  unfold str. destruct (N.to_uint n) eqn:E; simpl; (split; [done|]);
    try done; apply string_of_uint_digits.
Qed.

Lemma digits_prefix_app d post :
  all_digits d = true -> starts_with_digit post = false ->
  digits_prefix (d +:+ post) = d.
Proof.
  intros Hd Hp. induction d as [|c d IH].
  - rewrite app_nil_l. destruct post as [|c post]; [done|]. simpl in *. by rewrite Hp.
  - rewrite app_cons. simpl in *. apply andb_prop in Hd as [-> Hd]. by rewrite IH.
Qed.

Lemma match_here_printed d post :
  d <> EmptyString -> all_digits d = true -> starts_with_digit post = false ->
  match_here (REBOOT_MARKER +:+ d +:+ post) = Some d.
Proof.
  intros Hne Hd Hp. unfold match_here.
  assert (strip_prefix REBOOT_MARKER (REBOOT_MARKER +:+ d +:+ post) = Some (d +:+ post))
    as -> by (by apply strip_prefix_Some).
  rewrite digits_prefix_app by done. by destruct d.
Qed.

(** X9. The count that a test prints is the count that is read. When the
    output consists of complete lines without a marker, then the marker with
    the decimal numeral of [n] and then anything that does not go on with a
    digit (later markers included), the pattern captures that numeral,
    [int] gives [n] back, and after the reboot [REBOOT_COUNT] is the
    numeral of [n + 1]. *)
Theorem printed_count_is_read_back index guest w t pre n post :
  tests w !! index = Some t ->
  files w !! output_file t = Some (pre +:+ REBOOT_MARKER +:+ str n +:+ post) ->
  pre = EmptyString \/ ends_with_newline pre = true ->
  ~ contains_marker pre ->
  starts_with_digit post = false ->
  on_reboot B (calls w) (guest_id guest) = None ->
  re_search (pre +:+ REBOOT_MARKER +:+ str n +:+ post) = Some (str n)
  /\ int (str n) = Some n
  /\ exists w',
       _handle_reboot index guest w = Ret true w'
       /\ reboot_count t w' = Some (str (n + 1)).
Proof.
  intros Ht Hf Hnl Hpre Hpost Hr.
  assert (re_search (pre +:+ REBOOT_MARKER +:+ str n +:+ post) = Some (str n)) as Hs.
  { rewrite re_search_after_lines; [|done|].
    - destruct (str_digits n). by apply re_search_here, match_here_printed.
    - destruct (re_search pre) eqn:E; [|done].
      destruct Hpre. apply re_search_contains. by rewrite E. }
  split; [exact Hs|]. split; [apply int_str|].
  rewrite (handle_reboot_unfold _ _ _ _ _ Ht Hf), Hs, int_str, Hr.
  eexists. split; [reflexivity|].
  unfold reboot_count, set_reboot_count, dict_at. simpl.
  rewrite lookup_insert_eq. simpl. apply lookup_insert_eq.
Qed.

(** *** After a run that returns *)

Lemma allocated_evolves w w' : allocated w -> evolves w w' -> allocated w'.
Proof.
  intros Ha He t' Ht'. apply list_elem_of_lookup in Ht' as [i Hi].
  destruct (lookup_identity (tests w') (tests w) i t') as (t & Ht & Hid);
    [by rewrite (ev_tests _ _ _ He)|done|].
  apply (ev_dom _ _ _ He).
  replace (environment t') with (environment t) by (by injection Hid).
  apply Ha. by eapply list_elem_of_lookup_2.
Qed.

(** A loop that returns has been through every test from [index] on, and
    has left ["0"] wherever it has written [REBOOT_COUNT]. *)
Lemma test_loop_finishes fuel guest index w w' :
  allocated w ->
  test_loop fuel guest index w = Ret tt w' ->
  (forall j t, tests w !! j = Some t ->
     exists t', tests w' !! j = Some t'
       /\ (index <= j \/ ran t -> ran t')
       /\ (index <= j -> reboot_count t w' = Some "0"))
  /\ (forall l, l ∈ dom (heap w) ->
        dict_at w' l !! REBOOT_VARIABLE = dict_at w l !! REBOOT_VARIABLE
        \/ dict_at w' l !! REBOOT_VARIABLE = Some "0").
Proof.
  revert index w. induction fuel as [|fuel IH]; intros index w Ha; simpl.
  - destruct (Nat.ltb_spec index (length (tests w))) as [|Hge]; [done|].
    intros [= <-]. split; [|by left]. intros j t Ht. exists t. split; [done|].
    apply lookup_lt_Some in Ht. split; [intros [?|?]; [lia|done]|intros ?; lia].
  - destruct (Nat.ltb_spec index (length (tests w))) as [Hlt|Hge].
    2:{ intros [= <-]. split; [|by left]. intros j t Ht. exists t. split; [done|].
        apply lookup_lt_Some in Ht. split; [intros [?|?]; [lia|done]|intros ?; lia]. }
    destruct (lookup_lt_is_Some_2 _ _ Hlt) as [ti Hti].
    destruct (iteration_calls guest index w ti Hti) as (a & _ & Hcase).
    cbv zeta in Hcase.
    pose proof (iteration_evolves guest index w) as Hev.
    unfold bind. destruct (iteration guest index w) as [index' w1|e w1|]; [|done|done].
    destruct Hcase as [(rc & real & Hts1) Hcase].
    assert (allocated w1) as Ha1.
    { apply (allocated_evolves w); [done|]. by eapply evolves_on_mono; [|exact Hev]. }
    intros Hloop. destruct (IH index' w1 Ha1 Hloop) as [A1 B1].
    assert (index' = index \/ index' = S index /\ reboot_count ti w1 = Some "0") as Hnext.
    { destruct Hcase as [(-> & _)|(-> & _ & _ & H0)]; [by left|by right]. }
    assert (environment ti ∈ dom (heap w1)) as Henv.
    { apply (ev_dom _ _ _ Hev), Ha. by eapply list_elem_of_lookup_2. }
    split.
    + intros j t Ht. destruct (decide (j = index)) as [->|Hne].
      * assert (t = ti) as -> by congruence.
        destruct (A1 index (set_real_duration real (set_returncode rc ti)))
          as (t' & Ht' & Hran & Hzero).
        { by rewrite Hts1, !list_lookup_alter_eq, Hti. }
        exists t'. split; [done|]. split.
        -- intros _. apply Hran. right. split; by eexists.
        -- intros _. destruct Hnext as [->|[-> H0]]; [by apply Hzero|].
           destruct (B1 (environment ti) Henv) as [Hsame|Hz]; [|exact Hz].
           unfold reboot_count. by rewrite Hsame.
      * destruct (A1 j t) as (t' & Ht' & Hran & Hzero).
        { by rewrite Hts1, !list_lookup_alter_ne. }
        exists t'. split; [done|]. split.
        -- intros [Hj|Hr]; apply Hran; [left|by right].
           destruct Hnext as [->|[-> _]]; lia.
        -- intros Hj. apply Hzero. destruct Hnext as [->|[-> _]]; lia.
    + intros l Hl.
      assert (l ∈ dom (heap w1)) as Hl1 by (by apply (ev_dom _ _ _ Hev)).
      destruct (B1 l Hl1) as [Hsame|Hz]; [|by right].
      destruct (decide (l = environment ti)) as [->|Hne].
      * right. rewrite Hsame. destruct Hnext as [->|[-> H0]]; [|exact H0].
        destruct (A1 index (set_real_duration real (set_returncode rc ti)))
          as (t' & _ & _ & Hzero).
        { by rewrite Hts1, !list_lookup_alter_eq, Hti. }
        rewrite <- Hsame. by apply Hzero.
      * left. rewrite Hsame. f_equal. apply (ev_others _ _ _ Hev); [done|].
        intros i t <- Hi. congruence.
Qed.

Lemma idle_allocated w w' : idle w w' -> allocated w -> allocated w'.
Proof. intros (Ht & Hh & _) Ha t. rewrite Ht, Hh. apply Ha. Qed.

Lemma run_guest_finishes fuel guest w w' :
  allocated w ->
  run_guest fuel guest w = Ret tt w' ->
  allocated w'
  /\ forall j t, tests w !! j = Some t ->
       exists t', tests w' !! j = Some t' /\ ran t' /\ reboot_count t w' = Some "0".
Proof.
  intros Ha. unfold run_guest, bind.
  pose proof (setup_reboot_idle guest w) as Hs.
  destruct (_setup_reboot guest w) as [[] w1|e w1|]; [|done|done].
  pose proof (guest_push_idle guest w1) as Hp.
  destruct (guest_push guest w1) as [[] w2|e w2|]; [|done|done].
  assert (idle w w2) as Hi by (by etrans).
  pose proof (idle_allocated _ _ Hi Ha) as Ha2.
  intros Hloop. split.
  - apply (allocated_evolves w2); [done|].
    by eapply final_always; [apply test_loop_evolves|rewrite Hloop].
  - destruct (test_loop_finishes fuel guest 0 w2 w' Ha2 Hloop) as [A _].
    intros j t Ht. destruct Hi as [Hi _]. rewrite <- Hi in Ht.
    destruct (A j t Ht) as (t' & Ht' & Hran & Hzero).
    exists t'. split; [done|]. split; [apply Hran; left; lia|apply Hzero; lia].
Qed.

Lemma guests_finish fuel guests w w' :
  allocated w -> guests <> [] ->
  for_each guests (run_guest fuel) w = Ret tt w' ->
  forall j t, tests w !! j = Some t ->
    exists t', tests w' !! j = Some t' /\ ran t' /\ reboot_count t w' = Some "0".
Proof.
  revert w. induction guests as [|guest guests IH]; intros w Ha Hne; [done|].
  simpl. unfold bind.
  pose proof (run_guest_finishes fuel guest w) as H1.
  pose proof (run_guest_evolves fuel guest w) as He1.
  destruct (run_guest fuel guest w) as [[] w1|e w1|]; [|done|done].
  destruct (H1 w1 Ha eq_refl) as [Ha1 Hdone]. intros Hrest j t Ht.
  destruct (Hdone j t Ht) as (t1 & Ht1 & Hran1 & Hz1).
  destruct guests as [|guest2 guests].
  - injection Hrest as <-. by exists t1.
  - destruct (IH w1 Ha1 ltac:(done) Hrest j t1 Ht1) as (t' & Ht' & Hran' & Hz').
    exists t'. split; [done|]. split; [done|].
    destruct (lookup_identity _ _ _ _ (ev_tests _ _ _ He1) Ht) as (t1' & Ht1' & Hid).
    assert (t1' = t1) as -> by congruence.
    unfold reboot_count in *. replace (environment t) with (environment t1); [done|].
    by injection Hid.
Qed.

(** X10. After a run of [go] over at least one guest that returns,
    [REBOOT_COUNT] is ["0"] in the environment of every test, however many
    reboots the run went through and whichever tests share an
    environment. *)
Theorem finished_run_leaves_reboot_count_zero guests fuel w w' :
  allocated w -> guests <> [] ->
  go false guests fuel w = Ret tt w' ->
  forall t, t ∈ tests w -> reboot_count t w' = Some "0".
Proof.
  intros Ha Hne Hgo t Ht. rewrite go_wet in Hgo.
  apply list_elem_of_lookup in Ht as [j Hj].
  destruct (guests_finish fuel guests (set_results [] w) w' Ha Hne Hgo j t Hj)
    as (t' & _ & _ & Hz). exact Hz.
Qed.

(** X11. After a run of [go] over at least one guest that returns, every
    test object has its [returncode] and its [real_duration] assigned. *)
Theorem finished_run_has_attempted_every_test guests fuel w w' :
  allocated w -> guests <> [] ->
  go false guests fuel w = Ret tt w' ->
  length (tests w') = length (tests w)
  /\ forall t', t' ∈ tests w' ->
       exists rc real, returncode t' = Some rc /\ real_duration t' = Some real.
Proof.
  intros Ha Hne Hgo.
  assert (length (tests w') = length (tests w)) as Hlen.
  { assert (final (go false guests fuel w) = Some w') as Hfin by (by rewrite Hgo).
    apply go_evolves in Hfin. pose proof (ev_tests _ _ _ Hfin) as Hid. simpl in Hid.
    by rewrite <- (length_fmap identity (tests w')), Hid, length_fmap. }
  split; [exact Hlen|]. intros t' Ht'. rewrite go_wet in Hgo.
  apply list_elem_of_lookup in Ht' as [j Hj].
  destruct (lookup_lt_is_Some_2 (tests w) j) as [t Ht].
  { rewrite <- Hlen. by eapply lookup_lt_Some. }
  destruct (guests_finish fuel guests (set_results [] w) w' Ha Hne Hgo j t Ht)
    as (t2 & Ht2 & [[rc Hrc] [real Hreal]] & _).
  assert (t2 = t') as -> by congruence. by exists rc, real.
Qed.

End ExecuteInternal.

Arguments mkWorld {Result} tests heap files _results calls verbose_log.
Arguments tests {Result} w.
Arguments heap {Result} w.
Arguments files {Result} w.
Arguments _results {Result} w.
Arguments calls {Result} w.
Arguments verbose_log {Result} w.
Arguments Ret {Result A} a w.
Arguments Exc {Result A} e w.
Arguments NoFuel {Result A}.
Arguments final {Result A} r.
Arguments dict_at {Result} w l.
Arguments reboot_count {Result} t w.
Arguments allocated {Result} w.

(** ** A concrete plan

    Two tests, a shell test and a beakerlib test, and guests of each class,
    with fixed values for what the executor takes from the rest of tmt.
    The statements above are instantiated here. *)

Module Scenario.

(** A Result is the name of the test and its outcome. *)
Definition DemoResult : Type := string * string.

Definition demo_check_shell (t : Test) (fs : gmap string string) : DemoResult :=
  (name t, if bool_decide (returncode t = Some 0%Z) then "pass" else "fail").

Definition demo_data_directory (n : string) : string :=
  "/var/tmp/tmt/run-001/plan/execute/data" +:+ n.

Definition demo_check_beakerlib (t : Test) (fs : gmap string string) : DemoResult :=
  (name t, default "error" (fs !! path_join (demo_data_directory (name t)) "TestResults")).

Definition demo_seconds (d : string) : option Z :=
  if bool_decide (d = "5m") then Some 300%Z
  else if bool_decide (d = "1h") then Some 3600%Z
  else None.

Definition demo_duration (start finish : nat) : string := "00:00:01".

Definition demo_execute :=
  execute DemoResult "/var/tmp/tmt/run-001/plan/discover" "output.txt" 124
    demo_seconds false 0 nat length demo_duration id demo_data_directory.

Definition demo_handle_reboot :=
  _handle_reboot DemoResult "output.txt" demo_data_directory.

Definition demo_iteration :=
  iteration DemoResult demo_check_shell demo_check_beakerlib
    "/var/tmp/tmt/run-001/plan/discover" "output.txt" 124
    demo_seconds false 0 nat length demo_duration id demo_data_directory.

Definition demo_go :=
  go DemoResult demo_check_shell demo_check_beakerlib
    "/var/tmp/tmt/run-001/plan/discover" "output.txt" 124
    demo_seconds false 0 nat length demo_duration id demo_data_directory.

Definition smoke : Test :=
  mkTest "/tests/smoke" "shell" "./smoke.sh" "/tests/smoke" "5m" 1%positive None None.

Definition basic : Test :=
  mkTest "/tests/basic" "beakerlib" "./runtest.sh" "/tests/basic" "1h" 2%positive None None.

Definition local_guest : Guest := mkGuest 0 ClassGuestLocal.
Definition connected_guest : Guest := mkGuest 1 ClassGuest.
Definition virtual_guest : Guest := mkGuest 2 ClassProvisioned.

(** Both tests discovered, their environments allocated. *)
Definition start : World DemoResult :=
  mkWorld [smoke; basic]
          {[ 1%positive := ∅; 2%positive := {[ "TIER" := "1" ]} ]}
          ∅ [] [] [].

(** One test only. *)
Definition start_smoke : World DemoResult :=
  mkWorld [smoke] {[ 1%positive := ∅ ]} ∅ [] [] [].

(** Guests on which every command prints [ok] and ends with 0. *)
Definition quiet_guests : Behaviour :=
  mkBehaviour (fun _ _ => None)
              (fun _ _ _ => inr ∅)
              (fun _ _ _ _ => inr (Some "ok"))
              (fun _ _ => None).

(** Guests on which a test asks for a reboot, with the count it finds in
    [REBOOT_COUNT], until the count is 2. *)
Definition rebooting_guests : Behaviour :=
  mkBehaviour (fun _ _ => None)
              (fun _ _ _ => inr ∅)
              (fun _ _ _ kwargs =>
                 match kwargs with
                 | Some k =>
                     match env k !! REBOOT_VARIABLE with
                     | None => inr (Some ("Requesting reboot: 0" +:+ newline))
                     | Some count =>
                         if bool_decide (count = "2") then inr (Some "done")
                         else inr (Some ("Requesting reboot: " +:+ count +:+ newline))
                     end
                 | None => inr None
                 end)
              (fun _ _ => None).

(** Guests on which every test prints the marker with the number 0,
    whatever [REBOOT_COUNT] is. *)
Definition stubborn_guests : Behaviour :=
  mkBehaviour (fun _ _ => None)
              (fun _ _ _ => inr ∅)
              (fun _ _ _ _ => inr (Some "Requesting reboot: 0"))
              (fun _ _ => None).

(** Guests on which every command needs 400 seconds and would end with 0;
    the answer is the one of [spec_guest_execute]. *)
Definition slow_guests : Behaviour :=
  mkBehaviour (fun _ _ => None)
              (fun _ _ _ => inr ∅)
              (fun _ _ _ kwargs =>
                 match kwargs with
                 | Some k => spec_guest_execute 124 0 400 (Some "partial") (timeout k)
                 | None => inr None
                 end)
              (fun _ _ => None).

(** Guests on which the smoke test fails with return code 1 and the data
    directory of the basic test cannot be pulled. *)
Definition flaky_guests : Behaviour :=
  mkBehaviour (fun _ _ => None)
              (fun _ _ source =>
                 if bool_decide (source = demo_data_directory "/tests/basic")
                 then inl (GuestError "rsync failed") else inr ∅)
              (fun _ _ command _ =>
                 if bool_decide (command = "./smoke.sh")
                 then inl (RunError (Some "boom") 1) else inr (Some "ok"))
              (fun _ _ => None).

(** The environments passed to the attempts of a run, oldest first, each
    with the guest. *)
Definition attempt_envs (cs : list Call) : list (nat * list (string * string)) :=
  omap (fun c =>
          match c with
          | CallExecute g _ (Some k) => Some (g, map_to_list (env k))
          | _ => None
          end) (rev cs).

(** The number of reboots in a run. *)
Definition reboots (cs : list Call) : nat :=
  length (omap (fun c => match c with CallReboot g => Some g | _ => None end) cs).

(** A world in which the attempt of the smoke test, run with
    [REBOOT_COUNT] at 1, has left a request for a reboot. *)
Definition after_request : World DemoResult :=
  mkWorld [smoke]
          {[ 1%positive := {[ REBOOT_VARIABLE := "1" ]} ]}
          {[ "/var/tmp/tmt/run-001/plan/execute/data/tests/smoke/output.txt"
               := "Requesting reboot: 1" +:+ newline ]}
          [] [] [].

(** What is seen of a run: how it ended, its Results, its guest calls. *)
Definition ending {A} (r : Res DemoResult A) : option (option Exn) :=
  match r with
  | Ret _ _ => Some None
  | Exc e _ => Some (Some e)
  | NoFuel => None
  end.

Definition results_of {A} (r : Res DemoResult A) : option (list DemoResult) :=
  _results <$> final r.

Definition calls_of {A} (r : Res DemoResult A) : option (list Call) :=
  calls <$> final r.

(** *** The scenarios of the spec, evaluated *)

Example quiet_run_results :
  let r := demo_go quiet_guests false [local_guest; virtual_guest] 2 start in
  ending r = Some None
  /\ results_of r = Some [("/tests/smoke", "pass"); ("/tests/basic", "error");
                          ("/tests/smoke", "pass"); ("/tests/basic", "error")]
  /\ length <$> calls_of r = Some 14.
Proof. vm_compute. repeat split; reflexivity. Qed.

Example rebooting_run_results :
  let r := demo_go rebooting_guests false [local_guest] 6 start in
  ending r = Some None
  /\ results_of r = Some [("/tests/smoke", "pass"); ("/tests/basic", "error")]
  /\ reboots <$> calls_of r = Some 4
  /\ (fun cs => attempt_envs cs !! 1) <$> calls_of r
     = Some (Some (0, [(REBOOT_VARIABLE, "1")]))
  /\ reboot_count smoke <$> final r = Some (Some "0").
Proof. vm_compute. repeat split; reflexivity. Qed.

Example rebooting_run_needs_fuel :
  ending (demo_go rebooting_guests false [local_guest] 2 start) = None.
Proof. vm_compute. reflexivity. Qed.

Example slow_run_results :
  let r := demo_go slow_guests false [local_guest] 1 start_smoke in
  ending r = Some None
  /\ results_of r = Some [("/tests/smoke", "fail")]
  /\ verbose_log <$> final r = Some [("00:00:01 /tests/smoke [1/1] (timeout)", 1)].
Proof. vm_compute. repeat split; reflexivity. Qed.

Example flaky_run_results :
  let r := demo_go flaky_guests false [local_guest; connected_guest] 2 start in
  ending r = Some (Some (GuestError "rsync failed"))
  /\ results_of r = Some [("/tests/smoke", "fail")]
  /\ head <$> calls_of r
     = Some (Some (CallPull 0 "/var/tmp/tmt/run-001/plan/execute/data/tests/basic"))
  /\ length <$> calls_of r = Some 5.
Proof. vm_compute. repeat split; reflexivity. Qed.

Example dry_run_results :
  demo_go flaky_guests true [local_guest; virtual_guest] 0 start = Ret tt start.
Proof. reflexivity. Qed.

(** *** The statements at this plan *)

Lemma retry_iff_reboot_marker_witness :
  exists w',
    demo_iteration rebooting_guests local_guest 0 start = Ret 0 w'
    /\ _results w' = _results start.
Proof.
  destruct (retry_iff_reboot_marker DemoResult demo_check_shell demo_check_beakerlib
              "/var/tmp/tmt/run-001/plan/discover" "output.txt" 124
              demo_seconds false 0 nat length demo_duration id demo_data_directory
              rebooting_guests local_guest 0 start smoke 300
              (Some ("Requesting reboot: 0" +:+ newline)) 0 "" ∅
              eq_refl eq_refl eq_refl eq_refl eq_refl) as (_ & _ & H).
  apply H.
  - exists "Requesting reboot: 0". split; [by left|].
    exists "", "0"%char, "". split; reflexivity.
  - reflexivity.
Defined.

Lemma quiet_guests_never_request guest : never_requests_reboot 124 quiet_guests guest.
Proof.
  intros h command kwargs stdout rc note [= <- _ _] Hc.
  apply re_search_contains in Hc as [count Hc]. vm_compute in Hc. discriminate.
Qed.

Lemma quiet_guests_keep_outputs guest :
  pull_keeps_outputs "output.txt" demo_data_directory quiet_guests guest.
Proof. intros h source pulled n [= <-]. apply lookup_empty. Qed.

Lemma quiet_guests_cooperate guest :
  cooperative 124 quiet_guests guest.
Proof.
  split.
  - intros _ h command. by exists (Some "ok").
  - done.
  - intros h command kwargs. by eexists.
  - intros h source. by exists ∅.
Qed.

Lemma start_durations_valid : valid_durations DemoResult demo_seconds start.
Proof.
  intros t Ht. apply elem_of_cons in Ht as [->|Ht]; [by exists 300%Z|].
  apply elem_of_cons in Ht as [->|Ht]; [by exists 3600%Z|].
  by apply elem_of_nil in Ht.
Qed.

Lemma one_result_per_test_in_order_witness :
  (exists w' blocks,
     demo_go quiet_guests false [local_guest; virtual_guest] 2 start = Ret tt w'
     /\ _results w' = concat blocks
     /\ Forall2 (fun _ block =>
                   Forall2 (result_of DemoResult demo_check_shell demo_check_beakerlib)
                           (tests start) block)
                [local_guest; virtual_guest] blocks
     /\ length (_results w') = 2 * 2)
  /\ match demo_go quiet_guests false [local_guest; virtual_guest] 2 start with
     | Ret _ w' =>
         exists blocks,
           _results w' = concat blocks
           /\ Forall2 (fun _ block =>
                         Forall2 (result_of DemoResult demo_check_shell demo_check_beakerlib)
                                 (tests start) block)
                      [local_guest; virtual_guest] blocks
     | Exc e w' =>
         exists blocks rest,
           _results w' = concat blocks ++ rest
           /\ length blocks < 2
           /\ Forall (Forall2 (result_of DemoResult demo_check_shell demo_check_beakerlib)
                              (tests start)) blocks
           /\ Forall2 (result_of DemoResult demo_check_shell demo_check_beakerlib)
                      (take (length rest) (tests start)) rest
     | NoFuel => False
     end.
Proof.
  assert (Forall (never_requests_reboot 124 quiet_guests) [local_guest; virtual_guest])
    as Hno by (repeat constructor; apply quiet_guests_never_request).
  assert (Forall (pull_keeps_outputs "output.txt" demo_data_directory quiet_guests)
                 [local_guest; virtual_guest])
    as Hkeep by (repeat constructor; apply quiet_guests_keep_outputs).
  assert (Forall (cooperative 124 quiet_guests) [local_guest; virtual_guest])
    as Hco by (repeat constructor; apply quiet_guests_cooperate).
  assert (length (tests start) <= 2) as Hfuel by (simpl; lia).
  destruct (one_result_per_test_in_order DemoResult demo_check_shell demo_check_beakerlib
              "/var/tmp/tmt/run-001/plan/discover" "output.txt" 124
              demo_seconds false 0 nat length demo_duration id demo_data_directory
              quiet_guests [local_guest; virtual_guest] 2 start Hno Hkeep Hfuel)
    as [Hreturns Hshape].
  split; [exact (Hreturns Hco start_durations_valid)|exact Hshape].
Defined.

Lemma reboot_count_follows_marker_witness :
  exists w',
    demo_handle_reboot rebooting_guests 0 local_guest after_request = Ret true w'
    /\ calls w' = [CallReboot 0]
    /\ reboot_count smoke w' = Some "2".
Proof.
  pose proof (reboot_count_follows_marker DemoResult
                "/var/tmp/tmt/run-001/plan/discover" "output.txt" false
                demo_data_directory rebooting_guests 0 local_guest after_request smoke
                ("Requesting reboot: 1" +:+ newline) eq_refl eq_refl) as H.
  change (re_search ("Requesting reboot: 1" +:+ newline)) with (Some "1") in H.
  destruct H as (n & Hn & H).
  assert (n = 1%N) as -> by (vm_compute in Hn; congruence).
  destruct (H eq_refl) as (w' & Hrun & Hcalls & Hcount & _).
  exists w'. split; [exact Hrun|]. split; [exact Hcalls|exact Hcount].
Defined.

Lemma timeout_sets_sentinel_and_annotation_witness :
  exists w' t' real,
    demo_execute slow_guests 0 local_guest "1/1" start_smoke = Ret tt w'
    /\ tests w' !! 0 = Some t'
    /\ returncode t' = Some 124%Z
    /\ real_duration t' = Some real
    /\ verbose_log w' = [(real +:+ " /tests/smoke [1/1] (timeout)", 1)].
Proof.
  destruct (timeout_sets_sentinel_and_annotation DemoResult
              "/var/tmp/tmt/run-001/plan/discover" "output.txt" 124
              demo_seconds false 0 nat length demo_duration id demo_data_directory
              slow_guests 0 local_guest "1/1" start_smoke smoke 300
              eq_refl eq_refl) as [_ H].
  exact (H 0%Z 400%Z (Some "partial") eq_refl eq_refl).
Defined.

Lemma execute_overwrites_output_file_witness :
  exists w',
    demo_execute quiet_guests 1 local_guest "2/2" start = Ret tt w'
    /\ files w' !! "/var/tmp/tmt/run-001/plan/execute/data/tests/basic/output.txt"
       = Some "ok".
Proof.
  destruct (execute_overwrites_output_file DemoResult
              "/var/tmp/tmt/run-001/plan/discover" "output.txt" 124
              demo_seconds false 0 nat length demo_duration id demo_data_directory
              quiet_guests 1 local_guest "2/2" start basic 3600 (Some "ok") 0 ""
              eq_refl eq_refl eq_refl) as (w' & Hrun & _ & Hfile & _).
  exists w'. split; [exact Hrun|exact Hfile].
Defined.

Lemma start_allocated : allocated start.
Proof.
  intros t Ht. apply elem_of_dom.
  apply elem_of_cons in Ht as [->|Ht]; [by eexists|].
  apply elem_of_cons in Ht as [->|Ht]; [by eexists|].
  by apply elem_of_nil in Ht.
Qed.

Lemma beakerlib_dir_only_in_copy_witness :
  exists w',
    final (demo_execute quiet_guests 1 local_guest "2/2" start) = Some w'
    /\ calls w' =
         [CallExecute 0 "./runtest.sh"
            (Some (mkKwargs "/var/tmp/tmt/run-001/plan/discover/tests/basic"
                     (<["BEAKERLIB_DIR" := demo_data_directory "/tests/basic"]>
                        {[ "TIER" := "1" ]})
                     true false 3600))]
    /\ dict_at w' (environment basic) = {[ "TIER" := "1" ]}.
Proof.
  destruct (beakerlib_dir_only_in_copy DemoResult demo_check_shell demo_check_beakerlib
              "/var/tmp/tmt/run-001/plan/discover" "output.txt" 124
              demo_seconds false 0 nat length demo_duration id demo_data_directory
              quiet_guests start start_allocated) as [H _].
  exact (H 1 local_guest "2/2" basic 3600%Z eq_refl eq_refl).
Defined.

Lemma guest_failures_abort_witness :
  exists w1 t1,
    demo_execute flaky_guests 0 local_guest "1/2" start = Ret tt w1
    /\ tests w1 !! 0 = Some t1
    /\ returncode t1 = Some 1%Z.
Proof.
  destruct (guest_failures_abort_test_failures_do_not DemoResult
              demo_check_shell demo_check_beakerlib
              "/var/tmp/tmt/run-001/plan/discover" "output.txt" 124
              demo_seconds false 0 nat length demo_duration id demo_data_directory
              flaky_guests [local_guest; connected_guest] 2 start)
    as (_ & _ & _ & H).
  destruct (H local_guest 0 smoke 300%Z (Some "boom") 1%Z eq_refl eq_refl eq_refl)
    as (w1 & t1 & Hrun & Ht1 & _ & Hrc & _).
  exists w1, t1. split; [exact Hrun|]. split; [exact Ht1|exact Hrc].
Defined.

Lemma environment_changes_only_reboot_count_witness :
  match final (demo_iteration rebooting_guests local_guest 0 start) with
  | Some w' => dict_at w' (environment basic) = {[ "TIER" := "1" ]}
  | None => False
  end.
Proof.
  destruct (environment_changes_only_reboot_count DemoResult
              demo_check_shell demo_check_beakerlib
              "/var/tmp/tmt/run-001/plan/discover" "output.txt" 124
              demo_seconds false 0 nat length demo_duration id demo_data_directory
              rebooting_guests start) as (_ & H & _).
  specialize (H local_guest 0 smoke). fold demo_iteration in H.
  destruct (final (demo_iteration rebooting_guests local_guest 0 start)) as [w'|] eqn:Hfin;
    [|vm_compute in Hfin; discriminate].
  destruct (H w' eq_refl eq_refl) as [Hothers _].
  apply (Hothers (environment basic)); [|done].
  apply elem_of_dom. by eexists.
Defined.

(** *** Where the counter does not grow, and what a later guest sees *)

(** On [stubborn_guests] two attempts of the smoke test in a row ask for a
    reboot, so that both iterations go on at index 0, and the counter is 1
    after the first and still 1 after the second. *)
Lemma reboot_count_can_stall :
  let first := demo_iteration stubborn_guests local_guest 0 in
  let second := bind DemoResult first (fun _ => first) in
  let seen (r : Res DemoResult nat) :=
    match r with
    | Ret index w => Some (index, reboot_count smoke w ≫= int)
    | _ => None
    end in
  seen (first start_smoke) = Some (0, Some 1%N)
  /\ seen (second start_smoke) = Some (0, Some 1%N).
Proof. vm_compute. split; reflexivity. Qed.

(** The smoke test starts with an empty environment. The attempt on the
    first guest is given that environment, the attempt on the second guest
    is given the [REBOOT_COUNT] that the run on the first guest has set. *)
Lemma later_guest_sees_reboot_count :
  let r := demo_go quiet_guests false [local_guest; connected_guest] 1 start_smoke in
  ending r = Some None
  /\ dict_at start_smoke (environment smoke) = ∅
  /\ attempt_envs <$> calls_of r = Some [(0, []); (1, [(REBOOT_VARIABLE, "0")])].
Proof. vm_compute. repeat split; reflexivity. Qed.


(** *** Further plans *)

(** A test whose duration is not a duration. *)
Definition hasty : Test :=
  mkTest "/tests/hasty" "shell" "./hasty.sh" "/tests/hasty" "soon" 3%positive None None.

Definition start_hasty : World DemoResult :=
  mkWorld [hasty] {[ 3%positive := ∅ ]} ∅ [] [] [].


(** Guests on which no command can be run. *)
Definition broken_guests : Behaviour :=
  mkBehaviour (fun _ _ => None)
              (fun _ _ _ => inr ∅)
              (fun _ _ _ _ => inl (GuestError "connection lost"))
              (fun _ _ => None).

(** Guests that print the marker and cannot reboot. *)
Definition unbootable_guests : Behaviour :=
  mkBehaviour (fun _ _ => None)
              (fun _ _ _ => inr ∅)
              (fun _ _ _ _ => inr (Some "Requesting reboot: 0"))
              (fun _ _ => Some (GuestError "no way back")).

(** A world in which the attempt of the smoke test has printed a line of
    its own before the request and another one after it. *)
Definition after_chatty_request : World DemoResult :=
  mkWorld [smoke]
          {[ 1%positive := {[ REBOOT_VARIABLE := "7" ]} ]}
          {[ "/var/tmp/tmt/run-001/plan/execute/data/tests/smoke/output.txt"
               := ("going down" +:+ newline) +:+ REBOOT_MARKER +:+ str 7
                    +:+ (newline +:+ "Requesting reboot: 9") ]}
          [] [] [].

Definition demo_test_loop :=
  test_loop DemoResult demo_check_shell demo_check_beakerlib
    "/var/tmp/tmt/run-001/plan/discover" "output.txt" 124
    demo_seconds false 0 nat length demo_duration id demo_data_directory.

(** The calls of the run with two reboots per test, counted. *)
Example rebooting_run_calls :
  let r := demo_go rebooting_guests false [local_guest] 6 start in
  count is_attempt <$> calls_of r = Some 6
  /\ count is_pull <$> calls_of r = Some 6
  /\ count is_reboot <$> calls_of r = Some 4
  /\ length <$> results_of r = Some 2
  /\ pushed <$> calls_of r = Some [0].
Proof. vm_compute. repeat split; reflexivity. Qed.

(** The calls of a run that raises at the pull of the second test. *)
Example flaky_run_calls :
  let r := demo_go flaky_guests false [local_guest; connected_guest] 2 start in
  count is_attempt <$> calls_of r = Some 2
  /\ count is_pull <$> calls_of r = Some 2
  /\ count is_reboot <$> calls_of r = Some 0
  /\ length <$> results_of r = Some 1
  /\ pushed <$> calls_of r = Some [0].
Proof. vm_compute. repeat split; reflexivity. Qed.

Lemma attempt_runs_under_workdir_witness :
  exists w' kwargs,
    final (demo_execute quiet_guests 0 local_guest "1/2" start) = Some w'
    /\ calls w' = [CallExecute 0 "./smoke.sh" (Some kwargs)]
    /\ (exists rest, cwd kwargs = "/var/tmp/tmt/run-001/plan/discover" +:+ rest)
    /\ (forall k p, "/tests/smoke" = slashes k +:+ p ->
          cwd kwargs
          = path_join "/var/tmp/tmt/run-001/plan/discover" (lstrip_slash p)).
Proof.
  exact (attempt_runs_under_workdir DemoResult
           "/var/tmp/tmt/run-001/plan/discover" "output.txt" 124
           demo_seconds false 0 nat length demo_duration id demo_data_directory
           quiet_guests 0 local_guest "1/2" start smoke 300 eq_refl eq_refl).
Defined.

Lemma execute_raises_what_it_does_not_handle_witness :
  (exists w',
     demo_execute quiet_guests 0 local_guest "1/1" start_hasty
     = Exc (SpecificationError "soon") w'
     /\ calls w' = [] /\ tests w' = [hasty] /\ files w' = ∅ /\ verbose_log w' = [])
  /\ (exists w',
        demo_execute broken_guests 0 local_guest "1/1" start_smoke
        = Exc (GuestError "connection lost") w'
        /\ length (calls w') = 1 /\ tests w' = [smoke] /\ files w' = ∅
        /\ verbose_log w' = []).
Proof.
  split.
  - exact (proj1 (execute_raises_what_it_does_not_handle DemoResult
                    "/var/tmp/tmt/run-001/plan/discover" "output.txt" 124
                    demo_seconds false 0 nat length demo_duration id demo_data_directory
                    quiet_guests 0 local_guest "1/1" start_hasty hasty eq_refl) eq_refl).
  - destruct (proj2 (execute_raises_what_it_does_not_handle DemoResult
                       "/var/tmp/tmt/run-001/plan/discover" "output.txt" 124
                       demo_seconds false 0 nat length demo_duration id demo_data_directory
                       broken_guests 0 local_guest "1/1" start_smoke smoke eq_refl)
                    300%Z (GuestError "connection lost") eq_refl eq_refl
                    ltac:(discriminate))
      as (w' & Hrun & Hcalls & Htests & Hfiles & Hlog).
    exists w'. split; [exact Hrun|]. split; [by rewrite Hcalls|].
    split; [exact Htests|]. split; [exact Hfiles|exact Hlog].
Defined.

Lemma request_is_marked : contains_marker ("Requesting reboot: 1" +:+ newline).
Proof. exists "", "1"%char, newline. split; reflexivity. Qed.

Lemma failed_reboot_leaves_reboot_count_witness :
  exists w',
    demo_handle_reboot unbootable_guests 0 local_guest after_request
    = Exc (GuestError "no way back") w'
    /\ calls w' = [CallReboot 0]
    /\ heap w' = heap after_request
    /\ reboot_count smoke w' = Some "1"
    /\ _results w' = [].
Proof.
  exact (failed_reboot_leaves_reboot_count DemoResult "output.txt" demo_data_directory
           unbootable_guests 0 local_guest after_request smoke
           ("Requesting reboot: 1" +:+ newline) (GuestError "no way back")
           eq_refl eq_refl request_is_marked eq_refl).
Defined.

Lemma rebooting_run_returns :
  ending (demo_go rebooting_guests false [local_guest] 6 start) = Some None.
Proof. vm_compute. reflexivity. Qed.

Lemma run_assigns_returncode_and_real_duration_only_witness :
  match final (demo_go rebooting_guests false [local_guest] 6 start) with
  | Some w' =>
      exists rc real,
        tests w' !! 1
        = Some (mkTest "/tests/basic" "beakerlib" "./runtest.sh" "/tests/basic" "1h"
                       2%positive rc real)
  | None => False
  end.
Proof.
  pose proof rebooting_run_returns as Hend.
  destruct (demo_go rebooting_guests false [local_guest] 6 start)
    as [[] w'|e w'|] eqn:Hgo; [|discriminate..].
  assert (final (demo_go rebooting_guests false [local_guest] 6 start) = Some w')
    as Hfin by (by rewrite Hgo).
  simpl.
  destruct (run_assigns_returncode_and_real_duration_only DemoResult
              demo_check_shell demo_check_beakerlib
              "/var/tmp/tmt/run-001/plan/discover" "output.txt" 124
              demo_seconds false 0 nat length demo_duration id demo_data_directory
              rebooting_guests false [local_guest] 6 start w' Hfin) as [_ H].
  exact (H 1 basic eq_refl).
Defined.


Lemma stubborn_guests_always_request guest :
  always_requests_reboot 124 stubborn_guests guest.
Proof.
  intros h command kwargs. exists (Some "Requesting reboot: 0"), 0%Z, "".
  split; [reflexivity|]. exists "", "0"%char, "". split; reflexivity.
Qed.

Lemma stubborn_guests_keep_outputs guest :
  pull_keeps_outputs "output.txt" demo_data_directory stubborn_guests guest.
Proof. intros h source pulled n [= <-]. apply lookup_empty. Qed.

Lemma smoke_has_a_duration t :
  t ∈ tests start_smoke -> is_Some (demo_seconds (duration t)).
Proof.
  intros Ht. apply elem_of_cons in Ht as [->|Ht]; [by eexists|].
  by apply elem_of_nil in Ht.
Qed.

Lemma reboot_requests_are_retried_without_bound_witness :
  demo_test_loop stubborn_guests 1000 local_guest 0 start_smoke = NoFuel
  /\ demo_go stubborn_guests false [local_guest; connected_guest] 1000 start_smoke
     = NoFuel.
Proof.
  destruct (reboot_requests_are_retried_without_bound DemoResult
              demo_check_shell demo_check_beakerlib
              "/var/tmp/tmt/run-001/plan/discover" "output.txt" 124
              demo_seconds false 0 nat length demo_duration id demo_data_directory
              stubborn_guests local_guest [connected_guest] 0 start_smoke
              (stubborn_guests_always_request local_guest)
              (fun h source => ex_intro _ ∅ eq_refl)
              (stubborn_guests_keep_outputs local_guest)
              (fun h => eq_refl)
              smoke_has_a_duration) as [Hloop Hgo].
  split.
  - apply Hloop. simpl. lia.
  - apply Hgo; [discriminate|discriminate|reflexivity].
Defined.

Lemma chatter_is_not_marked : ~ contains_marker ("going down" +:+ newline).
Proof.
  intros H. apply re_search_contains in H as [count0 H]. vm_compute in H. discriminate.
Qed.

Lemma printed_count_is_read_back_witness :
  re_search (("going down" +:+ newline) +:+ REBOOT_MARKER +:+ str 7
               +:+ (newline +:+ "Requesting reboot: 9")) = Some "7"
  /\ exists w',
       demo_handle_reboot rebooting_guests 0 local_guest after_chatty_request
       = Ret true w'
       /\ reboot_count smoke w' = Some "8".
Proof.
  destruct (printed_count_is_read_back DemoResult "output.txt" demo_data_directory
              rebooting_guests 0 local_guest after_chatty_request smoke
              ("going down" +:+ newline) 7 (newline +:+ "Requesting reboot: 9")
              eq_refl eq_refl (or_intror eq_refl) chatter_is_not_marked
              eq_refl eq_refl) as (Hs & _ & Hrun).
  split; [exact Hs|exact Hrun].
Defined.

Lemma finished_run_leaves_reboot_count_zero_witness :
  match demo_go rebooting_guests false [local_guest] 6 start with
  | Ret _ w' => reboot_count smoke w' = Some "0" /\ reboot_count basic w' = Some "0"
  | _ => False
  end.
Proof.
  pose proof rebooting_run_returns as Hend.
  destruct (demo_go rebooting_guests false [local_guest] 6 start)
    as [[] w'|e w'|] eqn:Hgo; [|discriminate..].
  pose proof (finished_run_leaves_reboot_count_zero DemoResult
                demo_check_shell demo_check_beakerlib
                "/var/tmp/tmt/run-001/plan/discover" "output.txt" 124
                demo_seconds false 0 nat length demo_duration id demo_data_directory
                rebooting_guests [local_guest] 6 start w' start_allocated
                ltac:(discriminate) Hgo) as H.
  split; apply H; [by left|by right; left].
Defined.

Lemma finished_run_has_attempted_every_test_witness :
  match demo_go rebooting_guests false [local_guest] 6 start with
  | Ret _ w' =>
      length (tests w') = 2
      /\ forall t', t' ∈ tests w' ->
           exists rc real, returncode t' = Some rc /\ real_duration t' = Some real
  | _ => False
  end.
Proof.
  pose proof rebooting_run_returns as Hend.
  destruct (demo_go rebooting_guests false [local_guest] 6 start)
    as [[] w'|e w'|] eqn:Hgo; [|discriminate..].
  exact (finished_run_has_attempted_every_test DemoResult
           demo_check_shell demo_check_beakerlib
           "/var/tmp/tmt/run-001/plan/discover" "output.txt" 124
           demo_seconds false 0 nat length demo_duration id demo_data_directory
           rebooting_guests [local_guest] 6 start w' start_allocated
           ltac:(discriminate) Hgo).
Defined.

End Scenario.

(** * The progress bar: [ExecuteInternal._show_progress]

    The method keeps state of its own, the attribute
    [_previous_progress_message], and writes to [sys.stdout]; neither is
    seen by the rest of the executor, so it is modelled by itself: a
    [Terminal] holds the attribute ([None] while it is not set, where the
    source gets [AttributeError]), the texts written to [sys.stdout] and
    the messages passed to [self.info], oldest first. *)

Module Progress.

Definition carriage_return : string := String (ascii_of_nat 13) EmptyString.

(** [' ' * n] *)
Fixpoint spaces (n : nat) : string :=
  match n with
  | O => EmptyString
  | S n' => String " "%char (spaces n')
  end.

(** [s.ljust(width)] *)
Definition ljust (s : string) (width : nat) : string :=
  s +:+ spaces (width - String.length s).

Record Terminal := mkTerminal {
  _previous_progress_message : option string;
  stdout : list string;
  info : list string;
}.

(** [f"{test_name} [{progress}]" if not finish else ""] *)
Definition message (progress test_name : string) (finish : bool) : string :=
  if finish then EmptyString else test_name +:+ " [" +:+ progress +:+ "]".

(** The length of the line shown last. *)
Definition width (s : Terminal) : nat :=
  match _previous_progress_message s with
  | Some previous => String.length previous
  | None => 0
  end.

Section ShowProgress.

(** [self.opt('verbose')], [sys.stdout.isatty()],
    [self.opt('no-progress-bar')] and [self.opt('debug')]; the two counting
    options are true when they are not 0. *)
Variable opt_verbose : nat.
Variable isatty : bool.
Variable opt_no_progress_bar : bool.
Variable opt_debug : nat.
(** [self._indent(key, value, color='cyan')] of [tmt.utils.Common], which
    is not among the sources. *)
Variable _indent : string -> string -> string.

(** [_show_progress(self, progress, test_name, finish=False)] *)
Definition _show_progress (progress test_name : string) (finish : bool)
    (s : Terminal) : Terminal :=
  (* Verbose mode outputs other information *)
  if negb (opt_verbose =? 0) then s
  (* No progress if terminal not attached or explicitly disabled *)
  else if negb isatty || opt_no_progress_bar then s
  else
    (* For debug mode show just an info message (unless finishing) *)
    let message := message progress test_name finish in
    if negb (opt_debug =? 0) then
      if finish then s
      else mkTerminal (_previous_progress_message s) (stdout s) (info s ++ [message])
    else
      (* Show progress bar in an interactive shell. *)
      let message :=
        match _previous_progress_message s with
        | Some previous => ljust message (String.length previous)
        | None => message
        end in
      mkTerminal (Some message)
        (stdout s ++ [carriage_return +:+ _indent "progress" message]
                  ++ (if finish then [carriage_return] else []))
        (info s).

(** A sequence of calls, each with its arguments. *)
Definition show_all (shown : list (string * string * bool)) (s : Terminal) : Terminal :=
  foldl (fun s '(progress, test_name, finish) => _show_progress progress test_name finish s)
        s shown.

(** The bar is drawn: not verbose, a terminal, not disabled, not debug. *)
Definition bar_drawn : Prop :=
  opt_verbose = 0 /\ isatty = true /\ opt_no_progress_bar = false /\ opt_debug = 0.

(** The length of the longest message among [shown], and [start] if that
    is more. *)
Definition widest (start : nat) (shown : list (string * string * bool)) : nat :=
  foldl (fun m '(progress, test_name, finish) =>
           m `max` String.length (message progress test_name finish))
        start shown.

Lemma length_spaces n : String.length (spaces n) = n.
Proof. induction n as [|n IH]; simpl; congruence. Qed.

Lemma length_append (a b : string) :
  String.length (a +:+ b) = String.length a + String.length b.
Proof. induction a as [|c a IH]; [done|]. rewrite app_cons. simpl. by rewrite IH. Qed.

Lemma length_ljust s n : String.length (ljust s n) = String.length s `max` n.
Proof. unfold ljust. rewrite length_append, length_spaces. lia. Qed.

Lemma show_progress_bar progress test_name finish s :
  bar_drawn ->
  _show_progress progress test_name finish s =
    let line := ljust (message progress test_name finish) (width s) in
    mkTerminal (Some line)
      (stdout s ++ [carriage_return +:+ _indent "progress" line]
                ++ (if finish then [carriage_return] else []))
      (info s).
Proof.
  intros (Hv & Ht & Hn & Hd). unfold _show_progress, width.
  rewrite Hv, Ht, Hn, Hd. simpl.
  destruct (_previous_progress_message s) as [previous|]; [done|].
  unfold ljust. rewrite Nat.sub_0_l. simpl.
  assert (forall m : string, m +:+ EmptyString = m) as Hnil
    by (induction m as [|c m IH]; [done|by rewrite app_cons, IH]).
  by rewrite Hnil.
Qed.

Lemma show_all_snoc shown c s :
  show_all (shown ++ [c]) s =
    let '(progress, test_name, finish) := c in
    _show_progress progress test_name finish (show_all shown s).
Proof. unfold show_all. by rewrite foldl_app. Qed.

Lemma widest_snoc start shown progress test_name finish :
  widest start (shown ++ [(progress, test_name, finish)])
  = widest start shown `max` String.length (message progress test_name finish).
Proof. unfold widest. by rewrite foldl_app. Qed.

Lemma width_show_all shown s :
  bar_drawn -> width (show_all shown s) = widest (width s) shown.
Proof.
  intros Hbar.
  induction shown as [|[[progress test_name] finish] shown IH] using rev_ind; [done|].
  rewrite show_all_snoc, widest_snoc, show_progress_bar by done.
  unfold width at 1. simpl. rewrite length_ljust, IH. lia.
Qed.

Lemma widest_ge start shown : start <= widest start shown.
Proof.
  induction shown as [|[[progress test_name] finish] shown IH] using rev_ind; [done|].
  rewrite widest_snoc. lia.
Qed.

(** X12. While the bar is drawn, every line written is the message padded
    with spaces to the length of the line before it, so the remembered line
    is always as long as the longest message shown so far: it never gets
    shorter, not even when a guest is finished. *)
Theorem progress_line_is_as_wide_as_the_widest shown s :
  bar_drawn ->
  width (show_all shown s) = widest (width s) shown
  /\ width s <= width (show_all shown s)
  /\ forall progress test_name finish,
       let s1 := show_all shown s in
       let s2 := _show_progress progress test_name finish s1 in
       exists padding,
         _previous_progress_message s2
         = Some (message progress test_name finish +:+ spaces padding)
         /\ String.length (message progress test_name finish) + padding
            = width s1 `max` String.length (message progress test_name finish)
         /\ stdout s2 = stdout s1
              ++ [carriage_return
                    +:+ _indent "progress"
                          (message progress test_name finish +:+ spaces padding)]
              ++ (if finish then [carriage_return] else []).
Proof.
  intros Hbar. split; [by apply width_show_all|]. split.
  - rewrite width_show_all by done. apply widest_ge.
  - intros progress test_name finish s1 s2. unfold s2.
    rewrite show_progress_bar by done. simpl.
    exists (width s1 - String.length (message progress test_name finish)).
    split; [done|]. split; [lia|done].
Qed.

(** X13. Finishing (what [go] does after the tests of a guest) writes a
    line of spaces as long as the longest message shown before, then
    returns to the start of the line; the blank line is what is remembered,
    so the lines of the next guest are padded to that length too. *)
Theorem finish_blanks_the_widest_line shown s :
  bar_drawn ->
  let s' := show_all (shown ++ [(EmptyString, EmptyString, true)]) s in
  let blank := spaces (widest (width s) shown) in
  stdout s' = stdout (show_all shown s)
                ++ [carriage_return +:+ _indent "progress" blank; carriage_return]
  /\ _previous_progress_message s' = Some blank
  /\ info s' = info (show_all shown s).
Proof.
  intros Hbar s' blank. unfold s', blank.
  rewrite show_all_snoc, show_progress_bar by done. simpl.
  unfold ljust. simpl. rewrite Nat.sub_0_r, width_show_all by done. done.
Qed.

(** The messages of the calls that do not finish. *)
Definition messages (shown : list (string * string * bool)) : list string :=
  omap (fun '(progress, test_name, finish) =>
          if finish : bool then None else Some (message progress test_name false))
       shown.

(** X14. In verbose mode, without a terminal or with the bar disabled,
    [_show_progress] does nothing at all. In debug mode it never writes to
    the terminal and remembers no line: it passes the message of every call
    that does not finish to [self.info], in order, and nothing else. *)
Theorem progress_bar_is_drawn_only_on_a_quiet_terminal shown s :
  (opt_verbose <> 0 \/ isatty = false \/ opt_no_progress_bar = true ->
   show_all shown s = s)
  /\ (opt_verbose = 0 -> isatty = true -> opt_no_progress_bar = false ->
      opt_debug <> 0 ->
      stdout (show_all shown s) = stdout s
      /\ _previous_progress_message (show_all shown s) = _previous_progress_message s
      /\ info (show_all shown s) = info s ++ messages shown).
Proof.
  split.
  - intros Hoff.
    assert (forall progress test_name finish s0,
              _show_progress progress test_name finish s0 = s0) as Hone.
    { intros progress test_name finish s0. unfold _show_progress.
      destruct Hoff as [Hv|[Ht|Hn]].
      - apply Nat.eqb_neq in Hv. by rewrite Hv.
      - rewrite Ht. by destruct (opt_verbose =? 0).
      - rewrite Hn. destruct (opt_verbose =? 0); [|done]. simpl.
        by rewrite orb_true_r. }
    induction shown as [|[[progress test_name] finish] shown IH] using rev_ind; [done|].
    by rewrite show_all_snoc, Hone.
  - intros Hv Ht Hn Hd. apply Nat.eqb_neq in Hd.
    induction shown as [|[[progress test_name] finish] shown IH] using rev_ind.
    { simpl. by rewrite app_nil_r. }
    destruct IH as (Hout & Hprev & Hinfo).
    rewrite show_all_snoc. unfold _show_progress, messages.
    rewrite Hv, Ht, Hn, Hd. simpl.
    rewrite omap_app. simpl.
    destruct finish; simpl.
    + rewrite app_nil_r. done.
    + rewrite Hinfo, <- app_assoc. done.
Qed.

End ShowProgress.

(** *** On a terminal *)

(** [_indent] as the indentation of the key and the value. *)
Definition demo_indent (key value : string) : string :=
  "        " +:+ key +:+ ": " +:+ value.

Definition fresh_terminal : Terminal := mkTerminal None [] [].

(** Two tests on one guest, the second with the shorter name. *)
Definition two_tests : list (string * string * bool) :=
  [("1/2", "/tests/smoke/long", false); ("2/2", "/tests/basic", false)].

Lemma progress_line_is_as_wide_as_the_widest_witness :
  width (show_all 0 true false 0 demo_indent two_tests fresh_terminal) = 23
  /\ 0 <= width (show_all 0 true false 0 demo_indent two_tests fresh_terminal).
Proof.
  destruct (progress_line_is_as_wide_as_the_widest 0 true false 0 demo_indent
              two_tests fresh_terminal (conj eq_refl (conj eq_refl (conj eq_refl eq_refl))))
    as (Hw & Hle & _).
  split; [exact Hw|exact Hle].
Defined.

Lemma finish_blanks_the_widest_line_witness :
  stdout (show_all 0 true false 0 demo_indent
            (two_tests ++ [(EmptyString, EmptyString, true)]) fresh_terminal)
  = stdout (show_all 0 true false 0 demo_indent two_tests fresh_terminal)
      ++ [carriage_return +:+ demo_indent "progress" (spaces 23); carriage_return].
Proof.
  exact (proj1 (finish_blanks_the_widest_line 0 true false 0 demo_indent
                  two_tests fresh_terminal
                  (conj eq_refl (conj eq_refl (conj eq_refl eq_refl))))).
Defined.

Lemma progress_bar_is_drawn_only_on_a_quiet_terminal_witness :
  show_all 1 true false 0 demo_indent two_tests fresh_terminal = fresh_terminal
  /\ info (show_all 0 true false 2 demo_indent
             (two_tests ++ [(EmptyString, EmptyString, true)]) fresh_terminal)
     = ["/tests/smoke/long [1/2]"; "/tests/basic [2/2]"].
Proof.
  split.
  - apply (proj1 (progress_bar_is_drawn_only_on_a_quiet_terminal 1 true false 0
                    demo_indent two_tests fresh_terminal)).
    left. discriminate.
  - destruct (proj2 (progress_bar_is_drawn_only_on_a_quiet_terminal 0 true false 2
                       demo_indent (two_tests ++ [(EmptyString, EmptyString, true)])
                       fresh_terminal) eq_refl eq_refl eq_refl ltac:(discriminate))
      as (_ & _ & Hinfo).
    exact Hinfo.
Defined.

(** The lines of the two tests and of the finish, as written. *)
Example two_tests_on_a_terminal :
  stdout (show_all 0 true false 0 demo_indent
            (two_tests ++ [(EmptyString, EmptyString, true)]) fresh_terminal)
  = [carriage_return +:+ "        progress: /tests/smoke/long [1/2]";
     carriage_return +:+ "        progress: /tests/basic [2/2]     ";
     carriage_return +:+ "        progress: " +:+ spaces 23;
     carriage_return].
Proof. vm_compute. reflexivity. Qed.

End Progress.

(** * Choosing the method: tmt/options.py

    [create_method_class(methods)] builds a [click.Command] subclass whose
    [_check_method] reads the [--how] option from the arguments by hand and
    remembers, in [self._method], the command of the first method whose
    name starts with the value given.

    [methods] is a dict from method names to commands, sorted by priority;
    it is modelled by its items in the order of the dict, so the names are
    distinct and [methods[method]] is the command paired with [method].
    [self._method] is [None] or a command. *)

Module Options.

(** How option names *)
Definition HOW : list string := ["-h"; "--how"].

(** [s.startswith(prefix)] *)
Definition startswith (s prefix : string) : bool :=
  match strip_prefix prefix s with
  | Some _ => true
  | None => false
  end.

(** [re.sub('^--how=', '', s)] *)
Definition sub_how_equals (s : string) : string :=
  match strip_prefix "--how=" s with
  | Some rest => rest
  | None => s
  end.

(** [re.sub('^-h ?', '', s)]: the space is taken when there is one. *)
Definition sub_h (s : string) : string :=
  match strip_prefix "-h" s with
  | Some (String " "%char rest) => rest
  | Some rest => rest
  | None => s
  end.

(** The first loop of [_check_method]: the value of [how] when the loop is
    left, [None] when no argument gives one. [args[index + 1]] past the end
    raises [IndexError], which is passed over. *)
Fixpoint manual_how (args : list string) : option string :=
  match args with
  | [] => None
  | arg :: rest =>
      (* Handle '--how method' or '-h method' *)
      if bool_decide (arg ∈ HOW) then head rest
      (* Handle '--how=method' *)
      else if startswith arg "--how=" then Some (sub_how_equals arg)
      (* Handle '-hmethod' *)
      else if startswith arg "-h" then Some (sub_h arg)
      else manual_how rest
  end.

(** An argument at which the loop stops. *)
Definition gives_how (arg : string) : bool :=
  bool_decide (arg ∈ HOW) || startswith arg "--how=" || startswith arg "-h".

Section MethodCommand.

(** The commands of the methods. *)
Variable Command : Type.

(** The second loop: find method with the first matching prefix. *)
Fixpoint first_match (how : string) (methods : list (string * Command))
    : option Command :=
  match methods with
  | [] => None
  | (method, command) :: methods' =>
      if startswith method how then Some command else first_match how methods'
  end.

(** [_check_method(self, args)]: the value of [self._method] after the
    call, given its value before. *)
Definition _check_method (methods : list (string * Command)) (args : list string)
    (_method : option Command) : option Command :=
  match manual_how args with
  | Some how =>
      match first_match how methods with
      | Some command => Some command
      | None => _method
      end
  | None => _method
  end.

(** Who serves a call: the command of the method, or the class itself
    ([super()]). *)
Inductive Served :=
| ByMethod (command : Command)
| BySuper.

Definition served (_method : option Command) : Served :=
  match _method with
  | Some command => ByMethod command
  | None => BySuper
  end.

(** [parse_args(self, context, args)]: the new [self._method] and who
    parses the arguments. *)
Definition parse_args (methods : list (string * Command)) (args : list string)
    (_method : option Command) : option Command * Served :=
  let _method := _check_method methods args _method in
  (_method, served _method).

(** [get_help(self, context)] and [invoke(self, context)]; a command
    object is true. *)
Definition get_help (_method : option Command) : Served := served _method.
Definition invoke (_method : option Command) : Served := served _method.

(** No name among [methods] starts with [how]. *)
Definition no_match (how : string) (methods : list (string * Command)) : Prop :=
  Forall (fun m => startswith m.1 how = false) methods.

Lemma startswith_app p rest : startswith (p +:+ rest) p = true.
Proof.
  unfold startswith.
  by assert (strip_prefix p (p +:+ rest) = Some rest) as -> by (by apply strip_prefix_Some).
Qed.

Lemma startswith_refl s : startswith s s = true.
Proof.
  assert (s = s +:+ EmptyString) as Hs
    by (induction s as [|c s IH]; [done|by rewrite app_cons, <- IH]).
  rewrite Hs at 1. apply startswith_app.
Qed.

Lemma startswith_empty s : startswith s EmptyString = true.
Proof. by destruct s. Qed.

Lemma manual_how_skip before args :
  Forall (fun arg => gives_how arg = false) before ->
  manual_how (before ++ args) = manual_how args.
Proof.
  induction 1 as [|arg before Harg _ IH]; [done|]. simpl.
  unfold gives_how in Harg.
  apply orb_false_elim in Harg as [Harg H3]. apply orb_false_elim in Harg as [H1 H2].
  by rewrite H1, H2, H3.
Qed.

Lemma first_match_found how before method command after :
  no_match how before ->
  startswith method how = true ->
  first_match how (before ++ (method, command) :: after) = Some command.
Proof.
  intros Hno Hm. induction Hno as [|[m c] before Hmc _ IH]; simpl.
  - by rewrite Hm.
  - simpl in Hmc. by rewrite Hmc.
Qed.

Lemma first_match_none how methods :
  no_match how methods <-> first_match how methods = None.
Proof.
  induction methods as [|[m c] methods IH]; simpl.
  - split; [done|constructor].
  - destruct (startswith m how) eqn:Hm.
    + split; [|done]. intros H. apply Forall_cons in H as [H _]. simpl in H. congruence.
    + rewrite <- IH. split.
      * intros H. by apply Forall_cons in H as [_ H].
      * intros H. by constructor.
Qed.

Lemma first_match_in how methods command :
  first_match how methods = Some command ->
  exists method, (method, command) ∈ methods /\ startswith method how = true.
Proof.
  induction methods as [|[m c] methods IH]; simpl; [done|].
  destruct (startswith m how) eqn:Hm.
  - intros [= ->]. exists m. split; [by left|done].
  - intros H. destruct (IH H) as (method & Hin & Hs). exists method.
    split; [by right|done].
Qed.

(** X15. [_check_method] reads the method from [--how METHOD],
    [-h METHOD], [--how=METHOD], [-hMETHOD] and [-h METHOD] given as one
    argument alike. The first argument that gives it decides: the
    arguments before it are skipped, and what comes after it, a second
    [--how] included, is not looked at. *)
Theorem how_is_read_in_every_spelling before method rest :
  Forall (fun arg => gives_how arg = false) before ->
  manual_how (before ++ "--how" :: method :: rest) = Some method
  /\ manual_how (before ++ "-h" :: method :: rest) = Some method
  /\ manual_how (before ++ ("--how=" +:+ method) :: rest) = Some method
  /\ manual_how (before ++ ("-h " +:+ method) :: rest) = Some method
  /\ (forall c method', method = String c method' -> c <> " "%char ->
      manual_how (before ++ ("-h" +:+ method) :: rest) = Some method).
Proof.
  intros Hb. rewrite !manual_how_skip by done.
  split; [reflexivity|]. split; [reflexivity|]. split; [|split].
  - change ("--how=" +:+ method)
      with (String "-" (String "-" (String "h" (String "o" (String "w"
              (String "=" method)))))).
    cbn [manual_how]. rewrite bool_decide_eq_false_2.
    2:{ intros H. apply elem_of_cons in H as [H|H]; [discriminate|].
        apply elem_of_cons in H as [H|H]; [discriminate|]. by apply elem_of_nil in H. }
    reflexivity.
  - change ("-h " +:+ method) with (String "-" (String "h" (String " " method))).
    cbn [manual_how]. rewrite bool_decide_eq_false_2.
    2:{ intros H. apply elem_of_cons in H as [H|H]; [discriminate|].
        apply elem_of_cons in H as [H|H]; [discriminate|]. by apply elem_of_nil in H. }
    reflexivity.
  - intros c method' -> Hc.
    change ("-h" +:+ String c method') with (String "-" (String "h" (String c method'))).
    cbn [manual_how]. rewrite bool_decide_eq_false_2.
    2:{ intros H. apply elem_of_cons in H as [H|H]; [discriminate|].
        apply elem_of_cons in H as [H|H]; [discriminate|]. by apply elem_of_nil in H. }
    unfold startswith, sub_h. simpl.
    destruct c as [[] [] [] [] [] [] [] []]; try reflexivity. by destruct Hc.
Qed.

(** X16. [--how] or [-h] as the last argument gives no method: the
    [IndexError] is passed over, nothing is looked up and [self._method]
    stays what it was. *)
Theorem how_without_a_value_selects_nothing methods before _method :
  Forall (fun arg => gives_how arg = false) before ->
  manual_how (before ++ ["--how"]) = None
  /\ manual_how (before ++ ["-h"]) = None
  /\ _check_method methods (before ++ ["--how"]) _method = _method
  /\ _check_method methods (before ++ ["-h"]) _method = _method.
Proof.
  intros Hb. unfold _check_method. rewrite !manual_how_skip by done. done.
Qed.

(** X17. [_check_method] takes the first method, in the order of
    [methods], whose name starts with the value of [how]: a method is
    chosen by any prefix of its name, and an earlier method with that
    prefix wins over a later one, also over one named exactly so. When no
    name starts with the value, [self._method] stays what it was. *)
Theorem first_matching_prefix_wins methods args how _method :
  manual_how args = Some how ->
  (forall before method command after,
      methods = before ++ (method, command) :: after ->
      no_match how before ->
      startswith method how = true ->
      _check_method methods args _method = Some command)
  /\ (no_match how methods -> _check_method methods args _method = _method)
  /\ (forall command,
        _check_method methods args None = Some command ->
        exists method, (method, command) ∈ methods /\ startswith method how = true).
Proof.
  intros Hhow. unfold _check_method. rewrite Hhow. split; [|split].
  - intros before method command after -> Hno Hm.
    by rewrite (first_match_found _ _ _ _ _ Hno Hm).
  - intros Hno. apply first_match_none in Hno. by rewrite Hno.
  - intros command H. apply first_match_in.
    by destruct (first_match how methods).
Qed.

(** X18. A value of [how] that is the start of the name of one method
    only, or its full name when no other name goes on from it, selects that
    method wherever it stands in [methods]. *)
Theorem unambiguous_how_selects_its_method methods args how _method method command :
  manual_how args = Some how ->
  (method, command) ∈ methods ->
  startswith method how = true ->
  (forall method' command',
      (method', command') ∈ methods -> startswith method' how = true ->
      command' = command) ->
  _check_method methods args _method = Some command
  /\ startswith method method = true.
Proof.
  intros Hhow Hin Hm Honly. split; [|apply startswith_refl].
  unfold _check_method. rewrite Hhow.
  destruct (first_match how methods) as [c|] eqn:Hf.
  - destruct (first_match_in _ _ _ Hf) as (m & Hmin & Hms).
    f_equal. by eapply Honly.
  - apply first_match_none in Hf.
    apply (proj1 (Forall_forall _ _)) with (x := (method, command)) in Hf; [|done].
    simpl in Hf. congruence.
Qed.

(** X19. An empty value ([--how=], or [--how] followed by an empty
    argument) is the start of every name: it selects the first method of
    [methods]. *)
Theorem empty_how_selects_the_first_method methods method command _method before rest :
  Forall (fun arg => gives_how arg = false) before ->
  manual_how (before ++ "--how=" :: rest) = Some EmptyString
  /\ manual_how (before ++ "--how" :: EmptyString :: rest) = Some EmptyString
  /\ _check_method ((method, command) :: methods) (before ++ "--how=" :: rest) _method
     = Some command.
Proof.
  intros Hb. unfold _check_method. rewrite !manual_how_skip by done.
  split; [reflexivity|]. split; [reflexivity|].
  change (manual_how ("--how=" :: rest)) with (Some EmptyString).
  simpl. by rewrite ?startswith_empty.
Qed.

(** X20. [self._method] is never set back to [None]: once a method is
    chosen, a call of [parse_args] whose arguments give no method, or one
    that matches no name, is still served by the method chosen before, and
    so are [get_help] and [invoke]. Checking the same arguments twice
    changes nothing more. *)
Theorem chosen_method_is_kept methods args args' _method command :
  _check_method methods args _method = Some command ->
  (manual_how args' = None
   \/ exists how, manual_how args' = Some how /\ no_match how methods) ->
  parse_args methods args' (Some command) = (Some command, ByMethod command)
  /\ get_help (parse_args methods args' (Some command)).1 = ByMethod command
  /\ invoke (parse_args methods args' (Some command)).1 = ByMethod command
  /\ _check_method methods args (Some command) = Some command
  /\ is_Some (_check_method methods args' (_check_method methods args _method)).
Proof.
  intros Hc Hnone.
  assert (_check_method methods args' (Some command) = Some command) as Hkeep.
  { unfold _check_method. destruct Hnone as [->|(how & -> & Hno)]; [done|].
    apply first_match_none in Hno. by rewrite Hno. }
  unfold parse_args, get_help, invoke. rewrite Hkeep. simpl.
  split; [done|]. split; [done|]. split; [done|]. split.
  - unfold _check_method in *. destruct (manual_how args) as [how|]; [|done].
    destruct (first_match how methods); [done|done].
  - rewrite Hc, Hkeep. by eexists.
Qed.

End MethodCommand.

(** *** The methods of the execute step *)

(** The commands of the three methods of [ExecuteInternal], named by
    their method. *)
Definition execute_methods : list (string * string) :=
  [("tmt", "tmt"); ("shell.tmt", "shell.tmt"); ("beakerlib.tmt", "beakerlib.tmt")].

Lemma plain_arguments : Forall (fun arg => gives_how arg = false) ["-v"; "--dry"].
Proof. repeat constructor. Qed.

Lemma how_is_read_in_every_spelling_witness :
  manual_how (["-v"; "--dry"] ++ "--how" :: "shell" :: ["--how=tmt"]) = Some "shell"
  /\ manual_how (["-v"; "--dry"] ++ "-hshell" :: ["--how=tmt"]) = Some "shell".
Proof.
  destruct (how_is_read_in_every_spelling ["-v"; "--dry"] "shell" ["--how=tmt"]
              plain_arguments) as (H1 & _ & _ & _ & H5).
  split; [exact H1|]. apply (H5 "s"%char "hell" eq_refl). discriminate.
Defined.

Lemma how_without_a_value_selects_nothing_witness :
  _check_method string execute_methods (["-v"; "--dry"] ++ ["--how"]) (Some "tmt")
  = Some "tmt".
Proof.
  exact (proj1 (proj2 (proj2 (how_without_a_value_selects_nothing string
                                execute_methods ["-v"; "--dry"] (Some "tmt")
                                plain_arguments)))).
Defined.

Lemma first_matching_prefix_wins_witness :
  _check_method string execute_methods ["--how=shell"] None = Some "shell.tmt".
Proof.
  apply (proj1 (first_matching_prefix_wins string execute_methods ["--how=shell"]
                  "shell" None eq_refl) [("tmt", "tmt")] "shell.tmt" "shell.tmt"
               [("beakerlib.tmt", "beakerlib.tmt")] eq_refl).
  - repeat constructor.
  - reflexivity.
Defined.

Lemma unambiguous_how_selects_its_method_witness :
  _check_method string execute_methods ["-h"; "b"] None = Some "beakerlib.tmt".
Proof.
  apply (unambiguous_how_selects_its_method string execute_methods ["-h"; "b"] "b"
           None "beakerlib.tmt" "beakerlib.tmt" eq_refl).
  - right. right. left.
  - reflexivity.
  - intros method' command' Hin Hs.
    apply elem_of_cons in Hin as [[= -> ->]|Hin]; [discriminate|].
    apply elem_of_cons in Hin as [[= -> ->]|Hin]; [discriminate|].
    apply elem_of_cons in Hin as [[= -> ->]|Hin]; [reflexivity|].
    by apply elem_of_nil in Hin.
Defined.

Lemma empty_how_selects_the_first_method_witness :
  _check_method string execute_methods (["-v"; "--dry"] ++ "--how=" :: ["-x"]) None
  = Some "tmt".
Proof.
  exact (proj2 (proj2 (empty_how_selects_the_first_method string
                         [("shell.tmt", "shell.tmt"); ("beakerlib.tmt", "beakerlib.tmt")]
                         "tmt" "tmt" None ["-v"; "--dry"] ["-x"] plain_arguments))).
Defined.

Lemma chosen_method_is_kept_witness :
  parse_args string execute_methods ["--how"; "html"] (Some "shell.tmt")
  = (Some "shell.tmt", ByMethod string "shell.tmt").
Proof.
  apply (chosen_method_is_kept string execute_methods ["--how=shell"] ["--how"; "html"]
           None "shell.tmt" eq_refl).
  right. exists "html". split; [reflexivity|]. repeat constructor.
Defined.

End Options.
